(** * DAK API documentation hub generator: a shallow embedding

    Source: [scripts/post-check/06_generate_dak_api_hub.py].

    The script runs after the IG publisher.  It classifies the schema
    files of [output/schemas], writes an OpenAPI wrapper next to each of
    them, builds one enumeration ("catalog") schema per kind, patches
    [dak-api.html] at its placeholder and merges its own QA report into
    the publisher's [qa.json].

    Python values are embedded as follows.
    - [str] is a sequence of Unicode code points ([pystr]); [len] counts
      code points, the size of a file on disk is the size of its UTF-8
      encoding ([utf8_size]).
    - JSON-shaped objects are [pyval]; a [dict] keeps insertion order, so
      it is an association list updated in place ([dict_set]).
    - An exception is the [Raised] outcome; [try]/[except Exception] is a
      match on the outcome.
    - Files are an explicit store ([gmap] from path to content) threaded
      through the functions that read and write them.
    Calls to the logger do not influence any returned value or file; they
    are kept only where a property speaks about them (the HTML
    processor), as a list of levels. *)

From Stdlib Require Import ZArith NArith List String Ascii Bool Lia DecimalString.
From stdpp Require Import base option list gmap.

Local Open Scope Z_scope.

(* ===================================================================== *)
(** * Python strings *)
(* ===================================================================== *)

(** A Python [str]: its code points, in order. *)
Definition pystr := list N.

(** An ASCII literal of the source as a [pystr]. *)
Definition str (s : string) : pystr :=
  List.map N_of_ascii (list_ascii_of_string s).
Arguments str s%_string.

(** [len(s)] *)
Definition len (s : pystr) : Z := Z.of_nat (length s).

(** Number of bytes of one code point in UTF-8. *)
Definition utf8_width (c : N) : Z :=
  if (c <? 128)%N then 1
  else if (c <? 2048)%N then 2
  else if (c <? 65536)%N then 3
  else 4.

(** Number of bytes of the UTF-8 encoding of [s], which is what
    [open(path, "w", encoding="utf-8").write(s)] puts on disk. *)
Definition utf8_size (s : pystr) : Z :=
  fold_right (fun c acc => utf8_width c + acc) 0 s.

(** [s.startswith(p)] *)
Fixpoint startswith (s p : pystr) : bool :=
  match p, s with
  | [], _ => true
  | _ :: _, [] => false
  | a :: p', b :: s' => (a =? b)%N && startswith s' p'
  end.

(** [s.endswith(p)] *)
Definition endswith (s p : pystr) : bool :=
  startswith (rev s) (rev p).

(** [a == b] on strings *)
Definition str_eqb (a b : pystr) : bool := bool_decide (a = b).

(** [x in l] for a list of strings *)
Definition str_in (x : pystr) (l : list pystr) : bool :=
  existsb (str_eqb x) l.

(** [p in s]: [p] occurs in [s] as a substring. *)
Fixpoint contains (s p : pystr) : bool :=
  startswith s p ||
  match s with
  | [] => false
  | _ :: s' => contains s' p
  end.

(** [s.replace(old, new)] for a non-empty [old]: the occurrences of [old]
    are replaced from left to right, without overlap.  [skip] counts the
    characters of an occurrence that remain to be dropped. *)
Fixpoint replace_from (skip : nat) (s old new : pystr) : pystr :=
  match skip, s with
  | S n, _ :: s' => replace_from n s' old new
  | S _, [] => []
  | O, [] => []
  | O, c :: s' =>
      if startswith s old
      then new ++ replace_from (length old - 1) s' old new
      else c :: replace_from O s' old new
  end.

Definition str_replace (s old new : pystr) : pystr :=
  replace_from O s old new.

(** [os.path.join(a, b)] of [posixpath]. *)
Definition os_path_join (a b : pystr) : pystr :=
  if startswith b (str "/") then b
  else if bool_decide (a = []) || endswith a (str "/") then a ++ b
  else a ++ str "/" ++ b.

(** [os.path.basename(p)]: what follows the last ["/"]. *)
Fixpoint basename_from (acc : pystr) (p : pystr) : pystr :=
  match p with
  | [] => acc
  | c :: p' => if (c =? 47)%N then basename_from [] p' else basename_from (acc ++ [c]) p'
  end.

Definition os_path_basename (p : pystr) : pystr := basename_from [] p.

(* ===================================================================== *)
(** * Exceptions *)
(* ===================================================================== *)

(** The outcome of a piece of Python code that may raise. *)
Inductive outcome (A : Type) : Type :=
| Ok (a : A)
| Raised.
Arguments Ok {A} a.
Arguments Raised {A}.

Definition obind {A B} (f : A -> outcome B) (m : outcome A) : outcome B :=
  match m with
  | Ok a => f a
  | Raised => Raised
  end.

#[global] Instance outcome_ret : MRet outcome := fun _ a => Ok a.
#[global] Instance outcome_bind : MBind outcome := fun _ _ f m => obind f m.

(** A lookup that raises when there is nothing to find. *)
Definition or_raise {A} (o : option A) : outcome A :=
  match o with
  | Some a => Ok a
  | None => Raised
  end.

(* ===================================================================== *)
(** * Python objects *)
(* ===================================================================== *)

(** The objects [json.load] builds and the script assembles: [None],
    booleans, integers, strings, lists and dicts.  A dict keeps its keys
    in insertion order.  Numbers with a fraction or an exponent are not
    represented. *)
#[warnings="-register-all"]
Inductive pyval : Type :=
| PNone
| PBool (b : bool)
| PInt (z : Z)
| PStr (s : pystr)
| PList (l : list pyval)
| PDict (d : list (pyval * pyval)).

Definition pydict := list (pyval * pyval).

(** A string key, as in [d["name"]]. *)
Definition key (s : string) : pyval := PStr (str s).
Arguments key s%_string.

(** What Python cannot print without its Unicode tables: [repr] of a list
    or of a dict, which is what [str()] and an f-string give for them. *)
Class Builtins := { py_repr : pyval -> pystr }.

(** [str(z)] for an integer. *)
Definition str_of_Z (z : Z) : pystr :=
  str (NilZero.string_of_int (Z.to_int z)).

(** [str(v)], the text an f-string puts for [{v}]. *)
Definition py_str `{Builtins} (v : pyval) : pystr :=
  match v with
  | PNone => str "None"
  | PBool true => str "True"
  | PBool false => str "False"
  | PInt z => str_of_Z z
  | PStr s => s
  | PList _ | PDict _ => py_repr v
  end.

(** [bool(v)], the test of [if v:]. *)
Definition truthy (v : pyval) : bool :=
  match v with
  | PNone => false
  | PBool b => b
  | PInt z => negb (z =? 0)
  | PStr s => negb (bool_decide (s = []))
  | PList l => match l with [] => false | _ => true end
  | PDict d => match d with [] => false | _ => true end
  end.

(** Lists and dicts cannot be dict keys. *)
Definition hashable (v : pyval) : bool :=
  match v with
  | PList _ | PDict _ => false
  | _ => true
  end.

(** Equality of two dict keys; [True == 1] and [False == 0]. *)
Definition key_eqb (a b : pyval) : bool :=
  match a, b with
  | PNone, PNone => true
  | PStr s, PStr t => str_eqb s t
  | PBool x, PBool y => Bool.eqb x y
  | PInt x, PInt y => x =? y
  | PBool x, PInt y => (if x then 1 else 0) =? y
  | PInt x, PBool y => x =? (if y then 1 else 0)
  | _, _ => false
  end.

(** [d.get(k)] on the entries of a dict: [None] of the option when the
    key is absent. *)
Fixpoint dict_get (d : pydict) (k : pyval) : option pyval :=
  match d with
  | [] => None
  | (k', v) :: d' => if key_eqb k' k then Some v else dict_get d' k
  end.

(** [d[k] = v]: an existing key keeps its place and takes the new value,
    a new key goes to the end. *)
Fixpoint dict_set (d : pydict) (k v : pyval) : pydict :=
  match d with
  | [] => [(k, v)]
  | (k', v') :: d' =>
      if key_eqb k' k then (k', v) :: d' else (k', v') :: dict_set d' k v
  end.

(** [list(d)], the keys in order. *)
Definition dict_keys (d : pydict) : list pyval := List.map fst d.

(** [v.get(k, default)]; anything but a dict has no [get]. *)
Definition py_get (v k dflt : pyval) : outcome pyval :=
  match v with
  | PDict d => Ok (default dflt (dict_get d k))
  | _ => Raised
  end.

(* ===================================================================== *)
(** * SchemaDetector *)
(* ===================================================================== *)

Module SchemaDetector.

(** What [os.path.exists] and [os.listdir] see at the scan path. *)
Inductive scan_target :=
| Missing                          (* [os.path.exists] is false *)
| NotADirectory                    (* exists, [os.listdir] raises *)
| Listing (all_files : list pystr) (* [os.listdir] returns these names *).

(** The dict [{"valueset": [], "logical_model": [], "other": []}]. *)
Record schemas := {
  valueset : list pystr;
  logical_model : list pystr;
  other : list pystr
}.

Definition empty : schemas :=
  {| valueset := []; logical_model := []; other := [] |}.

Definition append_valueset (s : schemas) (p : pystr) : schemas :=
  {| valueset := valueset s ++ [p]; logical_model := logical_model s; other := other s |}.
Definition append_logical_model (s : schemas) (p : pystr) : schemas :=
  {| valueset := valueset s; logical_model := logical_model s ++ [p]; other := other s |}.
Definition append_other (s : schemas) (p : pystr) : schemas :=
  {| valueset := valueset s; logical_model := logical_model s; other := other s ++ [p] |}.

Definition SUFFIX := str ".schema.json".
Definition VALUESET_PREFIX := str "ValueSet-".
Definition CODESYSTEM_PREFIX := str "CodeSystem-".
Definition VALUESETS_ENUM := str "ValueSets.schema.json".
Definition LOGICALMODELS_ENUM := str "LogicalModels.schema.json".

(** One iteration of [for file in all_files]; the state is the dict and
    the counter [schema_count]. *)
Definition loop_body (schema_dir : pystr) (st : schemas * Z) (file : pystr)
  : schemas * Z :=
  let '(s, schema_count) := st in
  if negb (endswith file SUFFIX) then (s, schema_count)
  else
    let schema_count := schema_count + 1 in
    let file_path := os_path_join schema_dir file in
    if startswith file VALUESET_PREFIX then
      (append_valueset s file_path, schema_count)
    else if str_in file [VALUESETS_ENUM; LOGICALMODELS_ENUM] then
      if str_eqb file VALUESETS_ENUM
      then (append_valueset s file_path, schema_count)
      else (append_logical_model s file_path, schema_count)
    else if negb (startswith file VALUESET_PREFIX)
            && negb (startswith file CODESYSTEM_PREFIX) then
      (append_logical_model s file_path, schema_count)
    else
      (append_other s file_path, schema_count).

Definition scan (schema_dir : pystr) (all_files : list pystr) : schemas * Z :=
  fold_left (loop_body schema_dir) all_files (empty, 0).

(** [SchemaDetector.find_schema_files(schema_dir)] *)
Definition find_schema_files (target : scan_target) (schema_dir : pystr)
  : outcome schemas :=
  match target with
  | Missing => Ok empty
  | NotADirectory => Raised
  | Listing all_files => Ok (fst (scan schema_dir all_files))
  end.

(** The three keys of the returned dict. *)
Inductive role := Valueset | LogicalModel | Other.

Definition bucket (r : role) (s : schemas) : list pystr :=
  match r with
  | Valueset => valueset s
  | LogicalModel => logical_model s
  | Other => other s
  end.

(** ** What the properties below are stated with *)

(** The three conditions under which a name reaches each bucket. *)
Definition to_valueset (f : pystr) : bool :=
  endswith f SUFFIX && (startswith f VALUESET_PREFIX || str_eqb f VALUESETS_ENUM).
Definition to_logical_model (f : pystr) : bool :=
  endswith f SUFFIX && negb (startswith f VALUESET_PREFIX) &&
  negb (str_eqb f VALUESETS_ENUM) && negb (startswith f CODESYSTEM_PREFIX).
Definition to_other (f : pystr) : bool :=
  endswith f SUFFIX && startswith f CODESYSTEM_PREFIX.

Definition only_if (b : bool) (p : pystr) : list pystr := if b then [p] else [].

Definition to_role (r : role) : pystr -> bool :=
  match r with
  | Valueset => to_valueset
  | LogicalModel => to_logical_model
  | Other => to_other
  end.

End SchemaDetector.

(* ===================================================================== *)
(** * More Python built-ins *)
(* ===================================================================== *)

(** [for e in v]: the items of a list, the keys of a dict, the characters
    of a string; anything else is not iterable. *)
Definition py_iter (v : pyval) : outcome (list pyval) :=
  match v with
  | PList l => Ok l
  | PDict d => Ok (dict_keys d)
  | PStr s => Ok (List.map (fun c => PStr [c]) s)
  | _ => Raised
  end.

(** [len(v)] *)
Definition py_len (v : pyval) : outcome Z :=
  match v with
  | PList l => Ok (Z.of_nat (length l))
  | PDict d => Ok (Z.of_nat (length d))
  | PStr s => Ok (len s)
  | _ => Raised
  end.

(** One element of the sequence given to [dict(...)]: it must have two
    items, the first of them hashable. *)
Definition pair_of (e : pyval) : outcome (pyval * pyval) :=
  items ← py_iter e;
  match items with
  | [k; v] => if hashable k then Ok (k, v) else Raised
  | _ => Raised
  end.

Fixpoint dict_update (d : pydict) (items : list pyval) : outcome pydict :=
  match items with
  | [] => Ok d
  | e :: items' =>
      kv ← pair_of e;
      dict_update (dict_set d (fst kv) (snd kv)) items'
  end.

(** [dict(v)]: a copy of a dict, or the dict of a sequence of pairs. *)
Definition py_dict (v : pyval) : outcome pydict :=
  match v with
  | PDict d => Ok d
  | _ => items ← py_iter v; dict_update [] items
  end.

(* ===================================================================== *)
(** * QAReporter *)
(* ===================================================================== *)

Module QAReporter.

(** The attributes of a reporter.  [self.report] is kept by its parts
    and put together by [report]; [datetime.now().isoformat()] reads
    [clock] at [ticks] and advances [ticks]. *)
Record t := {
  phase : pystr;
  timestamp : pystr;
  status : pystr;
  summary : pydict;
  successes : list pyval;
  warnings : list pyval;
  errors : list pyval;
  files_processed : list pyval;
  files_expected : list pyval;
  files_missing : list pyval;
  ig_publisher_qa : pyval;
  stored_preprocessing_reports : list pyval;
  clock : nat -> pystr;
  ticks : nat
}.

(** The dict [self.report], keys in the order of [__init__]. *)
Definition report (q : t) : pyval :=
  PDict [
    (key "phase", PStr (phase q));
    (key "timestamp", PStr (timestamp q));
    (key "status", PStr (status q));
    (key "summary", PDict (summary q));
    (key "details", PDict [
       (key "successes", PList (successes q));
       (key "warnings", PList (warnings q));
       (key "errors", PList (errors q));
       (key "files_processed", PList (files_processed q));
       (key "files_expected", PList (files_expected q));
       (key "files_missing", PList (files_missing q))])
  ].

(** [QAReporter(phase)] *)
Definition init (clk : nat -> pystr) (ph : pystr) : t :=
  {| phase := ph; timestamp := clk O; status := str "running"; summary := [];
     successes := []; warnings := []; errors := []; files_processed := [];
     files_expected := []; files_missing := [];
     ig_publisher_qa := PNone; stored_preprocessing_reports := [];
     clock := clk; ticks := 1 |}.

(** [datetime.now().isoformat()] *)
Definition now (q : t) : pystr := clock q (ticks q).

Definition tick (q : t) : t :=
  {| phase := phase q; timestamp := timestamp q; status := status q;
     summary := summary q; successes := successes q; warnings := warnings q;
     errors := errors q; files_processed := files_processed q;
     files_expected := files_expected q; files_missing := files_missing q;
     ig_publisher_qa := ig_publisher_qa q;
     stored_preprocessing_reports := stored_preprocessing_reports q;
     clock := clock q; ticks := S (ticks q) |}.

(** The entry of [add_success], [add_warning] and [add_error]. *)
Definition message_entry (q : t) (message : pystr) (details : pyval) : pyval :=
  PDict ([(key "message", PStr message); (key "timestamp", PStr (now q))]
         ++ (if truthy details then [(key "details", details)] else [])).

Definition add_success (q : t) (message : pystr) (details : pyval) : t :=
  let q' := tick q in
  {| phase := phase q'; timestamp := timestamp q'; status := status q';
     summary := summary q';
     successes := successes q' ++ [message_entry q message details];
     warnings := warnings q'; errors := errors q';
     files_processed := files_processed q'; files_expected := files_expected q';
     files_missing := files_missing q'; ig_publisher_qa := ig_publisher_qa q';
     stored_preprocessing_reports := stored_preprocessing_reports q';
     clock := clock q'; ticks := ticks q' |}.

Definition add_warning (q : t) (message : pystr) (details : pyval) : t :=
  let q' := tick q in
  {| phase := phase q'; timestamp := timestamp q'; status := status q';
     summary := summary q'; successes := successes q';
     warnings := warnings q' ++ [message_entry q message details];
     errors := errors q';
     files_processed := files_processed q'; files_expected := files_expected q';
     files_missing := files_missing q'; ig_publisher_qa := ig_publisher_qa q';
     stored_preprocessing_reports := stored_preprocessing_reports q';
     clock := clock q'; ticks := ticks q' |}.

Definition add_error (q : t) (message : pystr) (details : pyval) : t :=
  let q' := tick q in
  {| phase := phase q'; timestamp := timestamp q'; status := status q';
     summary := summary q'; successes := successes q'; warnings := warnings q';
     errors := errors q' ++ [message_entry q message details];
     files_processed := files_processed q'; files_expected := files_expected q';
     files_missing := files_missing q'; ig_publisher_qa := ig_publisher_qa q';
     stored_preprocessing_reports := stored_preprocessing_reports q';
     clock := clock q'; ticks := ticks q' |}.

(** [add_file_processed(file_path, status, details)] *)
Definition add_file_processed (q : t) (file_path : pystr) (st details : pyval) : t :=
  let q' := tick q in
  let entry :=
    PDict ([(key "file", PStr file_path); (key "status", st);
            (key "timestamp", PStr (now q))]
           ++ (if truthy details then [(key "details", details)] else [])) in
  {| phase := phase q'; timestamp := timestamp q'; status := status q';
     summary := summary q'; successes := successes q'; warnings := warnings q';
     errors := errors q';
     files_processed := files_processed q' ++ [entry];
     files_expected := files_expected q';
     files_missing := files_missing q'; ig_publisher_qa := ig_publisher_qa q';
     stored_preprocessing_reports := stored_preprocessing_reports q';
     clock := clock q'; ticks := ticks q' |}.

(** [add_file_expected(file_path, found)] *)
Definition add_file_expected (q : t) (file_path : pystr) (found : bool) : t :=
  {| phase := phase q; timestamp := timestamp q; status := status q;
     summary := summary q; successes := successes q; warnings := warnings q;
     errors := errors q; files_processed := files_processed q;
     files_expected := files_expected q ++ [PStr file_path];
     files_missing := files_missing q ++ (if found then [] else [PStr file_path]);
     ig_publisher_qa := ig_publisher_qa q;
     stored_preprocessing_reports := stored_preprocessing_reports q;
     clock := clock q; ticks := ticks q |}.

(** What [load_existing_ig_qa] leaves in [self.ig_publisher_qa] when the
    file is there and [json.load] returns [loaded]. *)
Definition set_ig_publisher_qa (q : t) (loaded : pyval) : t :=
  {| phase := phase q; timestamp := timestamp q; status := status q;
     summary := summary q; successes := successes q; warnings := warnings q;
     errors := errors q; files_processed := files_processed q;
     files_expected := files_expected q; files_missing := files_missing q;
     ig_publisher_qa := loaded;
     stored_preprocessing_reports := stored_preprocessing_reports q;
     clock := clock q; ticks := ticks q |}.

Definition store_preprocessing_report (q : t) (rep : pyval) : t :=
  {| phase := phase q; timestamp := timestamp q; status := status q;
     summary := summary q; successes := successes q; warnings := warnings q;
     errors := errors q; files_processed := files_processed q;
     files_expected := files_expected q; files_missing := files_missing q;
     ig_publisher_qa := ig_publisher_qa q;
     stored_preprocessing_reports := stored_preprocessing_reports q ++ [rep];
     clock := clock q; ticks := ticks q |}.

(** A [for] loop whose body may raise: the state reached so far stays,
    and the flag tells whether the loop ran to its end. *)
Fixpoint for_each (body : t -> pyval -> outcome t) (q : t) (l : list pyval)
  : t * bool :=
  match l with
  | [] => (q, true)
  | e :: l' =>
      match body q e with
      | Ok q' => for_each body q' l'
      | Raised => (q, false)
      end
  end.

(** [for e in details.get(name, []): body] *)
Definition for_each_of (details : pyval) (name : pyval)
    (body : t -> pyval -> outcome t) (q : t) : t * bool :=
  match (l ← py_get details name (PList []); py_iter l) with
  | Ok l => for_each body q l
  | Raised => (q, false)
  end.

(** [merge_preprocessing_report(preprocessing_report)].  The flag is
    [false] when the call raises; what was stored and added before the
    exception stays in the reporter. *)
Definition merge_preprocessing_report `{Builtins} (q : t) (rep : pyval) : t * bool :=
  let q := store_preprocessing_report q rep in
  match (ph ← py_get rep (key "phase") (key "Unknown");
         py_get rep (key "component") ph) with
  | Raised => (q, false)
  | Ok component_name =>
  match py_get rep (key "details") (PDict []) with
  | Raised => (q, false)
  | Ok details =>
    let tag := str "[" ++ py_str component_name ++ str "] " in
    let '(q, ok) :=
      for_each_of details (key "successes")
        (fun q e => m ← py_get e (key "message") (PStr []);
                    d ← py_get e (key "details") PNone;
                    Ok (add_success q (tag ++ py_str m) d)) q in
    if negb ok then (q, false) else
    let '(q, ok) :=
      for_each_of details (key "warnings")
        (fun q e => m ← py_get e (key "message") (PStr []);
                    d ← py_get e (key "details") PNone;
                    Ok (add_warning q (tag ++ py_str m) d)) q in
    if negb ok then (q, false) else
    let '(q, ok) :=
      for_each_of details (key "errors")
        (fun q e => m ← py_get e (key "message") (PStr []);
                    d ← py_get e (key "details") PNone;
                    Ok (add_error q (tag ++ py_str m) d)) q in
    if negb ok then (q, false) else
    for_each_of details (key "files_processed")
      (fun q e => f ← py_get e (key "file") (PStr []);
                  st ← py_get e (key "status") (key "unknown");
                  d ← py_get e (key "details") PNone;
                  Ok (add_file_processed q (tag ++ py_str f) st d)) q
  end
  end.

(** [rep.get("component", rep.get("phase", f"component_{i}"))] *)
Definition report_name (i : Z) (rep : pyval) : outcome pyval :=
  ph ← py_get rep (key "phase") (PStr (str "component_" ++ str_of_Z i));
  py_get rep (key "component") ph.

(** The loop of [merge_with_ig_publisher_qa] over
    [enumerate(self._stored_preprocessing_reports)], from index [i]. *)
Fixpoint collect_preprocessing_reports (acc : pydict) (i : Z) (reps : list pyval)
  : outcome pydict :=
  match reps with
  | [] => Ok acc
  | rep :: reps' =>
      name ← report_name i rep;
      if hashable name
      then collect_preprocessing_reports (dict_set acc name rep) (i + 1) reps'
      else Raised
  end.

(** The body of the [try] of [merge_with_ig_publisher_qa]. *)
Definition merged_report (q : t) : outcome pyval :=
  merged ← py_dict (ig_publisher_qa q);
  preprocessing_reports ← collect_preprocessing_reports [] 0 (stored_preprocessing_reports q);
  total_successes ← or_raise (dict_get (summary q) (key "total_successes"));
  total_warnings ← or_raise (dict_get (summary q) (key "total_warnings"));
  total_errors ← or_raise (dict_get (summary q) (key "total_errors"));
  completion ← or_raise (dict_get (summary q) (key "completion_timestamp"));
  Ok (PDict (dict_set merged (key "dak_api_processing")
    (PDict [
       (key "preprocessing_reports", PDict preprocessing_reports);
       (key "postprocessing", report q);
       (key "summary", PDict [
          (key "total_dak_api_successes", total_successes);
          (key "total_dak_api_warnings", total_warnings);
          (key "total_dak_api_errors", total_errors);
          (key "dak_api_completion_timestamp", completion)])]))).

(** [merge_with_ig_publisher_qa()] *)
Definition merge_with_ig_publisher_qa (q : t) : pyval :=
  match merged_report q with
  | Ok merged => merged
  | Raised => report q
  end.

(** The assignments of [finalize_report] to [self.report]. *)
Definition finalized (q : t) (st : pystr) : t :=
  let q' := tick q in
  {| phase := phase q'; timestamp := timestamp q'; status := st;
     summary := [
       (key "total_successes", PInt (Z.of_nat (length (successes q))));
       (key "total_warnings", PInt (Z.of_nat (length (warnings q))));
       (key "total_errors", PInt (Z.of_nat (length (errors q))));
       (key "files_processed_count", PInt (Z.of_nat (length (files_processed q))));
       (key "files_expected_count", PInt (Z.of_nat (length (files_expected q))));
       (key "files_missing_count", PInt (Z.of_nat (length (files_missing q))));
       (key "completion_timestamp", PStr (now q))];
     successes := successes q'; warnings := warnings q'; errors := errors q';
     files_processed := files_processed q'; files_expected := files_expected q';
     files_missing := files_missing q'; ig_publisher_qa := ig_publisher_qa q';
     stored_preprocessing_reports := stored_preprocessing_reports q';
     clock := clock q'; ticks := ticks q' |}.

(** [finalize_report(status)]: the reporter after the call and the
    returned object. *)
Definition finalize_report (q : t) (st : pystr) : t * pyval :=
  let q' := finalized q st in
  (q', if truthy (ig_publisher_qa q')
       then merge_with_ig_publisher_qa q'
       else report q').

(** ** What the properties below are stated with *)

(** A component report as the build writes it: a JSON object whose
    [component], or else [phase], if any, can be a dict key. *)
Definition is_component_report (rep : pyval) : bool :=
  match rep with
  | PDict d =>
      match dict_get d (key "component") with
      | Some n => hashable n
      | None =>
          match dict_get d (key "phase") with
          | Some n => hashable n
          | None => true
          end
      end
  | _ => false
  end.

Definition NAMESPACE : pyval := key "dak_api_processing".

(** The sub-tree that [merge_with_ig_publisher_qa] puts under
    ["dak_api_processing"], for the reporter [q] as [finalize_report]
    leaves it. *)
Definition subtree (q : t) (pr : pydict) : pydict :=
  [(key "preprocessing_reports", PDict pr);
   (key "postprocessing", report q);
   (key "summary", PDict [
      (key "total_dak_api_successes", PInt (Z.of_nat (length (successes q))));
      (key "total_dak_api_warnings", PInt (Z.of_nat (length (warnings q))));
      (key "total_dak_api_errors", PInt (Z.of_nat (length (errors q))));
      (key "dak_api_completion_timestamp", PStr (clock q (pred (ticks q))))])].

(** The calls [merge_preprocessing_report(rep)] for the reports of
    [reps], in order; a call that raises is caught by its caller. *)
Definition merge_all `{Builtins} (q : t) (reps : list pyval) : t :=
  fold_left (fun q rep => fst (merge_preprocessing_report q rep)) reps q.

(** What the [add_*] methods leave alone. *)
Definition same_inputs (q q' : t) : Prop :=
  stored_preprocessing_reports q' = stored_preprocessing_reports q /\
  ig_publisher_qa q' = ig_publisher_qa q.

End QAReporter.

(* ===================================================================== *)
(** * JSON files *)
(* ===================================================================== *)

(** A file as [json.load] and [json.dump] see it: [Json doc] is a file
    whose text is a serialisation of [doc], so [json.load] returns [doc]
    and [json.dump(doc, f, indent=2, ensure_ascii=False)] writes such a
    file, the same text for the same [doc]; [Unparsable] is a file that
    [open] or [json.load] raises on. *)
Inductive file :=
| Json (doc : pyval)
| Unparsable.

(** The files by path, and the paths [open(path, "w")] succeeds on. *)
Record world := {
  files : gmap pystr file;
  can_write : pystr -> bool
}.

(** [with open(path, "r") as f: json.load(f)] *)
Definition load_json (w : world) (path : pystr) : outcome pyval :=
  match files w !! path with
  | Some (Json doc) => Ok doc
  | _ => Raised
  end.

(** [with open(path, "w") as f: json.dump(doc, f, ...)] *)
Definition dump_json (w : world) (path : pystr) (doc : pyval) : outcome world :=
  if can_write w path
  then Ok {| files := <[path := Json doc]> (files w); can_write := can_write w |}
  else Raised.

(** [k in d] for a dict [d]. *)
Definition dict_has (d : pydict) (k : pyval) : bool :=
  match dict_get d k with
  | Some _ => true
  | None => false
  end.

(** [k in v]; on a list or a string membership is by value, which the
    script never uses. *)
Definition py_has_key (v k : pyval) : outcome bool :=
  match v with
  | PDict d => Ok (dict_has d k)
  | _ => Raised
  end.

(** [v[k]] on a dict. *)
Definition py_item (v k : pyval) : outcome pyval :=
  match v with
  | PDict d => or_raise (dict_get d k)
  | _ => Raised
  end.

(* ===================================================================== *)
(** * OpenAPIWrapper *)
(* ===================================================================== *)

Module OpenAPIWrapper.

(** The name derived from the file name. *)
Definition schema_name_of (schema_filename : pystr) : pystr :=
  str_replace schema_filename (str ".schema.json") [].

(** The dict [openapi_spec] built from the parsed schema. *)
Definition openapi_spec `{Builtins} (schema : pyval) (schema_filename schema_type : pystr)
  : outcome pyval :=
  let schema_name := schema_name_of schema_filename in
  let endpoint_path := str "/" ++ schema_filename in
  let '(summary, description) :=
    if str_eqb schema_type (str "valueset")
    then (str "JSON Schema definition for the enumeration " ++ schema_name,
          str "This endpoint serves the JSON Schema definition for the enumeration "
            ++ schema_name ++ str ".")
    else (str "JSON Schema definition for the Logical Model " ++ schema_name,
          str "This endpoint serves the JSON Schema definition for the Logical Model "
            ++ schema_name ++ str ".") in
  title ← py_get schema (key "title") (PStr schema_name);
  info_description ← py_get schema (key "description")
                       (PStr (str "API for " ++ schema_name ++ str " schema"));
  Ok (PDict [
    (key "openapi", key "3.0.3");
    (key "info", PDict [
       (key "title", PStr (py_str title ++ str " API"));
       (key "description", info_description);
       (key "version", key "1.0.0")]);
    (key "paths", PDict [
       (PStr endpoint_path, PDict [
          (key "get", PDict [
             (key "summary", PStr summary);
             (key "description", PStr description);
             (key "responses", PDict [
                (key "200", PDict [
                   (key "description", PStr (str "The JSON Schema for " ++ schema_name));
                   (key "content", PDict [
                      (key "application/schema+json", PDict [
                         (key "schema", PDict [
                            (key "$ref", PStr (str "./" ++ schema_filename))])])])])])])])]);
    (key "components", PDict [
       (key "schemas", PDict [(PStr schema_name, schema)])])]).

(** Where the wrapper goes. *)
Definition wrapper_path_of (schema_path output_dir : pystr) : pystr :=
  os_path_join output_dir
    (schema_name_of (os_path_basename schema_path) ++ str ".openapi.json").

(** [create_wrapper_for_schema(schema_path, schema_type, output_dir)]:
    the files after the call and the returned path, [None] when the
    body of the [try] raised. *)
Definition create_wrapper_for_schema `{Builtins} (w : world)
    (schema_path schema_type output_dir : pystr) : world * option pystr :=
  match (schema ← load_json w schema_path;
         spec ← openapi_spec schema (os_path_basename schema_path) schema_type;
         let wrapper_path := wrapper_path_of schema_path output_dir in
         w' ← dump_json w wrapper_path spec;
         Ok (w', wrapper_path)) with
  | Ok (w', wrapper_path) => (w', Some wrapper_path)
  | Raised => (w, None)
  end.

(** The calls the script makes: one per path of the [valueset] list with
    the type ["valueset"], then one per path of the [logical_model] list
    with the type ["logical_model"]; the [other] list is not read. *)
Definition wrapper_calls (s : SchemaDetector.schemas) : list (pystr * pystr) :=
  List.map (fun p => (p, str "valueset")) (SchemaDetector.valueset s) ++
  List.map (fun p => (p, str "logical_model")) (SchemaDetector.logical_model s).

End OpenAPIWrapper.

(* ===================================================================== *)
(** * DAKApiHubGenerator *)
(* ===================================================================== *)

Module DAKApiHubGenerator.

(** The body of the inner [try]: the entry of one schema file. *)
Definition schema_entry (w : world) (schema_type schema_path : pystr) : outcome pyval :=
  schema ← load_json w schema_path;
  let schema_filename := os_path_basename schema_path in
  id ← py_get schema (key "$id") (PStr []);
  title ← py_get schema (key "title") (PStr schema_filename);
  description ← py_get schema (key "description") (PStr []);
  let entry : pydict :=
    [(key "filename", PStr schema_filename);
     (key "id", id);
     (key "title", title);
     (key "description", description);
     (key "url", PStr (str "./" ++ schema_filename))] in
  let '(url_key, url_field, count_key, count_field) :=
    if str_eqb schema_type (str "valueset")
    then (key "fhir:valueSet", key "valueSetUrl", key "enum", key "codeCount")
    else (key "fhir:logicalModel", key "logicalModelUrl",
          key "properties", key "propertyCount") in
  has_url ← py_has_key schema url_key;
  entry ← (if has_url : bool
           then (u ← py_item schema url_key; Ok (dict_set entry url_field u))
           else Ok entry);
  has_count ← py_has_key schema count_key;
  entry ← (if has_count : bool
           then (c ← py_item schema count_key;
                 n ← py_len c;
                 Ok (dict_set entry count_field (PInt n)))
           else Ok entry);
  Ok (PDict entry).

(** The loop over [schema_files]: an entry that raises is skipped. *)
Fixpoint schemas_list (w : world) (schema_type : pystr) (schema_files : list pystr)
  : list pyval :=
  match schema_files with
  | [] => []
  | schema_path :: rest =>
      match schema_entry w schema_type schema_path with
      | Ok entry => entry :: schemas_list w schema_type rest
      | Raised => schemas_list w schema_type rest
      end
  end.

Definition enum_filename_of (schema_type : pystr) : pystr :=
  if str_eqb schema_type (str "valueset")
  then str "ValueSets.schema.json"
  else str "LogicalModels.schema.json".

Definition typed (t : string) : pyval := PDict [(key "type", PStr (str t))].
Arguments typed t%_string.

(** The dict [enumeration_schema], with the two kind-specific item
    properties already added. *)
Definition enumeration_schema (schema_type : pystr) (entries : list pyval) : pyval :=
  let is_valueset := str_eqb schema_type (str "valueset") in
  let enum_title := if is_valueset then str "ValueSet Enumeration Schema"
                    else str "Logical Model Enumeration Schema" in
  let enum_description :=
    if is_valueset
    then str "JSON Schema defining the structure of the ValueSet enumeration endpoint response"
    else str "JSON Schema defining the structure of the Logical Model enumeration endpoint response" in
  PDict [
    (key "$schema", key "https://json-schema.org/draft/2020-12/schema");
    (key "$id", PStr (str "#/" ++ enum_filename_of schema_type));
    (key "title", PStr enum_title);
    (key "description", PStr enum_description);
    (key "type", key "object");
    (key "properties", PDict [
       (key "type", PDict [(key "type", key "string"); (key "const", PStr schema_type)]);
       (key "count", typed "integer");
       (key "schemas", PDict [
          (key "type", key "array");
          (key "items", PDict [
             (key "type", key "object");
             (key "properties", PDict (
                [(key "filename", typed "string");
                 (key "id", typed "string");
                 (key "title", typed "string");
                 (key "description", typed "string");
                 (key "url", typed "string")] ++
                (if is_valueset
                 then [(key "valueSetUrl", typed "string");
                       (key "codeCount", typed "integer")]
                 else [(key "logicalModelUrl", typed "string");
                       (key "propertyCount", typed "integer")])));
             (key "required", PList [key "filename"; key "title"; key "url"])])])]);
    (key "required", PList [key "type"; key "count"; key "schemas"]);
    (key "example", PDict [
       (key "type", PStr schema_type);
       (key "count", PInt (Z.of_nat (length entries)));
       (key "schemas", PList entries)])].

(** [create_enumeration_schema(schema_type, schema_files, output_dir)] *)
Definition create_enumeration_schema (w : world)
    (schema_type : pystr) (schema_files : list pystr) (output_dir : pystr)
  : world * option pystr :=
  let entries := schemas_list w schema_type schema_files in
  let enum_path := os_path_join output_dir (enum_filename_of schema_type) in
  match dump_json w enum_path (enumeration_schema schema_type entries) with
  | Ok w' => (w', Some enum_path)
  | Raised => (w, None)
  end.

(** ** What the properties below are stated with *)

(** [len] is defined on the value. *)
Definition sized (v : pyval) : bool :=
  match v with
  | PList _ | PDict _ | PStr _ => true
  | _ => false
  end.

(** A schema document the entry can be built from: a JSON object whose
    counted member ([enum] for a value set, [properties] otherwise), if
    present, has a length. *)
Definition well_formed_schema (schema_type : pystr) (doc : pyval) : bool :=
  match doc with
  | PDict d =>
      match dict_get d (if str_eqb schema_type (str "valueset")
                        then key "enum" else key "properties") with
      | Some c => sized c
      | None => true
      end
  | _ => false
  end.

End DAKApiHubGenerator.

(* ===================================================================== *)
(** * Regular expressions of [re] *)
(* ===================================================================== *)

(** The fragment of the pattern language the script's placeholder
    pattern is written in: literal text, and a character class repeated
    zero or more, or one or more, times, greedily or not. *)
Inductive regex :=
| Chars (l : pystr)
| Star (greedy : bool) (p : N -> bool)
| Plus (greedy : bool) (p : N -> bool)
| Seq (r1 r2 : regex).

(** The literal [l] at the head of [s]: what follows it. *)
Fixpoint match_chars (l s : pystr) : option pystr :=
  match l, s with
  | [], _ => Some s
  | _ :: _, [] => None
  | a :: l', b :: s' => if (a =? b)%N then match_chars l' s' else None
  end.

(** [p*] followed by [k]: the longest run first, giving back one
    character at a time while [k] fails. *)
Fixpoint star_greedy (p : N -> bool) (s : pystr) (k : pystr -> option pystr)
  : option pystr :=
  match s with
  | c :: s' =>
      if p c then
        match star_greedy p s' k with
        | Some rest => Some rest
        | None => k s
        end
      else k s
  | [] => k []
  end.

(** [p*?] followed by [k]: the shortest run first, taking one more
    character while [k] fails. *)
Fixpoint star_lazy (p : N -> bool) (s : pystr) (k : pystr -> option pystr)
  : option pystr :=
  match k s with
  | Some rest => Some rest
  | None =>
      match s with
      | c :: s' => if p c then star_lazy p s' k else None
      | [] => None
      end
  end.

(** The backtracking matcher: [r] at the head of [s], then [k] on what
    follows; the result is what follows the whole match. *)
Fixpoint rmatch (r : regex) (s : pystr) (k : pystr -> option pystr) : option pystr :=
  match r with
  | Chars l =>
      match match_chars l s with
      | Some s' => k s'
      | None => None
      end
  | Star greedy p => if greedy then star_greedy p s k else star_lazy p s k
  | Plus greedy p =>
      match s with
      | c :: s' =>
          if p c
          then if greedy then star_greedy p s' k else star_lazy p s' k
          else None
      | [] => None
      end
  | Seq r1 r2 => rmatch r1 s (fun s' => rmatch r2 s' k)
  end.

(** A match of [r] that starts at the head of [s]: what follows it. *)
Definition match_at (r : regex) (s : pystr) : option pystr := rmatch r s Some.

(** [re.search(r, s)]: the leftmost match; the text before it and the
    text after it. *)
Fixpoint re_search (r : regex) (s : pystr) : option (pystr * pystr) :=
  match match_at r s with
  | Some rest => Some ([], rest)
  | None =>
      match s with
      | [] => None
      | c :: s' =>
          match re_search r s' with
          | Some (before, rest) => Some (c :: before, rest)
          | None => None
          end
      end
  end.

(** [\s] on [str]: the white space of Unicode. *)
Definition is_space (c : N) : bool :=
  ((9 <=? c) && (c <=? 13) || (28 <=? c) && (c <=? 32) || (c =? 133) || (c =? 160)
   || (c =? 5760) || (8192 <=? c) && (c <=? 8202) || (c =? 8232) || (c =? 8233)
   || (c =? 8239) || (c =? 8287) || (c =? 12288))%N.

(** ** Replacement templates *)

(** A parsed replacement: literal characters and references to the
    whole match (group 0, the only group of a pattern without
    parentheses). *)
Inductive piece :=
| PChar (c : N)
| PWhole.

Definition is_octal (c : N) : bool := ((48 <=? c) && (c <=? 55))%N.
Definition is_digit (c : N) : bool := ((48 <=? c) && (c <=? 57))%N.
Definition is_ascii_letter (c : N) : bool :=
  ((65 <=? c) && (c <=? 90) || (97 <=? c) && (c <=? 122))%N.
Definition digit_value (c : N) : N := (c - 48)%N.

(** Where the parser of a replacement string is. *)
Inductive template_state :=
| Plain                         (* between escapes *)
| Escape                        (* after a backslash *)
| GroupOpen                     (* after [\g] *)
| GroupName (name : pystr)      (* after [\g<] *)
| GroupNameEscape (name : pystr)(* after a backslash in a group name *)
| Octal0 (digits : nat) (v : N) (* after [\0] and [digits] more digits *)
| Digit1 (c : N)                (* after [\c], [c] in 1..9 *)
| Digit2 (c d : N)              (* after [\cd] *).

(** The escapes of a replacement string that stand for one character. *)
Definition simple_escape (c : N) : option N :=
  if (c =? 97)%N then Some 7%N        (* \a *)
  else if (c =? 98)%N then Some 8%N   (* \b *)
  else if (c =? 102)%N then Some 12%N (* \f *)
  else if (c =? 110)%N then Some 10%N (* \n *)
  else if (c =? 114)%N then Some 13%N (* \r *)
  else if (c =? 116)%N then Some 9%N  (* \t *)
  else if (c =? 118)%N then Some 11%N (* \v *)
  else if (c =? 92)%N then Some 92%N  (* \\ *)
  else None.

(** A group name that is a decimal number: only [0], however written,
    names a group of a pattern without parentheses. *)
Definition names_group_zero (name : pystr) : bool :=
  negb (bool_decide (name = [])) && forallb (fun c => (c =? 48)%N) name.

(** One character of the replacement string: the pieces completed by it
    and the next state, or an error. *)
Definition template_step (st : template_state) (c : N)
  : outcome (list piece * template_state) :=
  let plain (c : N) :=
    if (c =? 92)%N then Ok ([], Escape) else Ok ([PChar c], Plain) in
  match st with
  | Plain => plain c
  | Escape =>
      if (c =? 103)%N then Ok ([], GroupOpen)
      else if (c =? 48)%N then Ok ([], Octal0 O 0%N)
      else if is_digit c then Ok ([], Digit1 c)
      else match simple_escape c with
           | Some e => Ok ([PChar e], Plain)
           | None => if is_ascii_letter c then Raised
                     else Ok ([PChar 92%N; PChar c], Plain)
           end
  | GroupOpen => if (c =? 60)%N then Ok ([], GroupName []) else Raised
  | GroupName name =>
      if (c =? 62)%N then
        if names_group_zero name then Ok ([PWhole], Plain) else Raised
      else if (c =? 92)%N then Ok ([], GroupNameEscape name)
      else Ok ([], GroupName (name ++ [c]))
  | GroupNameEscape name => Ok ([], GroupName (name ++ [92%N; c]))
  | Octal0 digits v =>
      if is_octal c && Nat.ltb digits 2
      then Ok ([], Octal0 (S digits) (v * 8 + digit_value c)%N)
      else '(ps, st') ← plain c; Ok (PChar (N.land v 255) :: ps, st')
  | Digit1 d =>
      if is_octal d && is_octal c then Ok ([], Digit2 d c) else Raised
  | Digit2 d e =>
      if is_octal c then
        let v := (digit_value d * 64 + digit_value e * 8 + digit_value c)%N in
        if (v <=? 255)%N then Ok ([PChar v], Plain) else Raised
      else Raised
  end.

(** The end of the replacement string. *)
Definition template_end (st : template_state) : outcome (list piece) :=
  match st with
  | Plain => Ok []
  | Octal0 _ v => Ok [PChar (N.land v 255)]
  | _ => Raised
  end.

Fixpoint parse_template_from (st : template_state) (repl : pystr)
  : outcome (list piece) :=
  match repl with
  | [] => template_end st
  | c :: repl' =>
      '(ps, st') ← template_step st c;
      rest ← parse_template_from st' repl';
      Ok (ps ++ rest)
  end.

(** The replacement string of [re.sub], parsed (CPython 3.12). *)
Definition parse_template (repl : pystr) : outcome (list piece) :=
  parse_template_from Plain repl.

(** The text a parsed replacement stands for at a match. *)
Definition expand (template : list piece) (matched : pystr) : pystr :=
  flat_map (fun piece => match piece with
                         | PChar c => [c]
                         | PWhole => matched
                         end) template.

(** The scan of [re.sub]: at each position the pattern is tried; a
    match is replaced and the scan goes on after it ([skip] counts the
    characters of the match still to pass), otherwise the character is
    copied.  After an empty match the next character is copied. *)
Fixpoint sub_scan (r : regex) (template : list piece) (skip : nat) (s : pystr)
  : pystr :=
  match skip with
  | S n =>
      match s with
      | _ :: s' => sub_scan r template n s'
      | [] => []
      end
  | O =>
      match match_at r s with
      | Some rest =>
          let n := (length s - length rest)%nat in
          let out := expand template (firstn n s) in
          match s with
          | c :: s' =>
              match n with
              | O => out ++ c :: sub_scan r template O s'
              | S m => out ++ sub_scan r template m s'
              end
          | [] => out
          end
      | None =>
          match s with
          | c :: s' => c :: sub_scan r template O s'
          | [] => []
          end
      end
  end.

(** [re.sub(r, repl, s)] *)
Definition re_sub (r : regex) (repl s : pystr) : outcome pystr :=
  template ← parse_template repl;
  Ok (sub_scan r template O s).

(* ===================================================================== *)
(** * HTMLProcessor *)
(* ===================================================================== *)

Module HTMLProcessor.

(** A page as [open(path, "r", encoding="utf-8").read()] sees it: its
    text, or a path that exists and cannot be read as UTF-8 text. *)
Inductive page :=
| Text (html_content : pystr)
| Unreadable.

(** The pages by path, and the paths [open(path, "w")] succeeds on. *)
Record disk := {
  pages : gmap pystr page;
  writable : pystr -> bool
}.

Inductive level := INFO | WARNING | ERROR.

Definition dquote : pystr := [34%N].

(** The literal parts of the placeholder pattern. *)
Definition DIV_OPEN : pystr := str "<div".
Definition ID_ATTR : pystr :=
  str "id=" ++ dquote ++ str "dak-api-content-placeholder" ++ dquote.
Definition TAG_END : pystr := str ">".
Definition DIV_CLOSE : pystr := str "</div>".

(** The classes [[^>]] and, under [re.DOTALL], [.] *)
Definition not_tag_end (c : N) : bool := negb (c =? 62)%N.
Definition any_char (c : N) : bool := true.

(** [<div\s+id="dak-api-content-placeholder"[^>]*>.*?</div>], compiled
    with [re.DOTALL]. *)
Definition placeholder_pattern : regex :=
  Seq (Chars DIV_OPEN)
 (Seq (Plus true is_space)
 (Seq (Chars ID_ATTR)
 (Seq (Star true not_tag_end)
 (Seq (Chars TAG_END)
 (Seq (Star false any_char)
      (Chars DIV_CLOSE)))))).

Definition comment_marker : pystr := str "<!-- DAK_API_CONTENT -->".

(** The outcome of looking for a marker and substituting. *)
Inductive substitution :=
| NoMarker                      (* neither marker: [return False] *)
| Replaced (new_html : pystr)   (* [new_html] is bound *)
| SubRaised                     (* [re.sub] raised *).

(** The [if]/[else] that binds [new_html], with what it logs. *)
Definition substitute (html_content content : pystr) : substitution * list level :=
  match re_search placeholder_pattern html_content with
  | None =>
      if contains html_content comment_marker
      then (Replaced (str_replace html_content comment_marker content), [INFO])
      else (NoMarker, [ERROR; INFO; INFO; INFO])
  | Some _ =>
      match re_sub placeholder_pattern content html_content with
      | Ok new_html => (Replaced new_html, [INFO])
      | Raised => (SubRaised, [INFO])
      end
  end.

(** What the [except] clause logs. *)
Definition on_exception : list level := [ERROR; ERROR].

(** [inject_content_at_comment_marker(html_file_path, content)]: the
    pages after the call, the returned flag, and the levels logged. *)
Definition inject_content_at_comment_marker (d : disk)
    (html_file_path content : pystr) : disk * bool * list level :=
  let log := [INFO; INFO] in
  match pages d !! html_file_path with
  | None => (d, false, log ++ [ERROR])
  | Some Unreadable => (d, false, log ++ on_exception)
  | Some (Text html_content) =>
      let log := log ++ [INFO] in
      let '(sub, logged) := substitute html_content content in
      let log := log ++ logged in
      match sub with
      | NoMarker => (d, false, log)
      | SubRaised => (d, false, log ++ on_exception)
      | Replaced new_html =>
          let log := log ++ [INFO] in
          if writable d html_file_path then
            let d' := {| pages := <[html_file_path := Text new_html]> (pages d);
                         writable := writable d |} in
            let size_increase := len new_html - len html_content in
            let log := log ++ [INFO; INFO] in
            if 100 <? size_increase
            then (d', true, log ++ [INFO])
            else (d', false, log ++ [WARNING])
          else (d, false, log ++ on_exception)
      end
  end.

(** ** What the properties below are stated with *)

(** The placeholder element: opening tag with white space [ws] before
    the identifier and [attrs] after it, [body], closing tag. *)
Definition placeholder_element (ws attrs body : pystr) : pystr :=
  DIV_OPEN ++ ws ++ ID_ATTR ++ attrs ++ TAG_END ++ body ++ DIV_CLOSE.

End HTMLProcessor.

(* ===================================================================== *)
(** * Sample inputs *)
(* ===================================================================== *)

(** Concrete reporters, worlds and pages, on which the properties below
    are instantiated. *)
Module Samples.
Import QAReporter OpenAPIWrapper DAKApiHubGenerator HTMLProcessor.

(** A [repr] for runs in which no list or dict is formatted. *)
Definition plain_repr : Builtins := {| py_repr := fun _ => str "<object>" |}.

Definition first_report : pyval :=
  PDict [(key "component", key "schemas"); (key "status", key "first")].
Definition second_report : pyval :=
  PDict [(key "component", key "schemas"); (key "status", key "second")].
Definition loaded_reporter : t :=
  set_ig_publisher_qa
    (init (fun _ => str "2025-01-01T00:00:00") (str "postprocessing"))
    (PDict [(key "ok", PBool true)]).

Definition sample_schema (title : string) : file :=
  Json (PDict [(key "title", PStr (str title));
               (key "enum", PList [key "a"; key "b"; key "c"])]).
Arguments sample_schema title%_string.

(** Four value-set schemas and one file that is not JSON. *)
Definition sample_world : world :=
  {| files := list_to_map
       [(str "output/schemas/ValueSet-a.schema.json", sample_schema "A");
        (str "output/schemas/ValueSet-b.schema.json", sample_schema "B");
        (str "output/schemas/ValueSet-bad.schema.json", Unparsable);
        (str "output/schemas/ValueSet-c.schema.json", sample_schema "C");
        (str "output/schemas/ValueSet-d.schema.json", sample_schema "D")];
     can_write := fun _ => true |}.

Definition patient_schema : pyval :=
  PDict [(key "title", key "Patient"); (key "type", key "object")].

(** A first run: only the schema is there. *)
Definition fresh_world : world :=
  {| files := {[ str "output/schemas/Patient.schema.json" := Json patient_schema ]};
     can_write := fun _ => true |}.

(** A later run: a wrapper from before and an unrelated file are there. *)
Definition later_world : world :=
  {| files := list_to_map
       [(str "output/schemas/Patient.schema.json", Json patient_schema);
        (str "output/schemas/Patient.openapi.json", Json (key "stale"));
        (str "output/qa.json", Unparsable)];
     can_write := fun _ => true |}.

Definition plain_page : pystr :=
  str "<html><body><h1>DAK API</h1><div id='other'>text</div></body></html>".

Definition plain_disk : disk :=
  {| pages := {[ str "output/dak-api.html" := Text plain_page ]};
     writable := fun _ => true |}.

(** A page with the legacy marker, and a fragment of 110 times the
    letter e with an acute accent (U+00E9, two bytes in UTF-8). *)
Definition legacy_page : pystr := str "<p>DAK</p>" ++ comment_marker.
Definition accented_fragment : pystr := repeat 233%N 110.
Definition legacy_disk : disk :=
  {| pages := {[ str "output/dak-api.html" := Text legacy_page ]};
     writable := fun _ => true |}.

Definition OPEN_TAG : pystr := DIV_OPEN ++ str " " ++ ID_ATTR ++ TAG_END.

(** A template whose placeholder holds a nested [div]. *)
Definition nested_page : pystr :=
  str "<h2>API</h2>" ++ OPEN_TAG ++
  str "<div class='note'>Loading</div><p>nested tail</p></div><hr>".

Definition nested_disk : disk :=
  {| pages := {[ str "output/dak-api.html" := Text nested_page ]};
     writable := fun _ => true |}.

(** A template whose placeholder holds a comment and a paragraph. *)
Definition template_page : pystr :=
  str "<h2>API</h2>" ++
  placeholder_element (str " ") (str " class='hub'")
    (str "<!-- filled after the build --><p>Loading...</p>") ++
  str "<hr>".

Definition template_disk : disk :=
  {| pages := {[ str "output/dak-api.html" := Text template_page ]};
     writable := fun _ => true |}.

End Samples.

(* ===================================================================== *)
(** * JSON-LD detection and the collection of paths *)
(* ===================================================================== *)

Module Collection.
Import SchemaDetector.

Definition JSONLD_SUFFIX := str ".jsonld".

(** One iteration of the loop of [find_jsonld_files]; the state is the
    list [jsonld_files] and the counter [jsonld_count]. *)
Definition jsonld_loop_body (schema_dir : pystr) (st : list pystr * Z) (file : pystr)
  : list pystr * Z :=
  let '(jsonld_files, jsonld_count) := st in
  if negb (endswith file JSONLD_SUFFIX) then (jsonld_files, jsonld_count)
  else
    let jsonld_count := jsonld_count + 1 in
    let file_path := os_path_join schema_dir file in
    if startswith file VALUESET_PREFIX
    then (jsonld_files ++ [file_path], jsonld_count)
    else (jsonld_files, jsonld_count).

(** [SchemaDetector.find_jsonld_files(schema_dir)] *)
Definition find_jsonld_files (target : scan_target) (schema_dir : pystr)
  : outcome (list pystr) :=
  match target with
  | Missing => Ok []
  | NotADirectory => Raised
  | Listing all_files =>
      Ok (fst (fold_left (jsonld_loop_body schema_dir) all_files ([], 0)))
  end.

(** The body of the two loops of [main] that add a path unless a path
    of the same base name was seen: the loop over [jsonld_files_vocab]
    (state: [jsonld_files], [existing_names]) and the loop of
    [add_paths] (state: [all_openapi_paths], [seen]). *)
Definition add_unseen (st : list pystr * gset pystr) (p : pystr)
  : list pystr * gset pystr :=
  let '(paths, seen) := st in
  let name := os_path_basename p in
  if bool_decide (name ∈ seen) then (paths, seen)
  else (paths ++ [p], seen ∪ {[ name ]}).

(** [jsonld_files] after the files of [output/vocabulary] were added:
    [existing_names] starts as the base names of [jsonld_files]. *)
Definition with_vocabulary (jsonld_files jsonld_files_vocab : list pystr)
  : list pystr :=
  fst (fold_left add_unseen jsonld_files_vocab
         (jsonld_files, list_to_set (List.map os_path_basename jsonld_files))).

(** [add_paths(paths)] on the state [all_openapi_paths], [seen]. *)
Definition add_paths (st : list pystr * gset pystr) (paths : list pystr)
  : list pystr * gset pystr :=
  fold_left add_unseen paths st.

(** [all_openapi_paths] after the three calls of [add_paths]. *)
Definition all_openapi_paths
    (openapi_files_generated openapi_files_source openapi_files_output_images
       : list pystr) : list pystr :=
  fst (add_paths (add_paths (add_paths ([], ∅) openapi_files_generated)
                    openapi_files_source)
         openapi_files_output_images).

End Collection.

(* ===================================================================== *)
(** * The enumeration wrapper *)
(* ===================================================================== *)

Module EnumerationWrapper.

(** The dict [openapi_spec] of [create_enumeration_wrapper]. *)
Definition enumeration_spec (enum_schema : pyval) (schema_type : pystr)
  : outcome pyval :=
  let '(endpoint_path, api_title, api_description) :=
    if str_eqb schema_type (str "valueset")
    then (str "/ValueSets.schema.json", str "ValueSets Enumeration API",
          str "API endpoint providing an enumeration of all available ValueSet schemas")
    else (str "/LogicalModels.schema.json", str "LogicalModels Enumeration API",
          str "API endpoint providing an enumeration of all available Logical Model schemas") in
  example ← py_get enum_schema (key "example") (PDict []);
  Ok (PDict [
    (key "openapi", key "3.0.3");
    (key "info", PDict [
       (key "title", PStr api_title);
       (key "description", PStr api_description);
       (key "version", key "1.0.0")]);
    (key "paths", PDict [
       (PStr endpoint_path, PDict [
          (key "get", PDict [
             (key "summary",
              PStr (str "Get enumeration of all " ++ schema_type ++ str " schemas"));
             (key "description",
              PStr (str "Returns a list of all available " ++ schema_type
                      ++ str " schemas with metadata"));
             (key "responses", PDict [
                (key "200", PDict [
                   (key "description",
                    PStr (str "Successfully retrieved " ++ schema_type
                            ++ str " enumeration"));
                   (key "content", PDict [
                      (key "application/json", PDict [
                         (key "schema", PDict [
                            (key "$ref",
                             key "#/components/schemas/EnumerationResponse")]);
                         (key "example", example)])])])])])])]);
    (key "components", PDict [
       (key "schemas", PDict [(key "EnumerationResponse", enum_schema)])])]).

Definition wrapper_filename_of (schema_type : pystr) : pystr :=
  if str_eqb schema_type (str "valueset")
  then str "ValueSets-enumeration.openapi.json"
  else str "LogicalModels-enumeration.openapi.json".

(** [create_enumeration_wrapper(enum_schema_path, schema_type, output_dir)] *)
Definition create_enumeration_wrapper (w : world)
    (enum_schema_path schema_type output_dir : pystr) : world * option pystr :=
  match (enum_schema ← load_json w enum_schema_path;
         spec ← enumeration_spec enum_schema schema_type;
         let wrapper_path := os_path_join output_dir (wrapper_filename_of schema_type) in
         w' ← dump_json w wrapper_path spec;
         Ok (w', wrapper_path)) with
  | Ok (w', wrapper_path) => (w', Some wrapper_path)
  | Raised => (w, None)
  end.

(** The value at a path of keys in nested dicts. *)
Fixpoint at_path (v : pyval) (keys : list pyval) : option pyval :=
  match keys with
  | [] => Some v
  | k :: keys' =>
      match v with
      | PDict d =>
          match dict_get d k with
          | Some v' => at_path v' keys'
          | None => None
          end
      | _ => None
      end
  end.

End EnumerationWrapper.

(* ===================================================================== *)
(** * StructureDefinition dates (00_add_resource_date_to_index.py) *)
(* ===================================================================== *)

Module ResourceDates.

Definition is_dict (v : pyval) : bool :=
  match v with
  | PDict _ => true
  | _ => false
  end.

(** One iteration of [for key, value in data.items()]. *)
Definition resources_loop_body (resources : list pyval) (item : pyval * pyval)
  : list pyval :=
  let '(k, value) := item in
  match value with
  | PDict d =>
      let name := default k (dict_get d (key "name")) in
      let date := default (key "N/A") (dict_get d (key "date")) in
      resources ++ [PDict [(key "name", name); (key "date", date)]]
  | _ => resources
  end.

(** [get_structuredefinitions(ig_root)], where [sd_json_path] is the
    path [ig_root / "temp" / "pages" / "_data" / "structuredefinitions.json"].
    [json.load] is not guarded: a file that is not JSON raises. *)
Definition get_structuredefinitions (w : world) (sd_json_path : pystr)
  : outcome (list pyval) :=
  match files w !! sd_json_path with
  | None => Ok []
  | Some _ =>
      data ← load_json w sd_json_path;
      match data with
      | PDict items => Ok (fold_left resources_loop_body items [])
      | _ => Ok []
      end
  end.

End ResourceDates.

(* ===================================================================== *)
(** * The reporter under any sequence of calls *)
(* ===================================================================== *)

Module ReporterCalls.
Import QAReporter.

(** [load_existing_ig_qa(qa_file_path)]: the attribute is assigned only
    when the file is there and [json.load] returns. *)
Definition load_existing_ig_qa (w : world) (q : t) (qa_file_path : pystr) : t * bool :=
  match files w !! qa_file_path with
  | Some (Json loaded) => (set_ig_publisher_qa q loaded, true)
  | Some Unparsable => (q, false)
  | None => (q, false)
  end.

(** ** What the properties below are stated with *)

(** A call of a method of the reporter by its client. *)
Inductive call :=
| AddSuccess (message : pystr) (details : pyval)
| AddWarning (message : pystr) (details : pyval)
| AddError (message : pystr) (details : pyval)
| AddFileProcessed (file_path : pystr) (st details : pyval)
| AddFileExpected (file_path : pystr) (found : bool)
| LoadExistingIgQa (qa_file_path : pystr)
| MergePreprocessingReport (rep : pyval)
| FinalizeReport (st : pystr).

(** The reporter after a call; an exception of
    [merge_preprocessing_report] is caught by the client. *)
Definition after `{Builtins} (w : world) (q : t) (c : call) : t :=
  match c with
  | AddSuccess message details => add_success q message details
  | AddWarning message details => add_warning q message details
  | AddError message details => add_error q message details
  | AddFileProcessed file_path st details => add_file_processed q file_path st details
  | AddFileExpected file_path found => add_file_expected q file_path found
  | LoadExistingIgQa qa_file_path => fst (load_existing_ig_qa w q qa_file_path)
  | MergePreprocessingReport rep => fst (merge_preprocessing_report q rep)
  | FinalizeReport st => fst (finalize_report q st)
  end.

Definition after_all `{Builtins} (w : world) (q : t) (calls : list call) : t :=
  fold_left (after w) calls q.

(** The number of entries in the four logs that carry a time stamp. *)
Definition stamped (q : t) : nat :=
  length (successes q) + length (warnings q) + length (errors q)
  + length (files_processed q).

(** [q'] has the logs of [q] and possibly more at their ends, one clock
    reading for each new stamped entry, and the rest of [q] but for the
    stored reports. *)
Definition grown (q q' : t) : Prop :=
  successes q `prefix_of` successes q' /\
  warnings q `prefix_of` warnings q' /\
  errors q `prefix_of` errors q' /\
  files_processed q `prefix_of` files_processed q' /\
  (ticks q' + stamped q = ticks q + stamped q')%nat /\
  phase q' = phase q /\ timestamp q' = timestamp q /\
  status q' = status q /\ summary q' = summary q /\
  files_expected q' = files_expected q /\ files_missing q' = files_missing q /\
  ig_publisher_qa q' = ig_publisher_qa q /\ clock q' = clock q.

(** The [message] of a log entry and the [file] of an entry of
    [files_processed]. *)
Definition message_of (e : pyval) : option pyval :=
  EnumerationWrapper.at_path e [key "message"].
Definition file_of (e : pyval) : option pyval :=
  EnumerationWrapper.at_path e [key "file"].

End ReporterCalls.

(* ===================================================================== *)
(** * The documentation entries collected by [main] *)
(* ===================================================================== *)

Module HubDocs.
Import OpenAPIWrapper.

(** [os.path.exists(path)] for a file. *)
Definition path_exists (w : world) (path : pystr) : bool :=
  match files w !! path with
  | Some _ => true
  | None => false
  end.

(** [if os.path.exists(path): entry[field] = f"schemas/{filename}"] *)
Definition link_if_exists (w : world) (schema_output_dir : pystr)
    (entry : pydict) (field : pyval) (filename : pystr) : pydict :=
  if path_exists w (os_path_join schema_output_dir filename)
  then dict_set entry field (PStr (str "schemas/" ++ filename))
  else entry.

(** The body of the [try] in the two loops of [main] over
    [schemas["valueset"]] and [schemas["logical_model"]]; [is_valueset]
    tells which loop it is.  The result is the files after the
    iteration and the entry appended to [schema_docs], [None] when the
    body raised: it can raise only before the wrapper is made. *)
Definition schema_doc `{Builtins} (is_valueset : bool) (w : world)
    (schema_output_dir schema_path : pystr) : world * option pyval :=
  match (schema ← load_json w schema_path;
         let schema_filename := os_path_basename schema_path in
         let schema_name := str_replace schema_filename (str ".schema.json") [] in
         title ← py_get schema (key "title")
                   (PStr (schema_name ++ str " Schema Documentation"));
         description ← py_get schema (key "description")
                   (if is_valueset then key "ValueSet schema documentation"
                    else key "Logical Model schema documentation");
         Ok (title, description)) with
  | Raised => (w, None)
  | Ok (title, description) =>
      let schema_filename := os_path_basename schema_path in
      let schema_name := str_replace schema_filename (str ".schema.json") [] in
      let '(w, wrapper_path) :=
        create_wrapper_for_schema w schema_path
          (if is_valueset then str "valueset" else str "logical_model")
          schema_output_dir in
      let html_filename := schema_name ++ str ".html" in
      let displays_filename := schema_name ++ str ".displays.json" in
      let openapi_filename := schema_name ++ str ".openapi.json" in
      let jsonld_filename := schema_name ++ str ".jsonld" in
      let entry : pydict :=
        [(key "title", title);
         (key "description", description);
         (key "html_file", PStr html_filename);
         (key "schema_file", PStr (str "schemas/" ++ schema_filename))] in
      let entry :=
        link_if_exists w schema_output_dir entry (key "displays_file") displays_filename in
      let entry :=
        link_if_exists w schema_output_dir entry (key "openapi_file") openapi_filename in
      let entry :=
        if is_valueset
        then link_if_exists w schema_output_dir entry (key "jsonld_file") jsonld_filename
        else entry in
      (w, Some (PDict entry))
  end.

(** One of the two loops: the files after it and the list it leaves in
    [schema_docs]. *)
Fixpoint schema_docs `{Builtins} (is_valueset : bool) (w : world)
    (schema_output_dir : pystr) (schema_paths : list pystr) : world * list pyval :=
  match schema_paths with
  | [] => (w, [])
  | schema_path :: rest =>
      let '(w, entry) := schema_doc is_valueset w schema_output_dir schema_path in
      let '(w, entries) := schema_docs is_valueset w schema_output_dir rest in
      (w, match entry with
          | Some e => e :: entries
          | None => entries
          end)
  end.

(** ** What the properties below are stated with *)

(** The fields of an entry that link a file under [schemas/]. *)
Definition LINKS : list pyval :=
  [key "displays_file"; key "openapi_file"; key "jsonld_file"].

(** An entry links only files that are there: the value of each of
    its link fields is [schemas/<file name>] for a file name that
    exists in the schema output directory. *)
Definition links_exist (w : world) (schema_output_dir : pystr) (entry : pydict) : Prop :=
  forall field f, In field LINKS -> dict_get entry field = Some f ->
    exists filename, f = PStr (str "schemas/" ++ filename) /\
      path_exists w (os_path_join schema_output_dir filename) = true.

End HubDocs.

(* ===================================================================== *)
(** * The JSON-LD and OpenAPI entries collected by [main] *)
(* ===================================================================== *)

Module MainDocs.

(** [item.get("type") == "schema:Enumeration"] for a dict [item]. *)
Definition enumeration_type (item : pydict) : bool :=
  match dict_get item (key "type") with
  | Some (PStr s) => str_eqb s (str "schema:Enumeration")
  | _ => false
  end.

(** [for item in graph: if isinstance(item, dict) and ...: ...; break]:
    the loop ends at the first item that passes the test. *)
Fixpoint graph_loop `{Builtins} (title description : pyval) (graph : list pyval)
  : pyval * pyval :=
  match graph with
  | [] => (title, description)
  | PDict item :: rest =>
      if enumeration_type item then
        let title :=
          match dict_get item (key "name") with
          | Some name => PStr (py_str name ++ str " JSON-LD Vocabulary")
          | None => title
          end in
        let description :=
          match dict_get item (key "comment") with
          | Some comment => comment
          | None => description
          end in
        (title, description)
      else graph_loop title description rest
  | _ :: rest => graph_loop title description rest
  end.

(** The body of the [try] in the loop over [jsonld_files]: the entry
    appended to [jsonld_docs]. *)
Definition jsonld_doc `{Builtins} (w : world) (jsonld_path : pystr) : outcome pyval :=
  vocab ← load_json w jsonld_path;
  let fname := os_path_basename jsonld_path in
  let title := PStr fname in
  let description := key "JSON-LD vocabulary for ValueSet enumeration" in
  graph ← py_get vocab (key "@graph") PNone;
  let '(title, description) :=
    match graph with
    | PList items => graph_loop title description items
    | _ => (title, description)
    end in
  Ok (PDict [(key "title", title); (key "description", description);
             (key "filename", PStr fname)]).

(** The loop over [jsonld_files]: a file whose body raises adds
    nothing. *)
Fixpoint jsonld_docs `{Builtins} (w : world) (jsonld_files : list pystr) : list pyval :=
  match jsonld_files with
  | [] => []
  | jsonld_path :: rest =>
      match jsonld_doc w jsonld_path with
      | Ok entry => entry :: jsonld_docs w rest
      | Raised => jsonld_docs w rest
      end
  end.

(** The [if]/[elif]/[else] that binds [relative_path] in the loop over
    [all_openapi_paths]; [output_openapi_dir_exists] is
    [os.path.exists(output_openapi_dir)].  In Python [A or B and C] is
    [A or (B and C)]. *)
Definition BACKSLASH : pystr := [92%N].

Definition relative_path (openapi_path : pystr) (output_openapi_dir_exists : bool)
  : pystr :=
  let filename := os_path_basename openapi_path in
  let normalized := str_replace openapi_path BACKSLASH (str "/") in
  if contains normalized (str "/output/images/openapi/")
     || (contains normalized (str "/images/openapi/") && output_openapi_dir_exists)
  then str "images/openapi/" ++ filename
  else if endswith (str_replace normalized BACKSLASH (str "/"))
                   (str "/output/schemas/" ++ filename)
          || contains normalized (str "/schemas/")
  then str "schemas/" ++ filename
  else filename.

(** ** What the properties below are stated with *)

(** The test of the loop over [@graph]. *)
Definition is_enumeration (item : pyval) : bool :=
  match item with
  | PDict d => enumeration_type d
  | _ => false
  end.

End MainDocs.

Module MainDocsSamples.

(** The first item of type [schema:Enumeration] and a later one. *)
Definition colours : pydict :=
  [(key "type", key "schema:Enumeration"); (key "name", key "Colours")].
Definition shades : pydict :=
  [(key "type", key "schema:Enumeration"); (key "name", key "Shades");
   (key "comment", key "Shades of a colour")].

Definition vocabulary : pydict :=
  [(key "@context", key "https://schema.org");
   (key "@graph", PList [key "header"; PDict colours; PDict shades])].

Definition vocabulary_world : world :=
  {| files := {[ str "output/schemas/ValueSet-colours.jsonld" := Json (PDict vocabulary) ]};
     can_write := fun _ => true |}.

End MainDocsSamples.

(* ===================================================================== *)
(** * The check of the template by [main] *)
(* ===================================================================== *)

Module TemplateCheck.
Import HTMLProcessor.

(** What [main] logs about [dak-api.html] before it builds the hub. *)
Inductive announcement :=
| FoundPlaceholder   (* INFO: found the placeholder div *)
| FoundLegacyMarker  (* INFO: found the legacy comment marker *)
| NoPlaceholder      (* WARNING: content injection may fail *).

(** The [if]/[elif]/[else] on [template_content]. *)
Definition template_check (template_content : pystr) : announcement :=
  if contains template_content ID_ATTR then FoundPlaceholder
  else if contains template_content comment_marker then FoundLegacyMarker
  else NoPlaceholder.

(** ** What the properties below are stated with *)

(** The start of the placeholder pattern,
    [<div\s+id="dak-api-content-placeholder"]: an opening [div] tag
    whose first attribute is the identifier. *)
Definition opening_pattern : regex :=
  Seq (Chars DIV_OPEN) (Seq (Plus true is_space) (Chars ID_ATTR)).

End TemplateCheck.

(* ===================================================================== *)
(** * Properties of the classifier *)
(* ===================================================================== *)

Section Classifier.
Import SchemaDetector.

Lemma startswith_head (s p : pystr) c :
  startswith s (c :: p) = true -> exists s', s = c :: s'.
Proof.
  destruct s as [|b s']; simpl; [discriminate|].
  intros H. apply andb_true_iff in H as [H _].
  apply N.eqb_eq in H. subst. eauto.
Qed.

Lemma codesystem_not_valueset f :
  startswith f CODESYSTEM_PREFIX = true -> startswith f VALUESET_PREFIX = false.
Proof.
  intros H. apply startswith_head in H as [s' ->]. reflexivity.
Qed.

Lemma codesystem_not_enum f :
  startswith f CODESYSTEM_PREFIX = true ->
  str_eqb f VALUESETS_ENUM = false /\ str_eqb f LOGICALMODELS_ENUM = false.
Proof.
  intros H. apply startswith_head in H as [s' ->].
  split; apply bool_decide_eq_false; discriminate.
Qed.

Lemma str_eqb_eq a b : str_eqb a b = true -> a = b.
Proof. apply bool_decide_eq_true. Qed.

Lemma loop_body_spec dir s n f :
  loop_body dir (s, n) f =
  ({| valueset := valueset s ++ only_if (to_valueset f) (os_path_join dir f);
      logical_model := logical_model s ++ only_if (to_logical_model f) (os_path_join dir f);
      other := other s ++ only_if (to_other f) (os_path_join dir f) |},
   n + (if endswith f SUFFIX then 1 else 0)).
Proof.
  unfold loop_body, str_in, to_valueset, to_logical_model, to_other.
  cbn [existsb].
  destruct (startswith f CODESYSTEM_PREFIX) eqn:Hcs.
  - rewrite (codesystem_not_valueset _ Hcs).
    destruct (codesystem_not_enum _ Hcs) as [-> ->].
    destruct (endswith f SUFFIX); cbn [negb andb orb only_if];
      rewrite ?app_nil_r, ?Z.add_0_r; destruct s; reflexivity.
  - destruct (endswith f SUFFIX), (startswith f VALUESET_PREFIX),
      (str_eqb f VALUESETS_ENUM), (str_eqb f LOGICALMODELS_ENUM);
      cbn [negb andb orb only_if append_valueset append_logical_model
           append_other valueset logical_model other];
      rewrite ?app_nil_r, ?Z.add_0_r; destruct s; reflexivity.
Qed.

(** Where the loop leaves the buckets and the counter, from any state. *)
Lemma scan_from dir l : forall s n,
  fold_left (loop_body dir) l (s, n) =
  ({| valueset := valueset s ++
        List.map (os_path_join dir) (List.filter to_valueset l);
      logical_model := logical_model s ++
        List.map (os_path_join dir) (List.filter to_logical_model l);
      other := other s ++
        List.map (os_path_join dir) (List.filter to_other l) |},
   n + Z.of_nat (length (List.filter (fun f => endswith f SUFFIX) l))).
Proof.
  induction l as [|f l IH]; intros s n.
  - cbn [fold_left List.filter List.map length].
    rewrite !app_nil_r, Z.add_0_r. destruct s; reflexivity.
  - cbn [fold_left]. rewrite loop_body_spec, IH.
    cbn [List.filter valueset logical_model other].
    destruct (to_valueset f), (to_logical_model f), (to_other f),
      (endswith f SUFFIX);
      cbn [only_if List.map length]; rewrite <- ?app_assoc, ?app_nil_r;
      f_equal; lia.
Qed.

Lemma find_schema_files_buckets dir all_files r :
  bucket r (fst (scan dir all_files)) =
  List.map (os_path_join dir) (List.filter (to_role r) all_files).
Proof.
  unfold scan. rewrite scan_from. destruct r; reflexivity.
Qed.

(** A name with the suffix satisfies exactly one of the three conditions. *)
Lemma to_role_partition f :
  endswith f SUFFIX = true ->
  exists r, to_role r f = true /\ forall r', to_role r' f = true -> r' = r.
Proof.
  intros Hsfx.
  destruct (startswith f CODESYSTEM_PREFIX) eqn:Hcs.
  - pose proof (codesystem_not_valueset _ Hcs) as Hvs.
    destruct (codesystem_not_enum _ Hcs) as [Hve _].
    exists Other.
    split; [|intros []];
      unfold to_role, to_valueset, to_logical_model, to_other;
      rewrite Hsfx, ?Hcs, ?Hvs, ?Hve; cbn [andb negb orb]; congruence.
  - destruct (startswith f VALUESET_PREFIX) eqn:Hvs,
      (str_eqb f VALUESETS_ENUM) eqn:Hve;
      [exists Valueset | exists Valueset | exists Valueset | exists LogicalModel];
      (split; [|intros []]);
      unfold to_role, to_valueset, to_logical_model, to_other;
      rewrite Hsfx, ?Hcs, ?Hvs, ?Hve; cbn [andb negb orb]; congruence.
Qed.

(** [os.path.join] with a fixed directory is injective on names that do
    not start with a slash, which is what [os.listdir] returns. *)
Lemma os_path_join_inj dir f g :
  startswith f (str "/") = false -> startswith g (str "/") = false ->
  os_path_join dir f = os_path_join dir g -> f = g.
Proof.
  unfold os_path_join. intros -> ->.
  destruct (bool_decide (dir = []) || endswith dir (str "/")); intros H.
  - now apply app_inv_head in H.
  - apply app_inv_head in H. now apply app_inv_head in H.
Qed.

Lemma in_bucket_iff dir all_files r f :
  Forall (fun g => startswith g (str "/") = false) all_files ->
  List.In f all_files ->
  List.In (os_path_join dir f) (bucket r (fst (scan dir all_files))) <->
  to_role r f = true.
Proof.
  intros Hall Hin. rewrite find_schema_files_buckets.
  rewrite in_map_iff. split.
  - intros (g & Heq & Hg). apply filter_In in Hg as [Hg Hr].
    rewrite Forall_forall in Hall.
    apply os_path_join_inj in Heq; [congruence|apply Hall..].
    + now apply list_elem_of_In.
    + now apply list_elem_of_In.
  - intros Hr. exists f. split; [reflexivity|]. apply filter_In. auto.
Qed.

End Classifier.

(* ===================================================================== *)
(** * Classification: the buckets of [find_schema_files] *)
(* ===================================================================== *)

Section ClassifierClaims.
Import SchemaDetector.

(** C1. For a directory listing [all_files], [find_schema_files] returns
    buckets such that (a) each bucket is the listing, filtered by the
    bucket's condition and joined to the directory, so the listing order
    is kept; (b) the three sizes add up to the number of names ending in
    [.schema.json]; (c) the path of every such name is in exactly one
    bucket (names, as [os.listdir] gives them, do not start with a
    slash). *)
Theorem C1_classification_complete (schema_dir : pystr) (all_files : list pystr) :
  let s := fst (scan schema_dir all_files) in
  find_schema_files (Listing all_files) schema_dir = Ok s /\
  (forall r, bucket r s =
     List.map (os_path_join schema_dir) (List.filter (to_role r) all_files)) /\
  (length (valueset s) + length (logical_model s) + length (other s) =
     length (List.filter (fun f => endswith f SUFFIX) all_files))%nat /\
  (Forall (fun f => startswith f (str "/") = false) all_files ->
   forall f, List.In f all_files -> endswith f SUFFIX = true ->
   exists r, List.In (os_path_join schema_dir f) (bucket r s) /\
     forall r', List.In (os_path_join schema_dir f) (bucket r' s) -> r' = r).
Proof.
  intros s. split; [reflexivity|]. split; [|split].
  - intros r. apply find_schema_files_buckets.
  - subst s. unfold scan. rewrite scan_from.
    cbn [fst valueset logical_model other empty app].
    rewrite !length_map.
    induction all_files as [|f l IH]; [reflexivity|].
    cbn [List.filter].
    destruct (endswith f SUFFIX) eqn:Hsfx.
    + destruct (to_role_partition f Hsfx) as (r & Hr & Huniq).
      destruct (to_valueset f) eqn:Hv, (to_logical_model f) eqn:Hl,
        (to_other f) eqn:Ho; cbn [length];
        try lia;
        try (pose proof (Huniq Valueset Hv); pose proof (Huniq LogicalModel Hl); congruence);
        try (pose proof (Huniq Valueset Hv); pose proof (Huniq Other Ho); congruence);
        try (pose proof (Huniq LogicalModel Hl); pose proof (Huniq Other Ho); congruence).
      destruct r; cbn in Hr; congruence.
    + unfold to_valueset, to_logical_model, to_other. rewrite Hsfx.
      cbn [andb]. exact IH.
  - intros Hall f Hin Hsfx.
    destruct (to_role_partition f Hsfx) as (r & Hr & Huniq).
    exists r. split.
    + now apply in_bucket_iff.
    + intros r' Hr'. apply Huniq. now apply (in_bucket_iff schema_dir all_files).
Qed.

Lemma C1_witness :
  exists r, List.In (str "output/schemas/Patient.schema.json")
    (bucket r (fst (scan (str "output/schemas")
       [str "ValueSet-a.schema.json"; str "README.md"; str "Patient.schema.json";
        str "CodeSystem-x.schema.json"]))).
Proof.
  destruct (C1_classification_complete (str "output/schemas")
    [str "ValueSet-a.schema.json"; str "README.md"; str "Patient.schema.json";
     str "CodeSystem-x.schema.json"]) as (_ & _ & _ & H).
  destruct (H ltac:(repeat constructor) (str "Patient.schema.json")
              ltac:(cbn; tauto) eq_refl) as (r & Hr & _).
  exists r. exact Hr.
Defined.

(** C7 (as stated, refuted). A directory that holds the two catalog
    files: both paths are appended to the per-item lists [valueset] and
    [logical_model], the very lists the per-item synthesis iterates. *)
Lemma C7_catalog_names_in_item_lists :
  find_schema_files
    (Listing [str "ValueSets.schema.json"; str "LogicalModels.schema.json"])
    (str "output/schemas") =
  Ok {| valueset := [str "output/schemas/ValueSets.schema.json"];
        logical_model := [str "output/schemas/LogicalModels.schema.json"];
        other := [] |}.
Proof. reflexivity. Qed.

(** C7 (amended). The returned dict has the three lists [valueset],
    [logical_model] and [other] and nothing else.  [ValueSets.schema.json]
    goes to the [valueset] list and [LogicalModels.schema.json] to the
    [logical_model] list, in listing order among the per-item schemas of
    that kind, and neither goes to [other]. *)
Theorem C7_catalog_names_routed_by_kind (schema_dir : pystr) (all_files : list pystr) :
  let s := fst (scan schema_dir all_files) in
  find_schema_files (Listing all_files) schema_dir = Ok s /\
  to_role Valueset VALUESETS_ENUM = true /\
  to_role LogicalModel LOGICALMODELS_ENUM = true /\
  (forall r, bucket r s =
     List.map (os_path_join schema_dir) (List.filter (to_role r) all_files)) /\
  (List.In VALUESETS_ENUM all_files ->
     List.In (os_path_join schema_dir VALUESETS_ENUM) (valueset s)) /\
  (List.In LOGICALMODELS_ENUM all_files ->
     List.In (os_path_join schema_dir LOGICALMODELS_ENUM) (logical_model s)) /\
  to_role Other VALUESETS_ENUM = false /\
  to_role Other LOGICALMODELS_ENUM = false.
Proof.
  intros s. repeat split; try reflexivity.
  - intros r. apply find_schema_files_buckets.
  - intros Hin. subst s. rewrite (find_schema_files_buckets _ _ Valueset).
    apply in_map, filter_In. split; [exact Hin|reflexivity].
  - intros Hin. subst s. rewrite (find_schema_files_buckets _ _ LogicalModel).
    apply in_map, filter_In. split; [exact Hin|reflexivity].
Qed.

Lemma C7_witness :
  List.In (os_path_join (str "out") VALUESETS_ENUM)
    (valueset (fst (scan (str "out") [str "ValueSet-a.schema.json"; VALUESETS_ENUM]))).
Proof.
  destruct (C7_catalog_names_routed_by_kind (str "out")
    [str "ValueSet-a.schema.json"; VALUESETS_ENUM]) as (_ & _ & _ & _ & H & _).
  apply H. cbn. tauto.
Defined.

(** C10. The [other] list is exactly the listing restricted to the names
    that end in [.schema.json] and start with [CodeSystem-]: each such
    name is there, each entry comes from such a name, and no such name
    satisfies the condition of the [valueset] or of the [logical_model]
    list, the two lists the synthesis reads. *)
Theorem C10_other_is_codesystem (schema_dir : pystr) (all_files : list pystr) :
  let s := fst (scan schema_dir all_files) in
  find_schema_files (Listing all_files) schema_dir = Ok s /\
  other s = List.map (os_path_join schema_dir)
              (List.filter (fun f => endswith f SUFFIX &&
                                     startswith f CODESYSTEM_PREFIX) all_files) /\
  (forall f, List.In f all_files -> endswith f SUFFIX = true ->
     startswith f CODESYSTEM_PREFIX = true ->
     List.In (os_path_join schema_dir f) (other s)) /\
  (forall p, List.In p (other s) ->
     exists f, List.In f all_files /\ p = os_path_join schema_dir f /\
       endswith f SUFFIX = true /\ startswith f CODESYSTEM_PREFIX = true) /\
  (forall f, startswith f CODESYSTEM_PREFIX = true ->
     to_role Valueset f = false /\ to_role LogicalModel f = false).
Proof.
  intros s. split; [reflexivity|].
  assert (Hother : other s = List.map (os_path_join schema_dir)
              (List.filter (fun f => endswith f SUFFIX &&
                                     startswith f CODESYSTEM_PREFIX) all_files)).
  { subst s. apply (find_schema_files_buckets _ _ Other). }
  split; [exact Hother|]. split; [|split].
  - intros f Hin Hsfx Hcs. rewrite Hother. apply in_map, filter_In.
    split; [exact Hin|]. now rewrite Hsfx, Hcs.
  - intros p Hp. rewrite Hother in Hp. apply in_map_iff in Hp as (f & <- & Hf).
    apply filter_In in Hf as [Hin Hc]. apply andb_true_iff in Hc as [Hsfx Hcs].
    exists f. auto.
  - intros f Hcs. unfold to_role, to_valueset, to_logical_model.
    rewrite Hcs, (codesystem_not_valueset _ Hcs).
    destruct (codesystem_not_enum _ Hcs) as [-> _].
    cbn [negb orb andb]. now rewrite !andb_false_r.
Qed.

Lemma C10_witness :
  List.In (os_path_join (str "out") (str "CodeSystem-x.schema.json"))
    (other (fst (scan (str "out")
       [str "Patient.schema.json"; str "CodeSystem-x.schema.json"]))).
Proof.
  destruct (C10_other_is_codesystem (str "out")
    [str "Patient.schema.json"; str "CodeSystem-x.schema.json"])
    as (_ & _ & H & _).
  apply H; [cbn; tauto|reflexivity|reflexivity].
Defined.

End ClassifierClaims.

(* ===================================================================== *)
(** * Properties of dicts *)
(* ===================================================================== *)

Section Dicts.

Lemma str_eqb_refl s : str_eqb s s = true.
Proof. now apply bool_decide_eq_true. Qed.

Lemma key_eqb_refl k : hashable k = true -> key_eqb k k = true.
Proof.
  destruct k as [|b|z|s|l|d]; cbn; try congruence; intros _.
  - now destruct b.
  - apply Z.eqb_refl.
  - apply str_eqb_refl.
Qed.

Lemma key_eqb_sym a b : key_eqb a b = key_eqb b a.
Proof.
  destruct a as [|x|x|x|x|x], b as [|y|y|y|y|y]; cbn; try reflexivity.
  - now destruct x, y.
  - apply Z.eqb_sym.
  - apply Z.eqb_sym.
  - apply Z.eqb_sym.
  - unfold str_eqb. apply bool_decide_ext. split; congruence.
Qed.

(** Two keys equal to a third one are equal to the same keys. *)
Lemma key_eqb_eucl a k k' :
  key_eqb a k = true -> key_eqb a k' = key_eqb k k'.
Proof.
  destruct a as [|x|x|x|x|x], k as [|y|y|y|y|y]; cbn; try discriminate;
    intros H; destruct k' as [|w|w|w|w|w]; cbn; try reflexivity.
  all: try (apply Z.eqb_eq in H).
  all: try (apply str_eqb_eq in H).
  all: try (destruct x, y; cbn in *; try discriminate; reflexivity).
  all: try (subst; reflexivity).
  all: try (destruct x; subst; reflexivity).
  all: try (destruct y; subst; reflexivity).
  - subst y. now destruct x, w.
  - destruct y; subst x; now destruct w.
Qed.

Lemma dict_get_set_eq d k v :
  hashable k = true -> dict_get (dict_set d k v) k = Some v.
Proof.
  intros Hk. induction d as [|[k1 v1] d IH]; cbn.
  - now rewrite key_eqb_refl.
  - destruct (key_eqb k1 k) eqn:E; cbn; rewrite E; [reflexivity|exact IH].
Qed.

Lemma dict_get_set_ne d k v k' :
  key_eqb k k' = false -> dict_get (dict_set d k v) k' = dict_get d k'.
Proof.
  intros Hne. induction d as [|[k1 v1] d IH]; cbn.
  - now rewrite Hne.
  - destruct (key_eqb k1 k) eqn:E; cbn.
    + now rewrite (key_eqb_eucl _ _ k' E), Hne.
    + now rewrite IH.
Qed.

(** Setting a key adds it at the end when it is new and keeps the keys
    as they are when it is there. *)
Lemma dict_keys_set d k v :
  dict_keys (dict_set d k v) =
  match dict_get d k with
  | Some _ => dict_keys d
  | None => dict_keys d ++ [k]
  end.
Proof.
  unfold dict_keys.
  induction d as [|[k1 v1] d IH]; cbn; [reflexivity|].
  destruct (key_eqb k1 k); cbn; [reflexivity|].
  rewrite IH. now destruct (dict_get d k).
Qed.

End Dicts.

(* ===================================================================== *)
(** * Properties of the QA reporter *)
(* ===================================================================== *)

Section Reporter.
Import QAReporter.

Lemma report_name_ok i rep :
  is_component_report rep = true ->
  exists n, report_name i rep = Ok n /\ hashable n = true.
Proof.
  destruct rep as [| | | | |d]; cbn; try discriminate.
  unfold report_name. cbn.
  destruct (dict_get d (key "component")) as [n|]; cbn.
  - intros Hn. destruct (dict_get d (key "phase")); cbn; eauto.
  - destruct (dict_get d (key "phase")) as [n|]; cbn; eauto.
Qed.

Lemma collect_ok reps : forall acc i,
  Forall (fun rep => is_component_report rep = true) reps ->
  exists pr, collect_preprocessing_reports acc i reps = Ok pr.
Proof.
  induction reps as [|rep reps IH]; intros acc i Hall; cbn; [eauto|].
  inversion Hall as [|? ? Hrep Hreps]; subst.
  destruct (report_name_ok i rep Hrep) as (n & -> & Hn). cbn.
  rewrite Hn. apply IH, Hreps.
Qed.

Lemma collect_app l1 : forall l2 acc i,
  collect_preprocessing_reports acc i (l1 ++ l2) =
  (acc' ← collect_preprocessing_reports acc i l1;
   collect_preprocessing_reports acc' (i + Z.of_nat (length l1)) l2).
Proof.
  induction l1 as [|rep l1 IH]; intros l2 acc i.
  - cbn. now rewrite Z.add_0_r.
  - cbn [app collect_preprocessing_reports length].
    destruct (report_name i rep) as [n|]; cbn; [|reflexivity].
    destruct (hashable n); [|reflexivity].
    rewrite IH.
    now replace (i + Z.of_nat (S (length l1))) with (i + 1 + Z.of_nat (length l1)) by lia.
Qed.

(** Reports with other names leave the entry of [n] as it is. *)
Lemma collect_frame l : forall acc i pr n,
  (forall (j : nat) rep' n', l !! j = Some rep' ->
     report_name (i + Z.of_nat j) rep' = Ok n' -> key_eqb n' n = false) ->
  collect_preprocessing_reports acc i l = Ok pr ->
  dict_get pr n = dict_get acc n.
Proof.
  induction l as [|rep l IH]; intros acc i pr n Hother Hc; cbn in Hc.
  - now inversion Hc.
  - destruct (report_name i rep) as [m|] eqn:Hm; cbn in Hc; [|discriminate].
    destruct (hashable m); [|discriminate].
    rewrite (IH _ _ _ n) with (2 := Hc).
    + apply dict_get_set_ne. apply (Hother O rep m); [reflexivity|].
      now rewrite Z.add_0_r.
    + intros j rep' n' Hj Hn'. apply (Hother (S j) rep' n'); [exact Hj|].
      now replace (i + Z.of_nat (S j)) with (i + 1 + Z.of_nat j) by lia.
Qed.

Lemma truthy_dict d : d <> [] -> truthy (PDict d) = true.
Proof. destruct d; [congruence|reflexivity]. Qed.

(** What [finalize_report] returns over a loaded, non-empty external
    report when the stored component reports can be keyed. *)
Lemma finalize_report_merged q st ext pr :
  ig_publisher_qa q = PDict ext -> ext <> [] ->
  collect_preprocessing_reports [] 0 (stored_preprocessing_reports q) = Ok pr ->
  snd (finalize_report q st) =
  PDict (dict_set ext NAMESPACE (PDict (subtree (finalized q st) pr))).
Proof.
  intros Hext Hne Hpr. unfold finalize_report. cbn [snd].
  change (ig_publisher_qa (finalized q st)) with (ig_publisher_qa q).
  rewrite Hext, (truthy_dict _ Hne).
  unfold merge_with_ig_publisher_qa, merged_report.
  change (ig_publisher_qa (finalized q st)) with (ig_publisher_qa q).
  change (stored_preprocessing_reports (finalized q st))
    with (stored_preprocessing_reports q).
  rewrite Hext, Hpr. reflexivity.
Qed.




(** ** A run of [merge_preprocessing_report] calls *)

Context `{Builtins}.

Lemma same_inputs_refl q : same_inputs q q.
Proof. split; reflexivity. Qed.

Lemma same_inputs_trans q1 q2 q3 :
  same_inputs q1 q2 -> same_inputs q2 q3 -> same_inputs q1 q3.
Proof. unfold same_inputs. intros [-> ->] [-> ->]. auto. Qed.

Lemma for_each_same_inputs body l :
  (forall q e q', body q e = Ok q' -> same_inputs q q') ->
  forall q, same_inputs q (fst (for_each body q l)).
Proof.
  intros Hbody. induction l as [|e l IH]; intros q; cbn.
  - apply same_inputs_refl.
  - destruct (body q e) as [q'|] eqn:Hq; cbn.
    + eapply same_inputs_trans; [apply (Hbody _ _ _ Hq)|apply IH].
    + apply same_inputs_refl.
Qed.

Lemma for_each_of_same_inputs details name body q :
  (forall q e q', body q e = Ok q' -> same_inputs q q') ->
  same_inputs q (fst (for_each_of details name body q)).
Proof.
  intros Hbody. unfold for_each_of.
  destruct (l ← py_get details name (PList []); py_iter l) as [l|].
  - now apply for_each_same_inputs.
  - apply same_inputs_refl.
Qed.

Ltac body_same_inputs :=
  let q := fresh "q" in let e := fresh "e" in let q' := fresh "q'" in
  let Hb := fresh "Hb" in
  intros q e q' Hb;
  unfold mbind, outcome_bind, obind in Hb;
  repeat match type of Hb with
         | context [py_get ?a ?b ?c] => destruct (py_get a b c); try discriminate
         end;
  inversion Hb; subst; split; reflexivity.

Lemma merge_preprocessing_report_stores q rep :
  let q' := fst (merge_preprocessing_report q rep) in
  stored_preprocessing_reports q' = stored_preprocessing_reports q ++ [rep] /\
  ig_publisher_qa q' = ig_publisher_qa q.
Proof.
  cbv zeta.
  assert (Hgoal : same_inputs (store_preprocessing_report q rep)
                    (fst (merge_preprocessing_report q rep))).
  { unfold merge_preprocessing_report.
    set (q0 := store_preprocessing_report q rep).
    destruct (ph ← py_get rep (key "phase") (key "Unknown");
              py_get rep (key "component") ph) as [name|];
      [|apply same_inputs_refl].
    destruct (py_get rep (key "details") (PDict [])) as [details|];
      [|apply same_inputs_refl].
    match goal with
    | |- context [for_each_of details (key "successes") ?b q0] =>
        pose proof (for_each_of_same_inputs details (key "successes") b q0
                      ltac:(body_same_inputs)) as H1;
        destruct (for_each_of details (key "successes") b q0) as [q1 ok1]
    end.
    cbn [fst] in H1. destruct ok1; cbn [negb]; [|exact H1].
    match goal with
    | |- context [for_each_of details (key "warnings") ?b q1] =>
        pose proof (for_each_of_same_inputs details (key "warnings") b q1
                      ltac:(body_same_inputs)) as H2;
        destruct (for_each_of details (key "warnings") b q1) as [q2 ok2]
    end.
    cbn [fst] in H2. destruct ok2; cbn [negb];
      [|exact (same_inputs_trans _ _ _ H1 H2)].
    match goal with
    | |- context [for_each_of details (key "errors") ?b q2] =>
        pose proof (for_each_of_same_inputs details (key "errors") b q2
                      ltac:(body_same_inputs)) as H3;
        destruct (for_each_of details (key "errors") b q2) as [q3 ok3]
    end.
    cbn [fst] in H3. destruct ok3; cbn [negb];
      [|exact (same_inputs_trans _ _ _ (same_inputs_trans _ _ _ H1 H2) H3)].
    eapply same_inputs_trans;
      [exact (same_inputs_trans _ _ _ (same_inputs_trans _ _ _ H1 H2) H3)|].
    apply for_each_of_same_inputs. body_same_inputs. }
  destruct Hgoal as [Hs Hi]. split; [rewrite Hs|rewrite Hi]; reflexivity.
Qed.

Lemma merge_all_stores reps : forall q,
  stored_preprocessing_reports (merge_all q reps) =
    stored_preprocessing_reports q ++ reps /\
  ig_publisher_qa (merge_all q reps) = ig_publisher_qa q.
Proof.
  induction reps as [|rep reps IH]; intros q; cbn.
  - now rewrite app_nil_r.
  - destruct (IH (fst (merge_preprocessing_report q rep))) as [Hs Hi].
    destruct (merge_preprocessing_report_stores q rep) as [Hs1 Hi1].
    unfold merge_all in *. rewrite Hs, Hi, Hs1, Hi1, <- app_assoc. auto.
Qed.


End Reporter.

Section ReporterExamples.
Import QAReporter.
Import Samples.



End ReporterExamples.

(* ===================================================================== *)
(** * Properties of the catalog generator *)
(* ===================================================================== *)

Section Catalog.
Import DAKApiHubGenerator.
Import Samples.

Lemma schema_entry_unreadable w schema_type path :
  load_json w path = Raised -> schema_entry w schema_type path = Raised.
Proof. unfold schema_entry. now intros ->. Qed.

Lemma py_len_sized c : sized c = true -> exists n, py_len c = Ok n.
Proof. destruct c; cbn; try discriminate; eauto. Qed.

Lemma schema_entry_well_formed w schema_type path doc :
  load_json w path = Ok doc ->
  well_formed_schema schema_type doc = true ->
  exists entry, schema_entry w schema_type path = Ok entry.
Proof.
  intros Hload Hwf. unfold schema_entry. rewrite Hload.
  destruct doc as [| | | | |d]; try discriminate.
  cbn [mbind outcome_bind obind py_get].
  unfold well_formed_schema in Hwf.
  destruct (str_eqb schema_type (str "valueset"));
    cbn [py_has_key py_item mbind outcome_bind obind]; unfold dict_has.
  - destruct (dict_get d (key "fhir:valueSet"));
      cbn [or_raise mbind outcome_bind obind];
      destruct (dict_get d (key "enum")) as [c|];
      cbn [or_raise mbind outcome_bind obind]; eauto;
      destruct (py_len_sized c Hwf) as [n ->];
      cbn [mbind outcome_bind obind]; eauto.
  - destruct (dict_get d (key "fhir:logicalModel"));
      cbn [or_raise mbind outcome_bind obind];
      destruct (dict_get d (key "properties")) as [c|];
      cbn [or_raise mbind outcome_bind obind]; eauto;
      destruct (py_len_sized c Hwf) as [n ->];
      cbn [mbind outcome_bind obind]; eauto.
Qed.

Lemma schemas_list_app w schema_type l1 l2 :
  schemas_list w schema_type (l1 ++ l2) =
  schemas_list w schema_type l1 ++ schemas_list w schema_type l2.
Proof.
  induction l1 as [|p l1 IH]; cbn; [reflexivity|].
  destruct (schema_entry w schema_type p); cbn; now rewrite IH.
Qed.

Lemma schemas_list_well_formed w schema_type l :
  Forall (fun p => exists doc, load_json w p = Ok doc /\
                     well_formed_schema schema_type doc = true) l ->
  length (schemas_list w schema_type l) = length l.
Proof.
  induction 1 as [|p l (doc & Hload & Hwf) _ IH]; cbn; [reflexivity|].
  destruct (schema_entry_well_formed w schema_type p doc Hload Hwf) as [e ->].
  cbn. now rewrite IH.
Qed.



End Catalog.

(* ===================================================================== *)
(** * Properties of the wrapper synthesis *)
(* ===================================================================== *)

Section Wrapper.
Import SchemaDetector OpenAPIWrapper.
Context `{Builtins}.

Lemma openapi_spec_version schema schema_filename schema_type spec :
  openapi_spec schema schema_filename schema_type = Ok spec ->
  exists top info, spec = PDict top /\
    dict_get top (key "info") = Some (PDict info) /\
    dict_get info (key "version") = Some (key "1.0.0").
Proof.
  unfold openapi_spec.
  destruct (str_eqb schema_type (str "valueset"));
    destruct (py_get schema (key "title") _) as [title|]; cbn; try discriminate;
    destruct (py_get schema (key "description") _) as [d|]; cbn; try discriminate;
    intros Hs; inversion Hs; eexists _, _; repeat split; reflexivity.
Qed.

(** The call on a world whose schema file parses to [doc]. *)
Lemma create_wrapper_for_schema_eq w schema_path schema_type output_dir doc :
  files w !! schema_path = Some (Json doc) ->
  can_write w (wrapper_path_of schema_path output_dir) = true ->
  create_wrapper_for_schema w schema_path schema_type output_dir =
  match openapi_spec doc (os_path_basename schema_path) schema_type with
  | Ok spec =>
      ({| files := <[wrapper_path_of schema_path output_dir := Json spec]> (files w);
          can_write := can_write w |},
       Some (wrapper_path_of schema_path output_dir))
  | Raised => (w, None)
  end.
Proof.
  intros Hdoc Hw. unfold create_wrapper_for_schema, load_json, dump_json.
  rewrite Hdoc. cbn [mbind outcome_bind obind].
  destruct (openapi_spec doc (os_path_basename schema_path) schema_type);
    cbn [mbind outcome_bind obind]; [|reflexivity].
  now rewrite Hw.
Qed.

(** No path is synthesized under two types: the type of a call is fixed
    by the name of its file. *)
Lemma wrapper_calls_type dir all_files p ty :
  List.In (p, ty) (wrapper_calls (fst (scan dir all_files))) ->
  exists f, List.In f all_files /\ p = os_path_join dir f /\
    to_other f = false /\
    ty = if to_valueset f then str "valueset" else str "logical_model".
Proof.
  unfold wrapper_calls. rewrite in_app_iff, !in_map_iff.
  pose proof (find_schema_files_buckets dir all_files Valueset) as Hv.
  pose proof (find_schema_files_buckets dir all_files LogicalModel) as Hl.
  cbn [bucket to_role] in Hv, Hl. rewrite Hv, Hl.
  intros [(q & Hq & Hin)|(q & Hq & Hin)]; inversion Hq; subst;
    apply in_map_iff in Hin as (f & <- & Hf);
    apply filter_In in Hf as [Hf Hrole]; exists f.
  - assert (Hsfx : endswith f SUFFIX = true).
    { unfold to_valueset in Hrole. now apply andb_true_iff in Hrole as [? _]. }
    destruct (to_role_partition f Hsfx) as (r & _ & Huniq).
    pose proof (Huniq Valueset Hrole). subst r.
    repeat split; [assumption| |now rewrite Hrole].
    destruct (to_other f) eqn:Ho; [|reflexivity].
    now pose proof (Huniq Other Ho).
  - assert (Hsfx : endswith f SUFFIX = true).
    { unfold to_logical_model in Hrole.
      now repeat (apply andb_true_iff in Hrole as [Hrole _]). }
    destruct (to_role_partition f Hsfx) as (r & _ & Huniq).
    pose proof (Huniq LogicalModel Hrole). subst r.
    repeat split; [assumption| |].
    + destruct (to_other f) eqn:Ho; [|reflexivity].
      now pose proof (Huniq Other Ho).
    + destruct (to_valueset f) eqn:Hv'; [|reflexivity].
      now pose proof (Huniq Valueset Hv').
Qed.


End Wrapper.

Section WrapperExamples.
Import OpenAPIWrapper.
Import Samples.


End WrapperExamples.

(* ===================================================================== *)
(** * Properties of the HTML processor *)
(* ===================================================================== *)

Section Injection.
Import HTMLProcessor.
Import Samples.

(** C2. A page that exists and has no match of the placeholder pattern
    and no legacy marker (or cannot be read at all): the call returns
    [False], logs an error, and the pages are what they were, no write
    having been made. *)
Theorem C2_no_marker_no_write (d : disk) (html_file_path content : pystr) (pg : page) :
  pages d !! html_file_path = Some pg ->
  (forall html_content, pg = Text html_content ->
     re_search placeholder_pattern html_content = None /\
     contains html_content comment_marker = false) ->
  exists log,
    inject_content_at_comment_marker d html_file_path content = (d, false, log) /\
    List.In ERROR log.
Proof.
  intros Hpage Hnone. unfold inject_content_at_comment_marker. rewrite Hpage.
  destruct pg as [html_content|].
  - destruct (Hnone html_content eq_refl) as [Hsearch Hlegacy].
    unfold substitute. rewrite Hsearch, Hlegacy.
    eexists. split; [reflexivity|]. cbn. tauto.
  - eexists. split; [reflexivity|]. cbn. tauto.
Qed.

Lemma C2_witness :
  exists log,
    inject_content_at_comment_marker plain_disk (str "output/dak-api.html")
      (str "<div class='dak-api-hub'></div>") = (plain_disk, false, log) /\
    List.In ERROR log.
Proof.
  apply (C2_no_marker_no_write plain_disk (str "output/dak-api.html")
           (str "<div class='dak-api-hub'></div>") (Text plain_page)).
  - vm_compute. reflexivity.
  - intros html_content Heq. inversion Heq; subst.
    split; vm_compute; reflexivity.
Defined.

(** The call on a readable, writable page whose substitution gave
    [new_html]. *)
Lemma inject_replaced d html_file_path content html_content new_html logged :
  pages d !! html_file_path = Some (Text html_content) ->
  substitute html_content content = (Replaced new_html, logged) ->
  writable d html_file_path = true ->
  inject_content_at_comment_marker d html_file_path content =
  ({| pages := <[html_file_path := Text new_html]> (pages d);
      writable := writable d |},
   100 <? len new_html - len html_content,
   [INFO; INFO; INFO] ++ logged ++ [INFO; INFO; INFO] ++
   [if 100 <? len new_html - len html_content then INFO else WARNING]).
Proof.
  intros Hpage Hsub Hw. unfold inject_content_at_comment_marker.
  rewrite Hpage, Hsub, Hw.
  destruct (100 <? len new_html - len html_content);
    cbn [app]; rewrite <- ?app_assoc; reflexivity.
Qed.




End Injection.

(* ===================================================================== *)
(** * Properties of the matcher *)
(* ===================================================================== *)

Section Matcher.

Lemma match_chars_spec l : forall s rest,
  match_chars l s = Some rest <-> s = l ++ rest.
Proof.
  induction l as [|a l IH]; intros s rest; cbn.
  - split; [now intros [= ->]|now intros ->].
  - destruct s as [|b s]; [split; discriminate|].
    destruct (N.eqb_spec a b) as [->|Hne].
    + rewrite IH. split; [now intros ->|now intros [= ->]].
    + split; [discriminate|]. intros [= -> ->]. congruence.
Qed.

Lemma match_chars_app l s : match_chars l (l ++ s) = Some s.
Proof. now apply match_chars_spec. Qed.

Lemma startswith_spec p : forall s,
  startswith s p = true <-> exists rest, s = p ++ rest.
Proof.
  induction p as [|a p IH]; intros s.
  - split; [eauto|now destruct s].
  - destruct s as [|b s]; cbn; [split; [discriminate|now intros [? ?]]|].
    rewrite andb_true_iff, IH, N.eqb_eq. split.
    + intros [-> [rest ->]]. eauto.
    + intros [rest [= -> ->]]. eauto.
Qed.

Lemma contains_startswith s p : startswith s p = true -> contains s p = true.
Proof. destruct s; cbn [contains]; now intros ->. Qed.

(** An occurrence anywhere is found. *)
Lemma contains_app a p b : contains (a ++ p ++ b) p = true.
Proof.
  induction a as [|c a IH].
  - cbn [app]. apply contains_startswith, startswith_spec. eauto.
  - cbn [app contains]. rewrite IH. apply orb_true_r.
Qed.

Lemma contains_suffix a s p : contains (a ++ s) p = false -> contains s p = false.
Proof.
  induction a as [|c a IH]; [trivial|].
  cbn [app contains]. intros Hc. apply orb_false_iff in Hc as [_ Hc]. auto.
Qed.

(** A text that ends right before the character [a], laid over a text
    [y] that has [a] nowhere after its head: [y] lies within it. *)
Lemma prefix_before_char (t r y u : pystr) (a : N) :
  t <> [] -> ~ List.In a (tail y) -> t ++ a :: r = y ++ u ->
  exists k, t = y ++ k.
Proof.
  intros Ht Hy Heq. apply app_eq_inv in Heq as [(k & -> & _)|(k & -> & Hk)].
  - eauto.
  - destruct k as [|c k].
    + exists []. now rewrite !app_nil_r.
    + cbn in Hk. inversion Hk; subst c. exfalso. apply Hy.
      destruct t as [|c0 t]; [congruence|]. cbn. apply in_app_iff.
      right. now left.
Qed.

(** ** Repetitions *)

(** A greedy repetition stops at the first character outside the class
    when what follows matches there. *)
Lemma star_greedy_run p w c s k rest :
  forallb p w = true -> p c = false -> k (c :: s) = Some rest ->
  star_greedy p (w ++ c :: s) k = Some rest.
Proof.
  intros Hw Hc Hk. induction w as [|a w IH]; cbn.
  - now rewrite Hc.
  - cbn in Hw. apply andb_true_iff in Hw as [-> Hw]. now rewrite IH.
Qed.

(** A greedy repetition fails when what follows fails after every run. *)
Lemma star_greedy_fails p s k :
  (forall w s', s = w ++ s' -> forallb p w = true -> k s' = None) ->
  star_greedy p s k = None.
Proof.
  induction s as [|c s IH]; intros Hk; cbn.
  - now apply (Hk [] []).
  - assert (Hhere : k (c :: s) = None) by now apply (Hk [] (c :: s)).
    destruct (p c) eqn:Hc; [|exact Hhere].
    rewrite IH; [exact Hhere|].
    intros w s' -> Hw. apply (Hk (c :: w) s'); [reflexivity|].
    cbn. now rewrite Hc.
Qed.

(** A lazy repetition stops at the first place where what follows
    matches. *)
Lemma star_lazy_first p body t k rest :
  forallb p body = true ->
  (forall b1 b2, body = b1 ++ b2 -> b2 <> [] -> k (b2 ++ t) = None) ->
  k t = Some rest ->
  star_lazy p (body ++ t) k = Some rest.
Proof.
  intros Hp Hnone Hk. induction body as [|c body IH].
  - cbn [app]. destruct t; cbn; now rewrite Hk.
  - pose proof (Hnone [] (c :: body) eq_refl ltac:(discriminate)) as Hhere.
    cbn [app] in Hhere. cbn [app star_lazy]. rewrite Hhere.
    cbn in Hp. apply andb_true_iff in Hp as [-> Hp].
    apply IH; [exact Hp|].
    intros b1 b2 -> Hb2. now apply (Hnone (c :: b1) b2).
Qed.

(** ** Scanning *)

Lemma re_search_skip r before s after :
  (forall b1 b2, before = b1 ++ b2 -> b2 <> [] -> match_at r (b2 ++ s) = None) ->
  match_at r s = Some after ->
  re_search r (before ++ s) = Some (before, after).
Proof.
  intros Hnone Hat. induction before as [|c before IH].
  - cbn [app]. destruct s; cbn; now rewrite Hat.
  - pose proof (Hnone [] (c :: before) eq_refl ltac:(discriminate)) as Hhere.
    cbn [app] in Hhere. cbn [app re_search]. rewrite Hhere.
    rewrite IH; [reflexivity|].
    intros b1 b2 -> Hb2. now apply (Hnone (c :: b1) b2).
Qed.

Lemma sub_scan_no_match r template s :
  re_search r s = None -> sub_scan r template O s = s.
Proof.
  induction s as [|c s IH]; cbn.
  - now destruct (match_at r []).
  - destruct (match_at r (c :: s)); [discriminate|].
    destruct (re_search r s) as [[? ?]|]; [discriminate|].
    intros _. now rewrite IH.
Qed.

Lemma sub_scan_skip r template l s :
  sub_scan r template (length l) (l ++ s) = sub_scan r template O s.
Proof. induction l as [|c l IH]; [reflexivity|exact IH]. Qed.

(** The scan over a text whose only match is [m], between [before] and
    [after]. *)
Lemma sub_scan_one r template before m after :
  m <> [] ->
  (forall b1 b2, before = b1 ++ b2 -> b2 <> [] ->
     match_at r (b2 ++ m ++ after) = None) ->
  match_at r (m ++ after) = Some after ->
  re_search r after = None ->
  sub_scan r template O (before ++ m ++ after) =
  before ++ expand template m ++ after.
Proof.
  intros Hm Hnone Hat Hafter. induction before as [|c before IH].
  - cbn [app]. destruct m as [|c m]; [congruence|].
    cbn [app sub_scan]. cbn [app] in Hat. rewrite Hat.
    replace (length (c :: m ++ after) - length after)%nat with (S (length m))
      by (cbn; rewrite length_app; lia).
    cbn [firstn]. rewrite firstn_app, firstn_all, Nat.sub_diag. cbn [firstn].
    rewrite app_nil_r, sub_scan_skip, (sub_scan_no_match _ _ _ Hafter).
    reflexivity.
  - pose proof (Hnone [] (c :: before) eq_refl ltac:(discriminate)) as Hhere.
    cbn [app] in Hhere. cbn [app sub_scan]. rewrite Hhere.
    rewrite IH; [reflexivity|].
    intros b1 b2 -> Hb2. now apply (Hnone (c :: b1) b2).
Qed.

(** ** Templates *)

Lemma parse_template_plain repl :
  Forall (fun c => c <> 92%N) repl ->
  parse_template repl = Ok (List.map PChar repl).
Proof.
  unfold parse_template. induction 1 as [|c repl Hc _ IH]; [reflexivity|].
  cbn [parse_template_from template_step].
  destruct (N.eqb_spec c 92); [congruence|].
  cbn. now rewrite IH.
Qed.

Lemma expand_plain repl m : expand (List.map PChar repl) m = repl.
Proof.
  unfold expand. induction repl as [|c repl IH]; [reflexivity|].
  cbn. now rewrite IH.
Qed.

(** ** The placeholder pattern *)

Import HTMLProcessor.

Lemma forallb_not_in (p : N -> bool) w a :
  forallb p w = true -> p a = false -> ~ List.In a w.
Proof.
  intros Hw Ha Hin. rewrite forallb_forall in Hw.
  specialize (Hw a Hin). congruence.
Qed.

(** No closing tag starts inside a body that has none. *)
Lemma no_close_inside body after b1 b2 :
  contains body DIV_CLOSE = false ->
  body = b1 ++ b2 -> b2 <> [] ->
  match_chars DIV_CLOSE (b2 ++ DIV_CLOSE ++ after) = None.
Proof.
  intros Hbody -> Hb2.
  destruct (match_chars DIV_CLOSE (b2 ++ DIV_CLOSE ++ after)) as [u|] eqn:Hm;
    [|reflexivity].
  apply match_chars_spec in Hm. exfalso.
  change (DIV_CLOSE ++ after) with (60%N :: (str "/div>" ++ after)) in Hm.
  apply prefix_before_char in Hm as [k ->]; [|exact Hb2|].
  - assert (Hc : contains (b1 ++ DIV_CLOSE ++ k) DIV_CLOSE = true)
      by apply contains_app.
    congruence.
  - cbn. intros Hin.
    repeat (destruct Hin as [Hin|Hin]; [discriminate|]). exact Hin.
Qed.

(** The pattern matches the element where it starts, up to its closing
    tag. *)
Lemma placeholder_match_at ws attrs body after :
  ws <> [] -> forallb is_space ws = true ->
  forallb not_tag_end attrs = true ->
  contains body DIV_CLOSE = false ->
  match_at placeholder_pattern (placeholder_element ws attrs body ++ after)
    = Some after.
Proof.
  intros Hne Hws Hattrs Hbody.
  unfold match_at, placeholder_pattern, placeholder_element.
  rewrite <- !app_assoc. cbn [rmatch]. rewrite match_chars_app.
  destruct ws as [|c ws]; [congruence|]. cbn [app].
  cbn in Hws. apply andb_true_iff in Hws as [-> Hws].
  change (ID_ATTR ++ attrs ++ TAG_END ++ body ++ DIV_CLOSE ++ after)
    with (105%N :: (tail ID_ATTR ++ attrs ++ TAG_END ++ body ++ DIV_CLOSE ++ after)).
  apply star_greedy_run; [exact Hws|reflexivity|].
  change (105%N :: (tail ID_ATTR ++ attrs ++ TAG_END ++ body ++ DIV_CLOSE ++ after))
    with (ID_ATTR ++ attrs ++ TAG_END ++ body ++ DIV_CLOSE ++ after).
  rewrite match_chars_app.
  change (TAG_END ++ body ++ DIV_CLOSE ++ after)
    with (62%N :: (body ++ DIV_CLOSE ++ after)).
  apply star_greedy_run; [exact Hattrs|reflexivity|].
  change (62%N :: (body ++ DIV_CLOSE ++ after))
    with (TAG_END ++ body ++ DIV_CLOSE ++ after).
  rewrite match_chars_app.
  apply star_lazy_first.
  - apply forallb_forall. reflexivity.
  - intros b1 b2 Hsplit Hb2.
    now rewrite (no_close_inside body after b1 b2 Hbody Hsplit Hb2).
  - now rewrite match_chars_app.
Qed.

(** The pattern matches nowhere in a text without the identifier
    attribute that ends before a tag. *)
Lemma placeholder_no_match_before t rest :
  t <> [] -> contains t ID_ATTR = false ->
  match_at placeholder_pattern (t ++ 60%N :: rest) = None.
Proof.
  intros Ht Hid. unfold match_at, placeholder_pattern. cbn [rmatch].
  destruct (match_chars DIV_OPEN (t ++ 60%N :: rest)) as [s1|] eqn:Hopen;
    [|reflexivity].
  apply match_chars_spec in Hopen.
  destruct s1 as [|c s1]; [reflexivity|].
  destruct (is_space c) eqn:Hc; [|reflexivity].
  apply star_greedy_fails. intros w s' -> Hw.
  destruct (match_chars ID_ATTR s') as [u|] eqn:Hm; [|reflexivity].
  apply match_chars_spec in Hm. subst s'. exfalso.
  replace (DIV_OPEN ++ c :: w ++ ID_ATTR ++ u)
    with ((DIV_OPEN ++ c :: w ++ ID_ATTR) ++ u) in Hopen
    by (rewrite <- !app_assoc; cbn; now rewrite <- !app_assoc).
  apply prefix_before_char in Hopen as [k ->]; [|exact Ht|].
  - assert (Hcon : contains ((DIV_OPEN ++ c :: w) ++ ID_ATTR ++ k) ID_ATTR = true)
      by apply contains_app.
    rewrite <- !app_assoc in Hcon, Hid. cbn [app] in Hcon, Hid.
    rewrite <- !app_assoc in Hid. congruence.
  - change (tail (DIV_OPEN ++ c :: w ++ ID_ATTR))
      with (str "div" ++ c :: w ++ ID_ATTR).
    rewrite !in_app_iff. cbn [List.In]. rewrite in_app_iff.
    intros [Hin|[Hin|[Hin|Hin]]].
    + cbn in Hin.
      repeat (destruct Hin as [Hin|Hin]; [discriminate|]). exact Hin.
    + subst c. discriminate.
    + now apply (forallb_not_in is_space w 60%N Hw).
    + cbn in Hin.
      repeat (destruct Hin as [Hin|Hin]; [discriminate|]). exact Hin.
Qed.

End Matcher.

(* ===================================================================== *)
(** * Injection at the placeholder *)
(* ===================================================================== *)

Section Placeholder.
Import HTMLProcessor.
Import Samples.

(** The substitution on a page with one placeholder element. *)
Lemma substitute_placeholder before ws attrs body after content :
  contains before ID_ATTR = false ->
  ws <> [] -> forallb is_space ws = true ->
  forallb not_tag_end attrs = true ->
  contains body DIV_CLOSE = false ->
  re_search placeholder_pattern after = None ->
  Forall (fun c => c <> 92%N) content ->
  substitute (before ++ placeholder_element ws attrs body ++ after) content =
  (Replaced (before ++ content ++ after), [INFO]).
Proof.
  intros Hbefore Hne Hws Hattrs Hbody Hafter Hcontent.
  pose proof (placeholder_match_at ws attrs body after Hne Hws Hattrs Hbody) as Hat.
  assert (Hnone : forall b1 b2, before = b1 ++ b2 -> b2 <> [] ->
            match_at placeholder_pattern
              (b2 ++ placeholder_element ws attrs body ++ after) = None).
  { intros b1 b2 -> Hb2. apply contains_suffix in Hbefore.
    now apply (placeholder_no_match_before b2). }
  unfold substitute.
  rewrite (re_search_skip _ before _ after Hnone Hat).
  unfold re_sub. rewrite (parse_template_plain _ Hcontent).
  cbn [mbind outcome_bind obind].
  rewrite sub_scan_one; [|discriminate|exact Hnone|exact Hat|exact Hafter].
  now rewrite expand_plain.
Qed.




End Placeholder.

(* ===================================================================== *)
(** * Properties of the detection of vocabularies and of the path lists *)
(* ===================================================================== *)

Section CollectionFacts.
Import SchemaDetector Collection.
#[local] Set Warnings "-clear-no-such-hyp".

Lemma jsonld_scan_from dir l : forall acc n,
  fold_left (jsonld_loop_body dir) l (acc, n) =
  (acc ++ List.map (os_path_join dir)
            (List.filter (fun f => endswith f JSONLD_SUFFIX &&
                                   startswith f VALUESET_PREFIX) l),
   n + Z.of_nat (length (List.filter (fun f => endswith f JSONLD_SUFFIX) l))).
Proof.
  induction l as [|f l IH]; intros acc n.
  - cbn. now rewrite app_nil_r, Z.add_0_r.
  - cbn [fold_left List.filter]. unfold jsonld_loop_body at 2.
    destruct (endswith f JSONLD_SUFFIX); cbn [negb andb]; [|apply IH].
    destruct (startswith f VALUESET_PREFIX); rewrite IH; cbn [List.map length];
      rewrite <- ?app_assoc; f_equal; lia.
Qed.

(** The loop over the paths to add, from a state whose [seen] holds the
    base names of [paths]: what is appended. *)
Lemma add_unseen_fold l : forall paths seen,
  exists added,
    fold_left add_unseen l (paths, seen) =
      (paths ++ added, seen ∪ list_to_set (List.map os_path_basename l)) /\
    sublist added l /\
    NoDup (List.map os_path_basename added) /\
    (forall p, p ∈ added -> os_path_basename p ∉ seen) /\
    (forall l1 p l2, l = l1 ++ p :: l2 ->
       os_path_basename p ∉ seen ->
       os_path_basename p ∉ List.map os_path_basename l1 -> p ∈ added) /\
    (forall p, p ∈ l ->
       os_path_basename p ∈ seen \/
       os_path_basename p ∈ List.map os_path_basename added).
Proof.
  induction l as [|p l IH]; intros paths seen.
  - exists []. cbn. rewrite app_nil_r.
    split; [f_equal; set_solver|]. split; [constructor|].
    split; [constructor|]. split; [set_solver|]. split; [|set_solver].
    intros l1 p l2 Heq. now destruct l1.
  - cbn [fold_left]. unfold add_unseen at 2.
    destruct (bool_decide_reflect (os_path_basename p ∈ seen)) as [Hin|Hnin].
    + destruct (IH paths seen) as (added & Hfold & Hsub & Hnd & Hnew & Hfirst & Hcov).
      exists added. rewrite Hfold. repeat split; auto.
      * f_equal. cbn. set_solver.
      * now apply sublist_cons.
      * intros l1 q l2 Heq Hq Hl1. destruct l1 as [|a l1].
        -- cbn in Heq. inversion Heq; subst. contradiction.
        -- cbn in Heq. inversion Heq; subst. apply (Hfirst l1 q l2 eq_refl Hq).
           cbn in Hl1. set_solver.
      * intros q Hq. apply elem_of_cons in Hq as [->|Hq]; auto.
    + destruct (IH (paths ++ [p]) (seen ∪ {[os_path_basename p]}))
        as (added & Hfold & Hsub & Hnd & Hnew & Hfirst & Hcov).
      exists (p :: added). rewrite Hfold, <- app_assoc. repeat split.
      * f_equal. cbn. set_solver.
      * now apply sublist_skip.
      * cbn. apply NoDup_cons. split; [|exact Hnd].
        intros Hp. apply list_elem_of_fmap in Hp as (q & Hq & Hqin).
        apply Hnew in Hqin. set_solver.
      * intros q Hq. apply elem_of_cons in Hq as [->|Hq]; [exact Hnin|].
        apply Hnew in Hq. set_solver.
      * intros l1 q l2 Heq Hq Hl1. destruct l1 as [|a l1].
        -- cbn in Heq. inversion Heq; subst. left.
        -- cbn in Heq. inversion Heq; subst. right.
           apply (Hfirst l1 q l2 eq_refl); cbn in Hl1; set_solver.
      * intros q Hq. apply elem_of_cons in Hq as [->|Hq].
        -- right. cbn. left.
        -- destruct (Hcov q Hq) as [Hs|Ha]; [|right; cbn; now right].
           apply elem_of_union in Hs as [Hs|Hs]; [now left|].
           right. cbn. apply elem_of_singleton in Hs. rewrite Hs. left.
Qed.

(** X1. [find_jsonld_files] returns, in listing order, the paths of the
    names that end in [.jsonld] and start with [ValueSet-], and nothing
    else; a missing directory gives the empty list. *)
Theorem X1_find_jsonld_files_filter (schema_dir : pystr) (all_files : list pystr) :
  find_jsonld_files Missing schema_dir = Ok [] /\
  find_jsonld_files (Listing all_files) schema_dir =
    Ok (List.map (os_path_join schema_dir)
          (List.filter (fun f => endswith f JSONLD_SUFFIX &&
                                 startswith f VALUESET_PREFIX) all_files)).
Proof.
  split; [reflexivity|]. unfold find_jsonld_files. now rewrite jsonld_scan_from.
Qed.

(** X2. Adding the vocabulary files keeps [jsonld_files] as it is and
    appends vocabulary files in their order, none of them with a base
    name that [jsonld_files] or an earlier added file has; every
    vocabulary file has its base name in the result; and base names
    that were distinct stay distinct. *)
Theorem X2_with_vocabulary_dedup (jsonld_files jsonld_files_vocab : list pystr) :
  exists added,
    with_vocabulary jsonld_files jsonld_files_vocab = jsonld_files ++ added /\
    sublist added jsonld_files_vocab /\
    NoDup (List.map os_path_basename added) /\
    (forall p, p ∈ added ->
       os_path_basename p ∉ List.map os_path_basename jsonld_files) /\
    (forall p, p ∈ jsonld_files_vocab ->
       os_path_basename p ∈
         List.map os_path_basename (jsonld_files ++ added)) /\
    (NoDup (List.map os_path_basename jsonld_files) ->
     NoDup (List.map os_path_basename (jsonld_files ++ added))).
Proof.
  unfold with_vocabulary.
  destruct (add_unseen_fold jsonld_files_vocab jsonld_files
              (list_to_set (List.map os_path_basename jsonld_files)))
    as (added & -> & Hsub & Hnd & Hnew & _ & Hcov).
  exists added. cbn [fst].
  assert (Hnew' : forall p, p ∈ added ->
            os_path_basename p ∉ List.map os_path_basename jsonld_files).
  { intros p Hp Hin. apply (Hnew p Hp). now apply elem_of_list_to_set. }
  repeat split; auto.
  - intros p Hp. rewrite map_app, elem_of_app.
    destruct (Hcov p Hp) as [Hs|Ha]; [left|now right].
    now apply elem_of_list_to_set in Hs.
  - intros Hdistinct. rewrite map_app. apply NoDup_app. repeat split; auto.
    intros n Hn Ha. apply list_elem_of_fmap in Ha as (p & -> & Hp).
    now apply (Hnew' p Hp).
Qed.

(** X3. The list of OpenAPI paths collected from the three sources has
    pairwise distinct base names; it is the three lists, in that order,
    with entries left out; the first path of each base name is kept;
    and every path of the sources has its base name in the list. *)
Theorem X3_all_openapi_paths_dedup
    (generated source output_images : list pystr) :
  let all := generated ++ source ++ output_images in
  let result := all_openapi_paths generated source output_images in
  NoDup (List.map os_path_basename result) /\
  sublist result all /\
  (forall l1 p l2, all = l1 ++ p :: l2 ->
     os_path_basename p ∉ List.map os_path_basename l1 -> p ∈ result) /\
  (forall p, p ∈ all ->
     os_path_basename p ∈ List.map os_path_basename result).
Proof.
  intros all result. subst result. unfold all_openapi_paths, add_paths.
  rewrite <- !fold_left_app.
  destruct (add_unseen_fold (generated ++ source ++ output_images) [] ∅)
    as (added & Hfold & Hsub & Hnd & _ & Hfirst & Hcov).
  rewrite <- ?app_assoc, Hfold. cbn [fst app]. repeat split; auto.
  - intros l1 p l2 Heq Hl1. apply (Hfirst l1 p l2 Heq); [set_solver|exact Hl1].
  - intros p Hp. destruct (Hcov p Hp) as [Hs|Ha]; [set_solver|exact Ha].
Qed.

Lemma X2_witness :
  os_path_basename (str "output/vocabulary/ValueSet-b.jsonld") ∈
  List.map os_path_basename
    (with_vocabulary [str "output/schemas/ValueSet-a.jsonld"]
       [str "output/vocabulary/ValueSet-a.jsonld";
        str "output/vocabulary/ValueSet-b.jsonld"]).
Proof.
  destruct (X2_with_vocabulary_dedup [str "output/schemas/ValueSet-a.jsonld"]
              [str "output/vocabulary/ValueSet-a.jsonld";
               str "output/vocabulary/ValueSet-b.jsonld"])
    as (added & -> & _ & _ & _ & Hcov & _).
  apply Hcov. apply elem_of_cons. right. apply elem_of_cons. now left.
Defined.

Lemma X3_witness :
  str "input/images/openapi/custom.openapi.yaml" ∈
  all_openapi_paths [str "output/schemas/Patient.openapi.json"]
    [str "input/images/openapi/custom.openapi.yaml"]
    [str "output/images/openapi/custom.openapi.yaml"].
Proof.
  destruct (X3_all_openapi_paths_dedup [str "output/schemas/Patient.openapi.json"]
              [str "input/images/openapi/custom.openapi.yaml"]
              [str "output/images/openapi/custom.openapi.yaml"])
    as (_ & _ & Hfirst & _).
  apply (Hfirst [str "output/schemas/Patient.openapi.json"]
           (str "input/images/openapi/custom.openapi.yaml")
           [str "output/images/openapi/custom.openapi.yaml"] eq_refl).
  vm_compute. intros Hin. apply list_elem_of_singleton in Hin. discriminate.
Defined.

End CollectionFacts.

(* ===================================================================== *)
(** * Properties of the reading of StructureDefinition dates *)
(* ===================================================================== *)

Section ResourceDatesFacts.
Import ResourceDates.

(** The resource of one item of the document, if its value is an
    object. *)
Lemma resources_fold items : forall resources,
  fold_left resources_loop_body items resources =
  resources ++
  flat_map (fun item =>
              match snd item with
              | PDict d =>
                  [PDict [(key "name", default (fst item) (dict_get d (key "name")));
                          (key "date", default (key "N/A") (dict_get d (key "date")))]]
              | _ => []
              end) items.
Proof.
  induction items as [|[k v] items IH]; intros resources; cbn [fold_left flat_map].
  - now rewrite app_nil_r.
  - rewrite IH. unfold resources_loop_body. cbn [fst snd].
    destruct v; cbn [app]; rewrite <- ?app_assoc; reflexivity.
Qed.

(** X4. [get_structuredefinitions] returns the empty list when the file
    is missing or its document is not an object; it raises when the file
    is there and is not JSON; for an object it returns, in the order of
    the document, one resource per entry whose value is an object, with
    the entry's [name] (the key when absent) and [date] (["N/A"] when
    absent), and nothing for the other entries. *)
Theorem X4_get_structuredefinitions (w : world) (sd_json_path : pystr) :
  (files w !! sd_json_path = None ->
     get_structuredefinitions w sd_json_path = Ok []) /\
  (files w !! sd_json_path = Some Unparsable ->
     get_structuredefinitions w sd_json_path = Raised) /\
  (forall data, files w !! sd_json_path = Some (Json data) ->
     is_dict data = false ->
     get_structuredefinitions w sd_json_path = Ok []) /\
  (forall items, files w !! sd_json_path = Some (Json (PDict items)) ->
     exists resources,
       get_structuredefinitions w sd_json_path = Ok resources /\
       resources =
         flat_map (fun item =>
              match snd item with
              | PDict d =>
                  [PDict [(key "name", default (fst item) (dict_get d (key "name")));
                          (key "date", default (key "N/A") (dict_get d (key "date")))]]
              | _ => []
              end) items /\
       length resources =
         length (List.filter (fun item => is_dict (snd item)) items)).
Proof.
  unfold get_structuredefinitions, load_json. repeat split.
  - now intros ->.
  - now intros ->.
  - intros data -> Hdata. cbn. now destruct data.
  - intros items ->. cbn. eexists. split; [reflexivity|].
    rewrite resources_fold. cbn [app]. split; [reflexivity|].
    induction items as [|[k v] items IH]; [reflexivity|].
    cbn [flat_map List.filter snd]. rewrite length_app, IH.
    destruct v; reflexivity.
Qed.

Lemma X4_witness :
  get_structuredefinitions
    {| files := {[ str "temp/pages/_data/structuredefinitions.json" :=
                   Json (PDict [(key "Patient",
                                 PDict [(key "date", key "2024-05-01")]);
                                (key "version", key "1.0")]) ]};
       can_write := fun _ => true |}
    (str "temp/pages/_data/structuredefinitions.json") =
  Ok [PDict [(key "name", key "Patient"); (key "date", key "2024-05-01")]].
Proof.
  destruct (X4_get_structuredefinitions
    {| files := {[ str "temp/pages/_data/structuredefinitions.json" :=
                   Json (PDict [(key "Patient",
                                 PDict [(key "date", key "2024-05-01")]);
                                (key "version", key "1.0")]) ]};
       can_write := fun _ => true |}
    (str "temp/pages/_data/structuredefinitions.json")) as (_ & _ & _ & H).
  destruct (H [(key "Patient", PDict [(key "date", key "2024-05-01")]);
               (key "version", key "1.0")] ltac:(vm_compute; reflexivity))
    as (resources & -> & -> & _).
  reflexivity.
Defined.

End ResourceDatesFacts.

(* ===================================================================== *)
(** * More properties of the synthesis *)
(* ===================================================================== *)

Section SynthesisFacts.
Import OpenAPIWrapper DAKApiHubGenerator EnumerationWrapper.
Context `{Builtins}.

Lemma dict_get_here k v d k' :
  key_eqb k k' = true -> dict_get ((k, v) :: d) k' = Some v.
Proof. cbn. now intros ->. Qed.

Lemma dict_get_next k v d k' :
  key_eqb k k' = false -> dict_get ((k, v) :: d) k' = dict_get d k'.
Proof. cbn. now intros ->. Qed.

Lemma key_eqb_str s : key_eqb (PStr s) (PStr s) = true.
Proof. apply str_eqb_refl. Qed.

(** Walks down a literal dict along a path of keys. *)
Ltac walk :=
  repeat (cbn [at_path];
          first [ rewrite dict_get_here by (first [reflexivity | apply key_eqb_str])
                | rewrite dict_get_next by reflexivity ]);
  cbn [at_path].

Lemma openapi_spec_shape schema schema_filename schema_type spec :
  openapi_spec schema schema_filename schema_type = Ok spec ->
  is_Some (at_path spec [key "info"; key "title"]) /\
  at_path spec [key "components"; key "schemas";
                PStr (schema_name_of schema_filename)] = Some schema /\
  at_path spec [key "paths"; PStr (str "/" ++ schema_filename); key "get";
                key "responses"; key "200"; key "content";
                key "application/schema+json"; key "schema"; key "$ref"]
    = Some (PStr (str "./" ++ schema_filename)) /\
  (exists methods, at_path spec [key "paths"]
     = Some (PDict [(PStr (str "/" ++ schema_filename), methods)])) /\
  exists d, schema = PDict d.
Proof.
  unfold openapi_spec.
  destruct schema as [| | | | |d]; try (destruct (str_eqb _ _); discriminate).
  destruct (str_eqb schema_type (str "valueset"));
    cbn [py_get mbind outcome_bind obind]; intros Hs; inversion Hs; subst spec;
    (split; [walk; eauto|]); (split; [now walk|]); (split; [now walk|]);
    (split; [walk; eauto|eauto]).
Qed.



End SynthesisFacts.

Section SynthesisExamples.
Import OpenAPIWrapper DAKApiHubGenerator EnumerationWrapper.
Import Samples.



End SynthesisExamples.

(* ===================================================================== *)
(** * Properties of the catalog entries *)
(* ===================================================================== *)

Section CatalogFacts.
Import DAKApiHubGenerator EnumerationWrapper.

Ltac lookup :=
  repeat first [ rewrite dict_get_here by reflexivity
               | rewrite dict_get_next by reflexivity ].

Ltac descend :=
  repeat (cbn [at_path];
          first [ rewrite dict_get_here by (first [reflexivity | apply key_eqb_str])
                | rewrite dict_get_next by reflexivity ]);
  cbn [at_path].

Ltac entry_fields :=
  cbn [dict_set];
  split; [lookup; reflexivity|];
  split; [lookup; reflexivity|];
  split; [lookup; reflexivity|];
  let k := fresh "k" in let Hk := fresh "Hk" in
  unfold dict_keys; cbn [List.map fst app]; intros k Hk;
  cbn [List.In] in *; tauto.

Lemma schema_entry_spec w schema_type p e :
  schema_entry w schema_type p = Ok e ->
  exists schema d,
    load_json w p = Ok (PDict schema) /\ e = PDict d /\
    dict_get d (key "filename") = Some (PStr (os_path_basename p)) /\
    dict_get d (key "url") = Some (PStr (str "./" ++ os_path_basename p)) /\
    dict_get d (key "title")
      = Some (default (PStr (os_path_basename p)) (dict_get schema (key "title"))) /\
    incl (dict_keys d)
      ([key "filename"; key "id"; key "title"; key "description"; key "url"] ++
       (if str_eqb schema_type (str "valueset")
        then [key "valueSetUrl"; key "codeCount"]
        else [key "logicalModelUrl"; key "propertyCount"])).
Proof.
  unfold schema_entry.
  destruct (load_json w p) as [[| | | | |schema]|]; try discriminate.
  cbn [mbind outcome_bind obind py_get py_has_key py_item]. unfold dict_has.
  destruct (str_eqb schema_type (str "valueset")).
  - destruct (dict_get schema (key "fhir:valueSet")) as [u|];
      cbn [or_raise mbind outcome_bind obind];
      (destruct (dict_get schema (key "enum")) as [c|];
       cbn [or_raise mbind outcome_bind obind];
       [destruct (py_len c) as [n|]; cbn [mbind outcome_bind obind];
        [|discriminate]|]);
      intros He; inversion He; subst e; clear He;
      exists schema; eexists; (split; [reflexivity|]); (split; [reflexivity|]);
      entry_fields.
  - destruct (dict_get schema (key "fhir:logicalModel")) as [u|];
      cbn [or_raise mbind outcome_bind obind];
      (destruct (dict_get schema (key "properties")) as [c|];
       cbn [or_raise mbind outcome_bind obind];
       [destruct (py_len c) as [n|]; cbn [mbind outcome_bind obind];
        [|discriminate]|]);
      intros He; inversion He; subst e; clear He;
      exists schema; eexists; (split; [reflexivity|]); (split; [reflexivity|]);
      entry_fields.
Qed.

Lemma schemas_list_kept w schema_type schema_files :
  exists kept,
    sublist kept schema_files /\
    Forall2 (fun e p => schema_entry w schema_type p = Ok e)
      (schemas_list w schema_type schema_files) kept.
Proof.
  induction schema_files as [|p l (kept & Hsub & Hall)]; cbn.
  - exists []. split; constructor.
  - destruct (schema_entry w schema_type p) as [e|] eqn:He.
    + exists (p :: kept). split; [now apply sublist_skip|now constructor].
    + exists kept. split; [now apply sublist_cons|exact Hall].
Qed.


End CatalogFacts.

(* ===================================================================== *)
(** * Properties of the reporter under any sequence of calls *)
(* ===================================================================== *)

Section ReporterCallsFacts.
Import QAReporter ReporterCalls EnumerationWrapper.
Context `{Builtins}.

Lemma grown_refl q : grown q q.
Proof. unfold grown. repeat split; reflexivity. Qed.

Lemma grown_trans q1 q2 q3 : grown q1 q2 -> grown q2 q3 -> grown q1 q3.
Proof.
  unfold grown.
  intros (S1 & W1 & E1 & F1 & T1 & ? & ? & ? & ? & ? & ? & ? & ?)
         (S2 & W2 & E2 & F2 & T2 & ? & ? & ? & ? & ? & ? & ? & ?).
  repeat split; try (etransitivity; eassumption); try congruence.
  lia.
Qed.

Ltac grown_by_one :=
  unfold grown, stamped; cbn;
  repeat split; try reflexivity; try (now apply prefix_app_r);
  rewrite ?length_app; cbn; lia.

Lemma add_success_grown q m d : grown q (add_success q m d).
Proof. grown_by_one. Qed.

Lemma add_warning_grown q m d : grown q (add_warning q m d).
Proof. grown_by_one. Qed.

Lemma add_error_grown q m d : grown q (add_error q m d).
Proof. grown_by_one. Qed.

Lemma add_file_processed_grown q f st d : grown q (add_file_processed q f st d).
Proof. grown_by_one. Qed.

Lemma for_each_grown body l :
  (forall q e q', body q e = Ok q' -> grown q q') ->
  forall q, grown q (fst (for_each body q l)).
Proof.
  intros Hbody. induction l as [|e l IH]; intros q; cbn.
  - apply grown_refl.
  - destruct (body q e) as [q'|] eqn:Hq; cbn.
    + eapply grown_trans; [apply (Hbody _ _ _ Hq)|apply IH].
    + apply grown_refl.
Qed.

Lemma for_each_of_grown details name body q :
  (forall q e q', body q e = Ok q' -> grown q q') ->
  grown q (fst (for_each_of details name body q)).
Proof.
  intros Hbody. unfold for_each_of.
  destruct (l ← py_get details name (PList []); py_iter l) as [l|].
  - now apply for_each_grown.
  - apply grown_refl.
Qed.

Ltac body_grown :=
  let q := fresh "q" in let e := fresh "e" in let q' := fresh "q'" in
  let Hb := fresh "Hb" in
  intros q e q' Hb;
  unfold mbind, outcome_bind, obind in Hb;
  repeat match type of Hb with
         | context [py_get ?a ?b ?c] => destruct (py_get a b c); try discriminate
         end;
  inversion Hb; subst;
  first [ apply add_success_grown | apply add_warning_grown
        | apply add_error_grown | apply add_file_processed_grown ].

Lemma store_grown q rep : grown q (store_preprocessing_report q rep).
Proof. unfold grown, stamped; cbn. repeat split; reflexivity. Qed.

Lemma merge_preprocessing_report_grown q rep :
  grown q (fst (merge_preprocessing_report q rep)).
Proof.
  eapply grown_trans; [apply (store_grown q rep)|].
  unfold merge_preprocessing_report.
  set (q0 := store_preprocessing_report q rep).
  destruct (ph ← py_get rep (key "phase") (key "Unknown");
            py_get rep (key "component") ph) as [name|];
    [|apply grown_refl].
  destruct (py_get rep (key "details") (PDict [])) as [details|];
    [|apply grown_refl].
  match goal with
  | |- context [for_each_of details (key "successes") ?b q0] =>
      pose proof (for_each_of_grown details (key "successes") b q0
                    ltac:(body_grown)) as H1;
      destruct (for_each_of details (key "successes") b q0) as [q1 ok1]
  end.
  cbn [fst] in H1. destruct ok1; cbn [negb]; [|exact H1].
  match goal with
  | |- context [for_each_of details (key "warnings") ?b q1] =>
      pose proof (for_each_of_grown details (key "warnings") b q1
                    ltac:(body_grown)) as H2;
      destruct (for_each_of details (key "warnings") b q1) as [q2 ok2]
  end.
  cbn [fst] in H2. destruct ok2; cbn [negb];
    [|exact (grown_trans _ _ _ H1 H2)].
  match goal with
  | |- context [for_each_of details (key "errors") ?b q2] =>
      pose proof (for_each_of_grown details (key "errors") b q2
                    ltac:(body_grown)) as H3;
      destruct (for_each_of details (key "errors") b q2) as [q3 ok3]
  end.
  cbn [fst] in H3. destruct ok3; cbn [negb];
    [|exact (grown_trans _ _ _ (grown_trans _ _ _ H1 H2) H3)].
  eapply grown_trans;
    [exact (grown_trans _ _ _ (grown_trans _ _ _ H1 H2) H3)|].
  apply for_each_of_grown. body_grown.
Qed.

(** X8. Whatever the report passed to [merge_preprocessing_report], and
    whether the call returns or raises on the way, the reporter it
    leaves has the report stored last, its four logs of stamped entries
    extended at their ends only, one clock reading taken for each entry
    added, and everything else as before: phase, time stamp, status,
    summary, expected and missing files and the external QA. *)
Theorem X8_merge_only_appends (q : t) (rep : pyval) :
  let q' := fst (merge_preprocessing_report q rep) in
  grown q q' /\
  stored_preprocessing_reports q' = stored_preprocessing_reports q ++ [rep].
Proof.
  cbv zeta. split.
  - apply merge_preprocessing_report_grown.
  - apply merge_preprocessing_report_stores.
Qed.

Lemma after_expected w q c :
  sublist (files_missing q) (files_expected q) ->
  sublist (files_missing (after w q c)) (files_expected (after w q c)).
Proof.
  intros Hq. destruct c; cbn [after]; try exact Hq.
  - cbn. apply sublist_app; [exact Hq|].
    destruct found; [apply sublist_nil_l|reflexivity].
  - unfold load_existing_ig_qa.
    destruct (files w !! qa_file_path) as [[loaded|]|]; exact Hq.
  - destruct (merge_preprocessing_report_grown q rep)
      as (_ & _ & _ & _ & _ & _ & _ & _ & _ & -> & -> & _). exact Hq.
Qed.

(** X9. A reporter made by [QAReporter(phase)] and used through any
    sequence of calls of its methods keeps the missing files among the
    expected ones, in the same order; the summary that
    [finalize_report] then computes has a [files_missing_count] that is
    at most its [files_expected_count]. *)
Theorem X9_missing_files_are_expected (w : world) (clk : nat -> pystr)
    (ph : pystr) (calls : list call) (st : pystr) :
  let q := after_all w (init clk ph) calls in
  sublist (files_missing q) (files_expected q) /\
  exists missing expected,
    dict_get (summary (fst (finalize_report q st))) (key "files_missing_count")
      = Some (PInt missing) /\
    dict_get (summary (fst (finalize_report q st))) (key "files_expected_count")
      = Some (PInt expected) /\
    0 <= missing <= expected.
Proof.
  cbv zeta.
  assert (Hinv : forall calls q,
            sublist (files_missing q) (files_expected q) ->
            sublist (files_missing (after_all w q calls))
                    (files_expected (after_all w q calls))).
  { clear calls. induction calls as [|c calls IH]; intros q Hq; cbn; [exact Hq|].
    apply IH. now apply after_expected. }
  pose proof (Hinv calls (init clk ph) ltac:(reflexivity)) as Hsub.
  split; [exact Hsub|].
  eexists _, _. split; [reflexivity|]. split; [reflexivity|].
  apply sublist_length in Hsub. lia.
Qed.

Lemma for_each_dicts (body : t -> pyval -> outcome t) (f : t -> pydict -> t) l :
  (forall q e, body q (PDict e) = Ok (f q e)) ->
  forall q, for_each body q (List.map PDict l) = (fold_left f l q, true).
Proof.
  intros Hbody. induction l as [|e l IH]; intros q; cbn; [reflexivity|].
  rewrite Hbody. apply IH.
Qed.

Lemma for_each_of_dicts details name body (f : t -> pydict -> t) l q :
  default (PList []) (dict_get details name) = PList (List.map PDict l) ->
  (forall q e, body q (PDict e) = Ok (f q e)) ->
  for_each_of (PDict details) name body q = (fold_left f l q, true).
Proof.
  intros Hl Hbody. unfold for_each_of. cbn [py_get mbind outcome_bind obind].
  rewrite Hl. cbn [py_iter]. now apply for_each_dicts.
Qed.


Lemma message_of_entry q m d : message_of (message_entry q m d) = Some (PStr m).
Proof.
  unfold message_of, message_entry. cbn [at_path app].
  now rewrite dict_get_here by reflexivity.
Qed.

Lemma file_of_entry f rest : file_of (PDict ((key "file", PStr f) :: rest)) = Some (PStr f).
Proof.
  unfold file_of. cbn [at_path]. now rewrite dict_get_here by reflexivity.
Qed.

Lemma fold_add_success (g : pydict -> pystr) (h : pydict -> pyval) l : forall q,
  let q' := fold_left (fun q e => add_success q (g e) (h e)) l q in
  List.map message_of (successes q')
    = List.map message_of (successes q) ++ List.map (fun e => Some (PStr (g e))) l /\
  warnings q' = warnings q /\ errors q' = errors q /\
  files_processed q' = files_processed q.
Proof.
  induction l as [|e l IH]; intros q; cbn.
  - now rewrite app_nil_r.
  - destruct (IH (add_success q (g e) (h e))) as (-> & -> & -> & ->).
    change (successes (add_success q (g e) (h e)))
      with (successes q ++ [message_entry q (g e) (h e)]).
    rewrite List.map_app, <- app_assoc. cbn [List.map app].
    rewrite message_of_entry. repeat split; reflexivity.
Qed.

Lemma fold_add_warning (g : pydict -> pystr) (h : pydict -> pyval) l : forall q,
  let q' := fold_left (fun q e => add_warning q (g e) (h e)) l q in
  List.map message_of (warnings q')
    = List.map message_of (warnings q) ++ List.map (fun e => Some (PStr (g e))) l /\
  successes q' = successes q /\ errors q' = errors q /\
  files_processed q' = files_processed q.
Proof.
  induction l as [|e l IH]; intros q; cbn.
  - now rewrite app_nil_r.
  - destruct (IH (add_warning q (g e) (h e))) as (-> & -> & -> & ->).
    change (warnings (add_warning q (g e) (h e)))
      with (warnings q ++ [message_entry q (g e) (h e)]).
    rewrite List.map_app, <- app_assoc. cbn [List.map app].
    rewrite message_of_entry. repeat split; reflexivity.
Qed.

Lemma fold_add_error (g : pydict -> pystr) (h : pydict -> pyval) l : forall q,
  let q' := fold_left (fun q e => add_error q (g e) (h e)) l q in
  List.map message_of (errors q')
    = List.map message_of (errors q) ++ List.map (fun e => Some (PStr (g e))) l /\
  successes q' = successes q /\ warnings q' = warnings q /\
  files_processed q' = files_processed q.
Proof.
  induction l as [|e l IH]; intros q; cbn.
  - now rewrite app_nil_r.
  - destruct (IH (add_error q (g e) (h e))) as (-> & -> & -> & ->).
    change (errors (add_error q (g e) (h e)))
      with (errors q ++ [message_entry q (g e) (h e)]).
    rewrite List.map_app, <- app_assoc. cbn [List.map app].
    rewrite message_of_entry. repeat split; reflexivity.
Qed.

Lemma fold_add_file_processed (g : pydict -> pystr) (s h : pydict -> pyval) l : forall q,
  let q' := fold_left (fun q e => add_file_processed q (g e) (s e) (h e)) l q in
  List.map file_of (files_processed q')
    = List.map file_of (files_processed q) ++ List.map (fun e => Some (PStr (g e))) l /\
  successes q' = successes q /\ warnings q' = warnings q /\
  errors q' = errors q.
Proof.
  induction l as [|e l IH]; intros q; cbn.
  - now rewrite app_nil_r.
  - destruct (IH (add_file_processed q (g e) (s e) (h e))) as (-> & -> & -> & ->).
    unfold add_file_processed at 1. cbn [files_processed tick].
    rewrite List.map_app, <- app_assoc. cbn [List.map app].
    rewrite file_of_entry. repeat split; reflexivity.
Qed.

(** X10. A report that is a JSON object whose [details], if any, is an
    object whose [successes], [warnings], [errors] and
    [files_processed], if any, are lists of objects: the call
    [merge_preprocessing_report] returns, and it has added to each of
    the four logs one entry for each entry of the report, in order, the
    message (or file) being that of the report's entry after the
    component name in brackets and a space, where the component name
    is the report's [component], else its [phase], else [Unknown]. *)
Theorem X10_merge_well_formed_report (q : t) (rep details : pydict)
    (ss ws es fs : list pydict) :
  let component_name :=
    default (default (key "Unknown") (dict_get rep (key "phase")))
            (dict_get rep (key "component")) in
  let tag := str "[" ++ py_str component_name ++ str "] " in
  let tagged (field : pyval) (e : pydict) :=
    Some (PStr (tag ++ py_str (default (PStr []) (dict_get e field)))) in
  default (PDict []) (dict_get rep (key "details")) = PDict details ->
  default (PList []) (dict_get details (key "successes")) = PList (List.map PDict ss) ->
  default (PList []) (dict_get details (key "warnings")) = PList (List.map PDict ws) ->
  default (PList []) (dict_get details (key "errors")) = PList (List.map PDict es) ->
  default (PList []) (dict_get details (key "files_processed")) = PList (List.map PDict fs) ->
  exists q',
    merge_preprocessing_report q (PDict rep) = (q', true) /\
    List.map message_of (successes q')
      = List.map message_of (successes q) ++ List.map (tagged (key "message")) ss /\
    List.map message_of (warnings q')
      = List.map message_of (warnings q) ++ List.map (tagged (key "message")) ws /\
    List.map message_of (errors q')
      = List.map message_of (errors q) ++ List.map (tagged (key "message")) es /\
    List.map file_of (files_processed q')
      = List.map file_of (files_processed q) ++ List.map (tagged (key "file")) fs.
Proof.
  intros component_name tag tagged Hd Hs Hw He Hf.
  unfold merge_preprocessing_report.
  cbn [py_get mbind outcome_bind obind]. fold component_name. rewrite Hd. fold tag.
  set (q0 := store_preprocessing_report q (PDict rep)).
  set (msg := fun e : pydict => tag ++ py_str (default (PStr []) (dict_get e (key "message")))).
  set (dtl := fun e : pydict => default PNone (dict_get e (key "details"))).
  rewrite (for_each_of_dicts details (key "successes") _
             (fun q e => add_success q (msg e) (dtl e)) ss q0 Hs)
    by reflexivity.
  cbn [negb].
  rewrite (for_each_of_dicts details (key "warnings") _
             (fun q e => add_warning q (msg e) (dtl e)) ws _ Hw)
    by reflexivity.
  cbn [negb].
  rewrite (for_each_of_dicts details (key "errors") _
             (fun q e => add_error q (msg e) (dtl e)) es _ He)
    by reflexivity.
  cbn [negb].
  rewrite (for_each_of_dicts details (key "files_processed") _
             (fun q e => add_file_processed q
                (tag ++ py_str (default (PStr []) (dict_get e (key "file"))))
                (default (key "unknown") (dict_get e (key "status"))) (dtl e))
             fs _ Hf)
    by reflexivity.
  eexists. split; [reflexivity|].
  match goal with |- context [fold_left ?f fs ?q3] =>
    destruct (fold_add_file_processed
                (fun e => tag ++ py_str (default (PStr []) (dict_get e (key "file"))))
                (fun e => default (key "unknown") (dict_get e (key "status"))) dtl fs q3)
      as (Hf4 & Hs4 & Hw4 & He4)
  end.
  match goal with |- context [fold_left ?f es ?q2] =>
    destruct (fold_add_error msg dtl es q2) as (He3 & Hs3 & Hw3 & Hf3)
  end.
  match goal with |- context [fold_left ?f ws ?q1] =>
    destruct (fold_add_warning msg dtl ws q1) as (Hw2 & Hs2 & He2 & Hf2)
  end.
  destruct (fold_add_success msg dtl ss q0) as (Hs1 & Hw1 & He1 & Hf1).
  cbv zeta in *.
  split; [rewrite Hs4, Hs3, Hs2; exact Hs1|].
  split; [rewrite Hw4, Hw3, Hw2, Hw1; reflexivity|].
  split; [rewrite He4, He3, He2, He1; reflexivity|].
  rewrite Hf4, Hf3, Hf2, Hf1. reflexivity.
Qed.

Lemma report_name_raises i rep :
  is_component_report rep = false ->
  match report_name i rep with
  | Ok name => hashable name = false
  | Raised => True
  end.
Proof.
  unfold is_component_report, report_name.
  destruct rep as [| | | | |d]; try exact (fun _ => I).
  cbn [py_get mbind outcome_bind obind].
  destruct (dict_get d (key "component")) as [n|]; cbn [default]; [easy|].
  destruct (dict_get d (key "phase")) as [n|]; cbn [default]; [easy|discriminate].
Qed.

Lemma collect_raises reps rep : forall acc i,
  In rep reps -> is_component_report rep = false ->
  collect_preprocessing_reports acc i reps = Raised.
Proof.
  induction reps as [|r reps IH]; intros acc i Hin Hbad; [destruct Hin|].
  cbn [collect_preprocessing_reports].
  destruct Hin as [->|Hin].
  - pose proof (report_name_raises i rep Hbad) as Hn.
    destruct (report_name i rep) as [n|]; cbn [mbind outcome_bind obind];
      [now rewrite Hn|reflexivity].
  - destruct (report_name i r) as [n|]; cbn [mbind outcome_bind obind];
      [|reflexivity].
    destruct (hashable n); [now apply IH|reflexivity].
Qed.

Lemma after_stored w q c :
  stored_preprocessing_reports q `prefix_of` stored_preprocessing_reports (after w q c).
Proof.
  destruct c; cbn [after]; try reflexivity.
  - unfold load_existing_ig_qa.
    destruct (files w !! qa_file_path) as [[loaded|]|]; reflexivity.
  - destruct (merge_preprocessing_report_stores q rep) as [-> _].
    now apply prefix_app_r.
Qed.

Lemma after_all_stored w calls : forall q,
  stored_preprocessing_reports q
    `prefix_of` stored_preprocessing_reports (after_all w q calls).
Proof.
  induction calls as [|c calls IH]; intros q; cbn; [reflexivity|].
  etransitivity; [apply (after_stored w q c)|apply IH].
Qed.

(** X11. Once [merge_preprocessing_report] was called with a report
    that is not a JSON object, or whose name (its [component], else its
    [phase]) is a list or an object, every later [finalize_report],
    whatever was called in between and whatever external QA was loaded,
    returns the reporter's own report alone: the external QA is not in
    what it returns. *)
Theorem X11_malformed_report_drops_external_qa (w : world) (q : t)
    (rep : pyval) (calls : list call) (st : pystr) :
  is_component_report rep = false ->
  let q' := after_all w (after w q (MergePreprocessingReport rep)) calls in
  snd (finalize_report q' st) = report (fst (finalize_report q' st)).
Proof.
  intros Hbad q'.
  assert (Hin : In rep (stored_preprocessing_reports q')).
  { destruct (after_all_stored w calls (after w q (MergePreprocessingReport rep)))
      as [k Hk].
    fold q' in Hk. rewrite Hk. cbn [after].
    destruct (merge_preprocessing_report_stores q rep) as [-> _].
    apply in_or_app. left. apply in_or_app. right. now left. }
  unfold finalize_report. cbn [fst snd].
  destruct (truthy (ig_publisher_qa (finalized q' st))); [|reflexivity].
  unfold merge_with_ig_publisher_qa, merged_report.
  destruct (py_dict (ig_publisher_qa (finalized q' st))) as [merged|];
    cbn [mbind outcome_bind obind]; [|reflexivity].
  change (stored_preprocessing_reports (finalized q' st))
    with (stored_preprocessing_reports q').
  now rewrite (collect_raises _ rep [] 0 Hin Hbad).
Qed.

End ReporterCallsFacts.

Section ReporterCallsExamples.
Import QAReporter ReporterCalls.
Import Samples.

Lemma X10_witness :
  exists q',
    @merge_preprocessing_report plain_repr
      (init (fun _ => str "2025-01-01T00:00:00") (str "postprocessing"))
      (PDict [(key "component", key "schemas");
              (key "details", PDict [
                 (key "successes", PList [PDict [(key "message", key "12 schemas written")]]);
                 (key "errors", PList [PDict [(key "details", PInt 3)]])])])
    = (q', true) /\
    List.map message_of (successes q') = [Some (key "[schemas] 12 schemas written")] /\
    List.map message_of (errors q') = [Some (key "[schemas] ")].
Proof.
  destruct (@X10_merge_well_formed_report plain_repr
              (init (fun _ => str "2025-01-01T00:00:00") (str "postprocessing"))
              [(key "component", key "schemas");
               (key "details", PDict [
                  (key "successes", PList [PDict [(key "message", key "12 schemas written")]]);
                  (key "errors", PList [PDict [(key "details", PInt 3)]])])]
              [(key "successes", PList [PDict [(key "message", key "12 schemas written")]]);
               (key "errors", PList [PDict [(key "details", PInt 3)]])]
              [[(key "message", key "12 schemas written")]] []
              [[(key "details", PInt 3)]] []
              eq_refl eq_refl eq_refl eq_refl eq_refl)
    as (q' & Hcall & Hs & _ & He & _).
  exists q'. split; [exact Hcall|]. split; [exact Hs|exact He].
Defined.

Lemma X11_witness :
  let q' := @after_all plain_repr sample_world
              (@after plain_repr sample_world loaded_reporter
                 (MergePreprocessingReport (PList [key "not a report"])))
              [AddSuccess (str "hub written") PNone] in
  snd (finalize_report q' (str "completed"))
  = report (fst (finalize_report q' (str "completed"))).
Proof.
  apply (@X11_malformed_report_drops_external_qa plain_repr sample_world
           loaded_reporter (PList [key "not a report"])
           [AddSuccess (str "hub written") PNone] (str "completed")).
  reflexivity.
Defined.

End ReporterCallsExamples.

(* ===================================================================== *)
(** * What the injection never does *)
(* ===================================================================== *)

Section InjectionFacts.
Import HTMLProcessor.

(** X12. Whatever the pages, the path and the fragment,
    [inject_content_at_comment_marker] leaves every other page as it
    was and creates no page; it returns [True] only after it has
    written, over a page that was there, a text longer than the old one
    by more than 100 characters, and then it has logged nothing above
    the level INFO; when it returns [False] it has logged an error or a
    warning. *)
Theorem X12_injection_touches_one_page (d : disk) (html_file_path content : pystr) :
  let '(d', ok, log) := inject_content_at_comment_marker d html_file_path content in
  writable d' = writable d /\
  (forall p, p <> html_file_path -> pages d' !! p = pages d !! p) /\
  (pages d !! html_file_path = None -> d' = d) /\
  (ok = true ->
     exists html_content new_html,
       pages d !! html_file_path = Some (Text html_content) /\
       pages d' !! html_file_path = Some (Text new_html) /\
       100 < len new_html - len html_content /\
       Forall (fun l => l = INFO) log) /\
  (ok = false -> List.In ERROR log \/ List.In WARNING log).
Proof.
  unfold inject_content_at_comment_marker.
  destruct (pages d !! html_file_path) as [[html_content|]|] eqn:Hpage;
    [|cbn; intuition (auto; discriminate)..].
  assert (Hsub : exists sub logged, substitute html_content content = (sub, logged) /\
            match sub with
            | Replaced _ => logged = [INFO]
            | NoMarker => List.In ERROR logged
            | SubRaised => True
            end).
  { unfold substitute.
    destruct (re_search placeholder_pattern html_content).
    - destruct (re_sub placeholder_pattern content html_content);
        eexists _, _; (split; [reflexivity|]); cbn iota; auto.
    - destruct (contains html_content comment_marker);
        eexists _, _; (split; [reflexivity|]); cbn iota; auto. now left. }
  destruct Hsub as (sub & logged & -> & Hlogged).
  destruct sub as [|new_html|].
  - cbn [app]. repeat split; try discriminate; auto.
    intros _. left. do 3 right. exact Hlogged.
  - subst logged.
    destruct (writable d html_file_path);
      [|cbn; intuition (auto; discriminate)].
    destruct (100 <? len new_html - len html_content) eqn:Hgrow; cbn [pages writable].
    + repeat split; try discriminate.
      * intros p Hp. now apply lookup_insert_ne.
      * intros _. exists html_content, new_html.
        split; [reflexivity|]. split; [apply lookup_insert_eq|].
        split; [now apply Z.ltb_lt|]. repeat constructor.
    + repeat split; try discriminate.
      * intros p Hp. now apply lookup_insert_ne.
      * intros _. right. cbn. tauto.
  - repeat split; try discriminate; auto.
    intros _. left. rewrite !in_app_iff. right. now left.
Qed.

(** ** Inversion of the matcher *)

Lemma star_greedy_inv p : forall s k rest,
  star_greedy p s k = Some rest ->
  exists w t, s = w ++ t /\ forallb p w = true /\ k t = Some rest.
Proof.
  induction s as [|c s IH]; intros k rest; cbn [star_greedy].
  - intros Hk. now exists [], [].
  - destruct (p c) eqn:Hc.
    + destruct (star_greedy p s k) as [r|] eqn:Hs.
      * intros [= ->]. destruct (IH _ _ Hs) as (w & t & -> & Hw & Hk).
        exists (c :: w), t. cbn. now rewrite Hc.
      * intros Hk. now exists [], (c :: s).
    + intros Hk. now exists [], (c :: s).
Qed.

Lemma star_lazy_inv p : forall s k rest,
  star_lazy p s k = Some rest ->
  exists w t, s = w ++ t /\ forallb p w = true /\ k t = Some rest /\
    forall w1 w2, w = w1 ++ w2 -> w2 <> [] -> k (w2 ++ t) = None.
Proof.
  assert (Hempty : forall s (k : pystr -> option pystr) rest, k s = Some rest ->
            exists w t, s = w ++ t /\ forallb p w = true /\ k t = Some rest /\
              forall w1 w2, w = w1 ++ w2 -> w2 <> [] -> k (w2 ++ t) = None).
  { intros s k rest Hk. exists [], s. repeat split; try assumption.
    intros w1 w2 Hw Hw2. symmetry in Hw. apply app_eq_nil in Hw as [_ ->].
    congruence. }
  induction s as [|c s IH]; intros k rest; cbn [star_lazy].
  - destruct (k []) as [r|] eqn:Hk; [|discriminate].
    intros [= ->]. now apply Hempty.
  - destruct (k (c :: s)) as [r|] eqn:Hk.
    + intros [= ->]. now apply Hempty.
    + destruct (p c) eqn:Hc; [|discriminate].
      intros Hs. destruct (IH _ _ Hs) as (w & t & -> & Hw & Hkt & Hmin).
      exists (c :: w), t. cbn [forallb app]. rewrite Hc.
      repeat split; try assumption.
      intros w1 w2 Hsplit Hw2. destruct w1 as [|c1 w1].
      * cbn [app] in Hsplit. subst w2. exact Hk.
      * cbn [app] in Hsplit. injection Hsplit as _ Hsplit.
        now apply (Hmin w1 w2).
Qed.

Lemma contains_spec p : forall s,
  contains s p = true -> exists a b, s = a ++ p ++ b.
Proof.
  induction s as [|c s IH]; cbn [contains]; intros Hc.
  - rewrite orb_false_r in Hc. apply startswith_spec in Hc as [rest ->].
    now exists [], rest.
  - apply orb_true_iff in Hc as [Hc|Hc].
    + apply startswith_spec in Hc as [rest ->]. now exists [], rest.
    + destruct (IH Hc) as (a & b & ->). now exists (c :: a), b.
Qed.

(** What a match of the placeholder pattern at the head of a text is. *)
Lemma placeholder_match_inv s rest :
  match_at placeholder_pattern s = Some rest ->
  exists ws attrs body,
    s = placeholder_element ws attrs body ++ rest /\
    ws <> [] /\ forallb is_space ws = true /\
    forallb not_tag_end attrs = true /\
    contains body DIV_CLOSE = false.
Proof.
  unfold match_at, placeholder_pattern. cbn [rmatch].
  destruct (match_chars DIV_OPEN s) as [s1|] eqn:Hopen; [|discriminate].
  apply match_chars_spec in Hopen. subst s.
  destruct s1 as [|c s1]; [discriminate|].
  destruct (is_space c) eqn:Hc; [|discriminate].
  intros Hm. apply star_greedy_inv in Hm as (ws & s2 & -> & Hws & Hm).
  destruct (match_chars ID_ATTR s2) as [s3|] eqn:Hid; [|discriminate].
  apply match_chars_spec in Hid. subst s2.
  apply star_greedy_inv in Hm as (attrs & s4 & -> & Hattrs & Hm).
  destruct (match_chars TAG_END s4) as [s5|] eqn:Hend; [|discriminate].
  apply match_chars_spec in Hend. subst s4.
  apply star_lazy_inv in Hm as (body & s6 & -> & _ & Hm & Hmin).
  destruct (match_chars DIV_CLOSE s6) as [s7|] eqn:Hclose; [|discriminate].
  apply match_chars_spec in Hclose. injection Hm as ->. subst s6.
  exists (c :: ws), attrs, body. split; [|split; [discriminate|split; [|split]]].
  - unfold placeholder_element. now rewrite <- !app_assoc.
  - cbn. now rewrite Hc.
  - exact Hattrs.
  - destruct (contains body DIV_CLOSE) eqn:Hbody; [|reflexivity].
    apply contains_spec in Hbody as (a & b & ->).
    specialize (Hmin a (DIV_CLOSE ++ b) eq_refl ltac:(discriminate)).
    cbv beta in Hmin. rewrite <- app_assoc, match_chars_app in Hmin.
    discriminate.
Qed.

(** X13. The placeholder pattern matches at the head of a text exactly
    when the text starts with a placeholder element: [<div], white
    space, the identifier attribute, any characters but [>], [>], a
    content without [</div>], and [</div>]; the match is that element,
    so it ends at the first [</div>] after the opening tag. *)
Theorem X13_pattern_matches_to_first_close (s rest : pystr) :
  match_at placeholder_pattern s = Some rest <->
  exists ws attrs body,
    s = placeholder_element ws attrs body ++ rest /\
    ws <> [] /\ forallb is_space ws = true /\
    forallb not_tag_end attrs = true /\
    contains body DIV_CLOSE = false.
Proof.
  split.
  - apply placeholder_match_inv.
  - intros (ws & attrs & body & -> & Hne & Hws & Hattrs & Hbody).
    now apply placeholder_match_at.
Qed.

(** ** [str.replace] *)

Lemma replace_from_skip l s old new :
  replace_from (length l) (l ++ s) old new = replace_from O s old new.
Proof. induction l as [|c l IH]; [now destruct s|exact IH]. Qed.

Lemma replace_no_occurrence old new : forall s,
  contains s old = false -> replace_from O s old new = s.
Proof.
  induction s as [|c s IH]; [reflexivity|].
  cbn [contains replace_from]. intros Hc.
  apply orb_false_iff in Hc as [-> Hc]. now rewrite IH.
Qed.

(** The marker starts nowhere inside a text that does not have it:
    its first character occurs in it only once. *)
Lemma no_marker_inside before after b1 b2 :
  contains before comment_marker = false ->
  before = b1 ++ b2 -> b2 <> [] ->
  startswith (b2 ++ comment_marker ++ after) comment_marker = false.
Proof.
  intros Hbefore -> Hb2.
  destruct (startswith (b2 ++ comment_marker ++ after) comment_marker) eqn:Hs;
    [|reflexivity].
  apply startswith_spec in Hs as [u Hs]. exfalso.
  change (comment_marker ++ after)
    with (60%N :: (tail comment_marker ++ after)) in Hs.
  apply prefix_before_char in Hs as [k ->]; [|exact Hb2|].
  - assert (Hc : contains (b1 ++ comment_marker ++ k) comment_marker = true)
      by apply contains_app.
    congruence.
  - cbn. intros Hin.
    repeat (destruct Hin as [Hin|Hin]; [discriminate|]). exact Hin.
Qed.

Lemma replace_from_here old new s :
  old <> [] ->
  replace_from O (old ++ s) old new = new ++ replace_from O s old new.
Proof.
  destruct old as [|a old]; [congruence|]. intros _.
  cbn [app replace_from].
  replace (startswith (a :: old ++ s) (a :: old)) with true
    by (symmetry; apply startswith_spec; now exists s).
  replace (length (a :: old) - 1)%nat with (length old) by (cbn [length]; lia).
  now rewrite replace_from_skip.
Qed.

Lemma replace_once old new before after :
  old <> [] ->
  (forall b1 b2, before = b1 ++ b2 -> b2 <> [] ->
     startswith (b2 ++ old ++ after) old = false) ->
  contains after old = false ->
  replace_from O (before ++ old ++ after) old new = before ++ new ++ after.
Proof.
  intros Hold Hnone Hafter. induction before as [|c before IH].
  - cbn [app]. now rewrite replace_from_here, (replace_no_occurrence _ _ _ Hafter).
  - pose proof (Hnone [] (c :: before) eq_refl ltac:(discriminate)) as Hhere.
    cbn [app] in Hhere. cbn [app replace_from]. rewrite Hhere.
    rewrite IH; [reflexivity|].
    intros b1 b2 -> Hb2. now apply (Hnone (c :: b1) b2).
Qed.

Lemma replace_marker before after new :
  contains before comment_marker = false ->
  contains after comment_marker = false ->
  str_replace (before ++ comment_marker ++ after) comment_marker new
  = before ++ new ++ after.
Proof.
  intros Hbefore Hafter. unfold str_replace.
  apply replace_once; [discriminate| |exact Hafter].
  intros b1 b2. now apply no_marker_inside.
Qed.


(** ** Replacement templates that are refused *)

Lemma parse_template_from_plain pre rest :
  Forall (fun c => c <> 92%N) pre ->
  parse_template_from Plain (pre ++ rest) =
  (r ← parse_template_from Plain rest; Ok (List.map PChar pre ++ r)).
Proof.
  induction 1 as [|c pre Hc _ IH]; cbn [app List.map].
  - now destruct (parse_template_from Plain rest).
  - cbn [parse_template_from template_step].
    destruct (N.eqb_spec c 92); [congruence|].
    cbn [mbind outcome_bind obind]. rewrite IH.
    now destruct (parse_template_from Plain rest).
Qed.

Lemma letter_not_digit c : is_ascii_letter c = true -> is_digit c = false /\ (c =? 48)%N = false.
Proof.
  unfold is_ascii_letter, is_digit. intros Hc.
  apply orb_true_iff in Hc. rewrite !andb_true_iff, !N.leb_le in Hc.
  split; [apply andb_false_iff; right; apply N.leb_gt|apply N.eqb_neq]; lia.
Qed.

Lemma parse_template_bad_escape pre c post :
  Forall (fun c => c <> 92%N) pre ->
  is_ascii_letter c = true -> c <> 103%N -> simple_escape c = None ->
  parse_template (pre ++ 92%N :: c :: post) = Raised.
Proof.
  intros Hpre Hletter Hg Hsimple. unfold parse_template.
  rewrite (parse_template_from_plain _ _ Hpre).
  cbn [parse_template_from template_step N.eqb Pos.eqb mbind outcome_bind obind].
  destruct (N.eqb_spec c 103); [congruence|].
  destruct (letter_not_digit c Hletter) as [-> ->].
  now rewrite Hsimple, Hletter.
Qed.

(** X15. A page that has a placeholder, and a fragment with a backslash
    followed by an ASCII letter that is no escape of a replacement
    template (any letter but a, b, f, g, n, r, t, v), with no backslash
    before it: [re.sub] refuses the fragment, the call returns [False]
    after logging an error, and nothing is written. *)
Theorem X15_bad_escape_blocks_injection (d : disk)
    (html_file_path html_content pre post : pystr) (c : N) :
  pages d !! html_file_path = Some (Text html_content) ->
  re_search placeholder_pattern html_content <> None ->
  Forall (fun c => c <> 92%N) pre ->
  is_ascii_letter c = true -> c <> 103%N -> simple_escape c = None ->
  exists log,
    inject_content_at_comment_marker d html_file_path (pre ++ 92%N :: c :: post)
    = (d, false, log) /\
    List.In ERROR log.
Proof.
  intros Hpage Hsearch Hpre Hletter Hg Hsimple.
  unfold inject_content_at_comment_marker, substitute, re_sub.
  rewrite Hpage.
  destruct (re_search placeholder_pattern html_content); [|congruence].
  rewrite (parse_template_bad_escape _ _ _ Hpre Hletter Hg Hsimple).
  cbn [mbind outcome_bind obind].
  eexists. split; [reflexivity|]. rewrite !in_app_iff. right. now left.
Qed.

End InjectionFacts.

Section InjectionExamples.
Import HTMLProcessor.
Import Samples.

Lemma X12_witness :
  pages (fst (fst (inject_content_at_comment_marker legacy_disk
                     (str "output/dak-api.html") accented_fragment)))
    !! str "output/index.html" = None.
Proof.
  pose proof (X12_injection_touches_one_page legacy_disk
                (str "output/dak-api.html") accented_fragment) as Hx.
  destruct (inject_content_at_comment_marker legacy_disk
              (str "output/dak-api.html") accented_fragment) as [[d' ok] log].
  destruct Hx as (_ & Hframe & _). cbn [fst].
  rewrite (Hframe (str "output/index.html"))
    by (intros E; vm_compute in E; discriminate).
  vm_compute. reflexivity.
Defined.


Lemma X15_witness :
  exists log,
    inject_content_at_comment_marker template_disk (str "output/dak-api.html")
      (str "<code>\d+</code>") = (template_disk, false, log) /\
    List.In ERROR log.
Proof.
  apply (X15_bad_escape_blocks_injection template_disk
           (str "output/dak-api.html") template_page
           (str "<code>") (str "+</code>") 100%N).
  - vm_compute. reflexivity.
  - vm_compute. discriminate.
  - vm_compute. repeat first [apply List.Forall_nil | apply List.Forall_cons; [discriminate|]].
  - reflexivity.
  - discriminate.
  - reflexivity.
Defined.

End InjectionExamples.

(* ===================================================================== *)
(** * Properties of the documentation entries *)
(* ===================================================================== *)

Section HubDocsFacts.
Import OpenAPIWrapper HubDocs.
Context `{Builtins}.

Lemma openapi_spec_dict d schema_filename schema_type :
  exists spec, openapi_spec (PDict d) schema_filename schema_type = Ok spec.
Proof.
  unfold openapi_spec.
  destruct (str_eqb schema_type (str "valueset"));
    cbn [py_get mbind outcome_bind obind]; eauto.
Qed.

Lemma path_exists_insert w p q doc :
  path_exists w p = true ->
  path_exists {| files := <[q := doc]> (files w); can_write := can_write w |} p = true.
Proof.
  unfold path_exists. cbn [files].
  destruct (decide (q = p)) as [->|Hne].
  - now rewrite lookup_insert_eq.
  - now rewrite lookup_insert_ne.
Qed.

Lemma create_wrapper_keeps_files w schema_path schema_type output_dir p :
  path_exists w p = true ->
  path_exists (fst (create_wrapper_for_schema w schema_path schema_type output_dir)) p
    = true.
Proof.
  intros Hp. unfold create_wrapper_for_schema.
  destruct (load_json w schema_path) as [schema|];
    cbn [mbind outcome_bind obind fst]; [|exact Hp].
  destruct (openapi_spec schema (os_path_basename schema_path) schema_type)
    as [spec|]; cbn [mbind outcome_bind obind fst]; [|exact Hp].
  unfold dump_json.
  destruct (can_write w (wrapper_path_of schema_path output_dir));
    cbn [mbind outcome_bind obind fst]; [|exact Hp].
  now apply path_exists_insert.
Qed.

Lemma schema_doc_keeps_files is_valueset w dir schema_path p :
  path_exists w p = true ->
  path_exists (fst (schema_doc is_valueset w dir schema_path)) p = true.
Proof.
  intros Hp. unfold schema_doc.
  destruct (load_json w schema_path) as [schema|];
    cbn [mbind outcome_bind obind fst]; [|exact Hp].
  destruct (py_get schema (key "title") _) as [title|];
    cbn [mbind outcome_bind obind fst]; [|exact Hp].
  destruct (py_get schema (key "description") _) as [description|];
    cbn [mbind outcome_bind obind fst]; [|exact Hp].
  pose proof (create_wrapper_keeps_files w schema_path
                (if is_valueset then str "valueset" else str "logical_model")
                dir p Hp) as Hkeep.
  destruct (create_wrapper_for_schema w schema_path _ dir) as [w1 wrapper_path].
  exact Hkeep.
Qed.

Lemma schema_docs_keeps_files is_valueset dir schema_paths p : forall w,
  path_exists w p = true ->
  path_exists (fst (schema_docs is_valueset w dir schema_paths)) p = true.
Proof.
  induction schema_paths as [|schema_path rest IH]; intros w Hp; [exact Hp|].
  cbn [schema_docs].
  pose proof (schema_doc_keeps_files is_valueset w dir schema_path p Hp) as H1.
  destruct (schema_doc is_valueset w dir schema_path) as [w1 entry].
  cbn [fst] in H1. specialize (IH w1 H1).
  destruct (schema_docs is_valueset w1 dir rest) as [w2 entries]. exact IH.
Qed.

Lemma links_exist_later (w w' : world) dir entry :
  (forall p, path_exists w p = true -> path_exists w' p = true) ->
  links_exist w dir entry -> links_exist w' dir entry.
Proof.
  intros Hkeep Hentry field f Hin Hget.
  destruct (Hentry field f Hin Hget) as (filename & -> & Hex). eauto.
Qed.

Lemma link_if_exists_links w dir entry a filename :
  links_exist w dir entry ->
  links_exist w dir (link_if_exists w dir entry (PStr a) filename).
Proof.
  intros Hentry. unfold link_if_exists.
  destruct (path_exists w (os_path_join dir filename)) eqn:Hex; [|exact Hentry].
  intros field f Hin Hget.
  destruct (key_eqb (PStr a) field) eqn:E.
  - assert (Hfield : field = PStr a).
    { unfold LINKS in Hin. cbn [In] in Hin.
      destruct Hin as [<-|[<-|[<-|[]]]]; cbn [key_eqb key] in E;
        apply str_eqb_eq in E; now subst a. }
    subst field. rewrite dict_get_set_eq in Hget by reflexivity.
    injection Hget as <-. eauto.
  - rewrite dict_get_set_ne in Hget by exact E. exact (Hentry field f Hin Hget).
Qed.

Lemma link_if_exists_other w dir entry field filename k :
  key_eqb field k = false ->
  dict_get (link_if_exists w dir entry field filename) k = dict_get entry k.
Proof.
  intros Hk. unfold link_if_exists.
  destruct (path_exists w (os_path_join dir filename)); [|reflexivity].
  now apply dict_get_set_ne.
Qed.

Lemma schema_doc_links is_valueset w dir schema_path :
  match schema_doc is_valueset w dir schema_path with
  | (w', Some e) => exists entry, e = PDict entry /\ links_exist w' dir entry
  | (_, None) => True
  end.
Proof.
  unfold schema_doc.
  destruct (load_json w schema_path) as [schema|];
    cbn [mbind outcome_bind obind]; [|exact I].
  destruct (py_get schema (key "title") _) as [title|];
    cbn [mbind outcome_bind obind]; [|exact I].
  destruct (py_get schema (key "description") _) as [description|];
    cbn [mbind outcome_bind obind]; [|exact I].
  destruct (create_wrapper_for_schema w schema_path _ dir) as [w1 wrapper_path].
  eexists. split; [reflexivity|].
  assert (Hbase : forall t ds h sf,
            links_exist w1 dir [(key "title", t); (key "description", ds);
                                (key "html_file", h); (key "schema_file", sf)]).
  { intros t ds h sf field f Hin Hget. exfalso.
    unfold LINKS in Hin. cbn [In] in Hin.
    destruct Hin as [<-|[<-|[<-|[]]]];
      repeat (rewrite dict_get_next in Hget by reflexivity);
      discriminate. }
  destruct is_valueset; repeat apply link_if_exists_links; apply Hbase.
Qed.


(** X17. When a loop of [main] over detected schemas ends, no entry of
    [schema_docs] has a dangling link: the [displays_file],
    [openapi_file] or [jsonld_file] of an entry, if it has one, is
    [schemas/<file name>] for a file that is in the schema output
    directory at that time. *)
Theorem X17_no_dangling_links (is_valueset : bool) (w : world)
    (schema_output_dir : pystr) (schema_paths : list pystr) :
  let '(w', docs) := schema_docs is_valueset w schema_output_dir schema_paths in
  Forall (fun e => exists entry, e = PDict entry /\
                     links_exist w' schema_output_dir entry) docs.
Proof.
  revert w. induction schema_paths as [|schema_path rest IH]; intros w;
    cbn [schema_docs]; [constructor|].
  pose proof (schema_doc_links is_valueset w schema_output_dir schema_path) as H1.
  destruct (schema_doc is_valueset w schema_output_dir schema_path) as [w1 e].
  specialize (IH w1).
  pose proof (fun p => schema_docs_keeps_files is_valueset schema_output_dir rest p w1)
    as Hkeep.
  destruct (schema_docs is_valueset w1 schema_output_dir rest) as [w2 entries].
  cbn [fst] in Hkeep.
  destruct e as [e|]; [|exact IH].
  constructor; [|exact IH].
  destruct H1 as (entry & -> & Hentry). exists entry. split; [reflexivity|].
  now apply (links_exist_later w1 w2).
Qed.

End HubDocsFacts.

Section HubDocsExamples.
Import OpenAPIWrapper HubDocs.
Import Samples.


End HubDocsExamples.

(* ===================================================================== *)
(** * Properties of the JSON-LD and OpenAPI entries *)
(* ===================================================================== *)

Section MainDocsFacts.
Import MainDocs.
Context `{Builtins}.

Lemma graph_loop_first title description pre item post :
  Forall (fun i => is_enumeration i = false) pre ->
  enumeration_type item = true ->
  graph_loop title description (pre ++ PDict item :: post) =
  (match dict_get item (key "name") with
   | Some name => PStr (py_str name ++ str " JSON-LD Vocabulary")
   | None => title
   end,
   default description (dict_get item (key "comment"))).
Proof.
  intros Hpre Hitem. induction Hpre as [|i pre Hi _ IH]; cbn [app graph_loop].
  - rewrite Hitem. now destruct (dict_get item (key "comment")).
  - destruct i as [| | | | |d]; try exact IH.
    cbn [is_enumeration] in Hi. now rewrite Hi.
Qed.

Lemma graph_loop_none title description graph :
  Forall (fun i => is_enumeration i = false) graph ->
  graph_loop title description graph = (title, description).
Proof.
  induction 1 as [|i graph Hi _ IH]; cbn [graph_loop]; [reflexivity|].
  destruct i as [| | | | |d]; try exact IH.
  cbn [is_enumeration] in Hi. now rewrite Hi.
Qed.

(** X18. A vocabulary file that is a JSON object whose [@graph] is a
    list: its entry in [jsonld_docs] is described by the first item of
    the list that is an object of type [schema:Enumeration], whatever
    comes after it: the title is the [name] of that item followed by
    [ JSON-LD Vocabulary], or the file name when it has no [name], and
    the description is its [comment], or the standard text; with no
    such item in the list, the title is the file name and the
    description the standard text. *)
Theorem X18_first_enumeration_describes_vocabulary (w : world)
    (jsonld_path : pystr) (vocab : pydict) (pre rest : list pyval) :
  let fname := os_path_basename jsonld_path in
  let standard := key "JSON-LD vocabulary for ValueSet enumeration" in
  let entry title description :=
    PDict [(key "title", title); (key "description", description);
           (key "filename", PStr fname)] in
  load_json w jsonld_path = Ok (PDict vocab) ->
  dict_get vocab (key "@graph") = Some (PList (pre ++ rest)) ->
  Forall (fun i => is_enumeration i = false) pre ->
  match rest with
  | [] => jsonld_doc w jsonld_path = Ok (entry (PStr fname) standard)
  | item :: _ =>
      is_enumeration item = true ->
      exists d, item = PDict d /\
        jsonld_doc w jsonld_path =
        Ok (entry (match dict_get d (key "name") with
                   | Some name => PStr (py_str name ++ str " JSON-LD Vocabulary")
                   | None => PStr fname
                   end)
                  (default standard (dict_get d (key "comment"))))
  end.
Proof.
  intros fname standard entry Hload Hgraph Hpre.
  unfold jsonld_doc. rewrite Hload.
  cbn [mbind outcome_bind obind py_get]. rewrite Hgraph. cbn [default from_option id].
  fold fname. destruct rest as [|item post].
  - rewrite app_nil_r, (graph_loop_none _ _ _ Hpre). reflexivity.
  - intros Hitem. destruct item as [| | | | |d]; try discriminate.
    exists d. split; [reflexivity|].
    cbn [is_enumeration] in Hitem.
    now rewrite (graph_loop_first _ _ _ _ _ Hpre Hitem).
Qed.

(** ** Substrings *)

Lemma contains_trans s p q :
  contains s p = true -> contains p q = true -> contains s q = true.
Proof.
  intros Hsp Hpq.
  apply contains_spec in Hsp as (a & b & ->).
  apply contains_spec in Hpq as (c & e & ->).
  replace (a ++ (c ++ q ++ e) ++ b) with ((a ++ c) ++ q ++ (e ++ b))
    by now rewrite <- !app_assoc.
  apply contains_app.
Qed.

Lemma endswith_spec s p : endswith s p = true -> exists pre, s = pre ++ p.
Proof.
  unfold endswith. intros Hs. apply startswith_spec in Hs as [r Hr].
  exists (rev r). rewrite <- (rev_involutive s), Hr, rev_app_distr.
  now rewrite rev_involutive.
Qed.

Lemma replace_char_absent a b : a <> b -> forall s,
  contains (str_replace s [a] [b]) [a] = false.
Proof.
  intros Hab. unfold str_replace. induction s as [|c s IH]; [reflexivity|].
  cbn [replace_from startswith length Nat.sub app].
  destruct (N.eqb_spec a c) as [->|Hac]; cbn [andb].
  - destruct s; cbn [startswith app contains]; rewrite IH;
      destruct (N.eqb_spec c b); try congruence; reflexivity.
  - cbn [contains startswith]. rewrite IH.
    destruct (N.eqb_spec a c); try congruence.
    now destruct s.
Qed.

(** X19. The link of an OpenAPI file is decided by two substring
    tests on the path with its backslashes turned into slashes: it is
    [images/openapi/<file name>] when the path has [/images/openapi/]
    and either has [/output/images/openapi/] or the output directory
    of OpenAPI files exists; otherwise it is [schemas/<file name>] when
    the path has [/schemas/], and the bare file name when it has not.
    The test on the end of the path never decides. *)
Theorem X19_relative_path_by_substrings (openapi_path : pystr)
    (output_openapi_dir_exists : bool) :
  let filename := os_path_basename openapi_path in
  let normalized := str_replace openapi_path BACKSLASH (str "/") in
  relative_path openapi_path output_openapi_dir_exists =
  if contains normalized (str "/images/openapi/")
     && (contains normalized (str "/output/images/openapi/")
         || output_openapi_dir_exists)
  then str "images/openapi/" ++ filename
  else if contains normalized (str "/schemas/")
  then str "schemas/" ++ filename
  else filename.
Proof.
  intros filename normalized. unfold relative_path.
  fold filename. fold normalized.
  assert (Himages : contains normalized (str "/output/images/openapi/") = true ->
                    contains normalized (str "/images/openapi/") = true).
  { intros Ha. apply (contains_trans _ _ _ Ha). reflexivity. }
  assert (Hagain : str_replace normalized BACKSLASH (str "/") = normalized).
  { apply replace_no_occurrence. apply replace_char_absent. discriminate. }
  rewrite Hagain.
  assert (Hend : endswith normalized (str "/output/schemas/" ++ filename) = true ->
                 contains normalized (str "/schemas/") = true).
  { intros He. apply endswith_spec in He as [pre ->].
    change (str "/output/schemas/" ++ filename)
      with (str "/output" ++ str "/schemas/" ++ filename).
    rewrite app_assoc. apply contains_app. }
  destruct (contains normalized (str "/output/images/openapi/"));
    [rewrite Himages by reflexivity; reflexivity|].
  destruct (contains normalized (str "/images/openapi/")),
    output_openapi_dir_exists; cbn [orb andb]; try reflexivity;
    (destruct (endswith normalized (str "/output/schemas/" ++ filename));
     [rewrite Hend by reflexivity; reflexivity|reflexivity]).
Qed.

End MainDocsFacts.

Section MainDocsExamples.
Import MainDocs MainDocsSamples.
Import Samples.

Lemma X18_witness :
  @jsonld_doc plain_repr vocabulary_world (str "output/schemas/ValueSet-colours.jsonld")
  = Ok (PDict [(key "title", key "Colours JSON-LD Vocabulary");
               (key "description", key "JSON-LD vocabulary for ValueSet enumeration");
               (key "filename", key "ValueSet-colours.jsonld")]).
Proof.
  destruct (@X18_first_enumeration_describes_vocabulary plain_repr vocabulary_world
              (str "output/schemas/ValueSet-colours.jsonld") vocabulary
              [key "header"] [PDict colours; PDict shades]
              ltac:(vm_compute; reflexivity) eq_refl
              ltac:(repeat constructor) eq_refl)
    as (d & Hd & Hdoc).
  injection Hd as <-. rewrite Hdoc. vm_compute. reflexivity.
Defined.

End MainDocsExamples.

(* ===================================================================== *)
(** * The placeholder anywhere in a page *)
(* ===================================================================== *)

Section PlaceholderSearch.
Import HTMLProcessor TemplateCheck.

Lemma re_search_inv r : forall s before rest,
  re_search r s = Some (before, rest) ->
  exists m, s = before ++ m /\ match_at r m = Some rest.
Proof.
  induction s as [|c s IH]; intros before rest; cbn [re_search].
  - destruct (match_at r []) as [u|] eqn:Hat; [|discriminate].
    intros [= <- <-]. now exists [].
  - destruct (match_at r (c :: s)) as [u|] eqn:Hat.
    + intros [= <- <-]. now exists (c :: s).
    + destruct (re_search r s) as [[b u]|] eqn:Hs; [|discriminate].
      intros [= <- <-]. destruct (IH _ _ eq_refl) as (m & -> & Hm).
      now exists m.
Qed.

Lemma re_search_found r m : forall before,
  match_at r m <> None -> re_search r (before ++ m) <> None.
Proof.
  induction before as [|c before IH]; intros Hm; cbn [app].
  - destruct m; cbn [re_search]; destruct (match_at r _); congruence.
  - cbn [re_search]. destruct (match_at r (c :: before ++ m)); [discriminate|].
    specialize (IH Hm). now destruct (re_search r (before ++ m)) as [[? ?]|].
Qed.

(** X20. [re.search] finds the placeholder pattern in a page exactly
    when the page has a placeholder element somewhere: [<div], white
    space, the identifier attribute as the first attribute, any
    characters but [>], [>], a content without [</div>], and
    [</div>]. *)
Theorem X20_search_finds_placeholder_elements (html_content : pystr) :
  re_search placeholder_pattern html_content <> None <->
  exists before ws attrs body after,
    html_content = before ++ placeholder_element ws attrs body ++ after /\
    ws <> [] /\ forallb is_space ws = true /\
    forallb not_tag_end attrs = true /\
    contains body DIV_CLOSE = false.
Proof.
  split.
  - destruct (re_search placeholder_pattern html_content) as [[before after]|] eqn:Hs;
      [intros _|congruence].
    apply re_search_inv in Hs as (m & -> & Hm).
    apply placeholder_match_inv in Hm as (ws & attrs & body & -> & Hrest).
    now exists before, ws, attrs, body, after.
  - intros (before & ws & attrs & body & after & -> & Hne & Hws & Hattrs & Hbody).
    apply re_search_found.
    now rewrite (placeholder_match_at ws attrs body after Hne Hws Hattrs Hbody).
Qed.

Lemma re_search_weaker r1 r2 :
  (forall s, match_at r1 s <> None -> match_at r2 s <> None) ->
  forall s, re_search r1 s <> None -> re_search r2 s <> None.
Proof.
  intros Hweaker s Hs.
  destruct (re_search r1 s) as [[before after]|] eqn:Hr; [|congruence].
  apply re_search_inv in Hr as (m & -> & Hm).
  apply re_search_found, Hweaker. congruence.
Qed.

Lemma opening_of_placeholder s :
  match_at placeholder_pattern s <> None -> match_at opening_pattern s <> None.
Proof.
  destruct (match_at placeholder_pattern s) as [rest|] eqn:Hm; [intros _|congruence].
  apply placeholder_match_inv in Hm as (ws & attrs & body & -> & Hne & Hws & _).
  unfold match_at, opening_pattern, placeholder_element.
  rewrite <- !app_assoc. cbn [rmatch]. rewrite match_chars_app.
  destruct ws as [|c ws]; [congruence|]. cbn [app].
  cbn in Hws. apply andb_true_iff in Hws as [-> Hws].
  change (ID_ATTR ++ attrs ++ TAG_END ++ body ++ DIV_CLOSE ++ rest)
    with (105%N :: (tail ID_ATTR ++ attrs ++ TAG_END ++ body ++ DIV_CLOSE ++ rest)).
  erewrite star_greedy_run; [discriminate|exact Hws|reflexivity|].
  change (105%N :: (tail ID_ATTR ++ attrs ++ TAG_END ++ body ++ DIV_CLOSE ++ rest))
    with (ID_ATTR ++ attrs ++ TAG_END ++ body ++ DIV_CLOSE ++ rest).
  now rewrite match_chars_app.
Qed.

(** X21. The check of the template by [main] is weaker than the test
    of the injection.  A page in which the injection finds the
    placeholder is announced by [main] as having it; but a page that
    has the identifier attribute only elsewhere than right after
    [<div] and white space (as a later attribute, or on another
    element) is announced in the same way, and the injection finds no
    placeholder in it. *)
Theorem X21_announced_placeholder_may_not_match (html_content : pystr) :
  (re_search placeholder_pattern html_content <> None ->
   template_check html_content = FoundPlaceholder) /\
  (contains html_content ID_ATTR = true ->
   re_search opening_pattern html_content = None ->
   template_check html_content = FoundPlaceholder /\
   re_search placeholder_pattern html_content = None).
Proof.
  split.
  - destruct (re_search placeholder_pattern html_content) as [[before after]|] eqn:Hs;
      [intros _|congruence].
    apply re_search_inv in Hs as (m & -> & Hm).
    apply placeholder_match_inv in Hm as (ws & attrs & body & -> & _).
    unfold template_check, placeholder_element.
    replace (before ++ (DIV_OPEN ++ ws ++ ID_ATTR ++ attrs ++ TAG_END ++ body ++ DIV_CLOSE)
             ++ after)
      with ((before ++ DIV_OPEN ++ ws) ++ ID_ATTR
            ++ (attrs ++ TAG_END ++ body ++ DIV_CLOSE ++ after))
      by now rewrite <- !app_assoc.
    now rewrite contains_app.
  - intros Hid Hopening. unfold template_check. rewrite Hid.
    split; [reflexivity|].
    destruct (re_search placeholder_pattern html_content) as [[before after]|] eqn:Hs;
      [|reflexivity].
    exfalso.
    apply (re_search_weaker _ _ opening_of_placeholder html_content);
      [rewrite Hs; discriminate|exact Hopening].
Qed.

End PlaceholderSearch.

Section PlaceholderSearchExamples.
Import HTMLProcessor TemplateCheck.

Lemma X21_witness :
  let page := str "<div class='hub' " ++ ID_ATTR ++ str ">Loading...</div>" in
  template_check page = FoundPlaceholder /\
  re_search placeholder_pattern page = None.
Proof.
  cbv zeta.
  apply (proj2 (X21_announced_placeholder_may_not_match
                  (str "<div class='hub' " ++ ID_ATTR ++ str ">Loading...</div>")));
    vm_compute; reflexivity.
Defined.

End PlaceholderSearchExamples.
